(** * librtcm: the RTCM 10403.3 version-3 message decoder (c/src/decode.c)

    A shallow embedding of the decoders of [decode.c] and the properties
    that its specification states about them.

    Conventions of the embedding.
    - C unsigned and signed integers are [Z]; an assignment to a variable
      whose type the source shows is written with the wrap-around of that
      type ([u8], [u16], [u32], [s8], [s16], [s32]).  The fields of the
      records are declared in headers that are not among the sources; they
      receive fields of the buffer that are in range by their width.
    - [double] is Rocq's primitive binary64 [float]; the arithmetic is the
      IEEE 754 round-to-nearest arithmetic of [PrimFloat].
    - The input buffer is a list of bytes; the bit cursor [bit] of the source
      ([uint16_t]) is threaded explicitly through every reader.
    - A C array is a [list] read with [!!] and written with [<[i:=x]>]; a
      write outside the list is dropped (in C it is undefined behaviour).
    - A function that fills a caller-provided record takes the record and
      returns the status code together with the record as it is left. *)

From Stdlib Require Import ZArith Lia List Bool Floats.
From Stdlib.Strings Require Import Byte.
From stdpp Require Import base list.
Import ListNotations.

#[local] Open Scope Z_scope.
#[local] Set Warnings "-inexact-float".

(* ------------------------------------------------------------------ *)
(** ** Fixed-width integers *)

Definition u8 (x : Z) : Z := x mod 2 ^ 8.
Definition u16 (x : Z) : Z := x mod 2 ^ 16.
Definition u32 (x : Z) : Z := x mod 2 ^ 32.
Definition s8 (x : Z) : Z := (x + 2 ^ 7) mod 2 ^ 8 - 2 ^ 7.
Definition s16 (x : Z) : Z := (x + 2 ^ 15) mod 2 ^ 16 - 2 ^ 15.
Definition s32 (x : Z) : Z := (x + 2 ^ 31) mod 2 ^ 32 - 2 ^ 31.

(** [(double)z] for an integer [z]; exact for [|z| < 2^53]. *)
Definition Z2F (z : Z) : float :=
  if z <? 0 then PrimFloat.opp (PrimFloat.of_uint63 (Uint63.of_Z (- z)))
  else PrimFloat.of_uint63 (Uint63.of_Z z).

(** A C integer used as a truth value. *)
Definition Z2B (z : Z) : bool := negb (z =? 0).

(** [for (i = 0; i < n; i++) s = body i s;] with a counter that cannot
    wrap because [n] has the counter's type. *)
Fixpoint for_loop_from {S : Type} (n : nat) (i : nat) (body : nat -> S -> S) (s : S) : S :=
  match n with
  | O => s
  | Datatypes.S n' => for_loop_from n' (Datatypes.S i) body (body i s)
  end.

Definition for_loop {S : Type} (n : nat) (body : nat -> S -> S) (s : S) : S :=
  for_loop_from n 0 body s.

(* ------------------------------------------------------------------ *)
(** ** Bit reader (rtcm3/bits.h) *)

(** Modelled from the spec: [rtcm3/bits.h] is not among the sources.  The
    spec (4.1) asks for the extraction of [len] bits starting at bit
    [pos], MSB-first and across byte boundaries.  A read past the end of
    the buffer is undefined at this layer; here it yields zero bits. *)
Definition buff_byte (buff : list Byte.byte) (i : Z) : Z :=
  match buff !! Z.to_nat i with
  | Some b => Z.of_N (Byte.to_N b)
  | None => 0
  end.

(** Modelled from the spec: bit [pos] of the buffer, MSB of a byte first. *)
Definition buff_bit (buff : list Byte.byte) (pos : Z) : Z :=
  Z.land (Z.shiftr (buff_byte buff (pos / 8)) (7 - pos mod 8)) 1.

(** Modelled from the spec: the accumulation loop of the unsigned read. *)
Fixpoint getbitu_from (len : nat) (buff : list Byte.byte) (pos : Z) (bits : Z) : Z :=
  match len with
  | O => bits
  | Datatypes.S n => getbitu_from n buff (pos + 1) (Z.shiftl bits 1 + buff_bit buff pos)
  end.

(** Modelled from the spec: [get_unsigned(buf, offset_bits, width_bits)],
    the zero-extended field. *)
Definition rtcm_getbitu (buff : list Byte.byte) (pos len : Z) : Z :=
  getbitu_from (Z.to_nat len) buff pos 0.

(** Modelled from the spec: [get_signed], the field sign-extended from its
    high bit. *)
Definition rtcm_getbits (buff : list Byte.byte) (pos len : Z) : Z :=
  let bits := rtcm_getbitu buff pos len in
  let m := Z.shiftl 1 (len - 1) in
  Z.lxor bits m - m.

(** Modelled from the spec: the 64-bit-wide signed variant. *)
Definition rtcm_getbitsl (buff : list Byte.byte) (pos len : Z) : Z :=
  rtcm_getbits buff pos len.

(* ------------------------------------------------------------------ *)
(** ** Constants and enumerations (rtcm3/constants.h, rtcm3/messages.h) *)

Inductive rtcm3_rc : Set :=
  | RC_OK
  | RC_MESSAGE_TYPE_MISMATCH
  | RC_INVALID_MESSAGE.

Inductive msm_enum : Set :=
  | MSM_UNKNOWN | MSM1 | MSM2 | MSM3 | MSM4 | MSM5 | MSM6 | MSM7.

Inductive rtcm_constellation_t : Set :=
  | RTCM_CONSTELLATION_GPS
  | RTCM_CONSTELLATION_SBAS
  | RTCM_CONSTELLATION_GLO
  | RTCM_CONSTELLATION_BDS
  | RTCM_CONSTELLATION_QZS
  | RTCM_CONSTELLATION_GAL
  | RTCM_CONSTELLATION_IRN
  | RTCM_CONSTELLATION_INVALID.

Definition msm_enum_eqb (a b : msm_enum) : bool :=
  match a, b with
  | MSM_UNKNOWN, MSM_UNKNOWN | MSM1, MSM1 | MSM2, MSM2 | MSM3, MSM3
  | MSM4, MSM4 | MSM5, MSM5 | MSM6, MSM6 | MSM7, MSM7 => true
  | _, _ => false
  end.

Definition cons_eqb (a b : rtcm_constellation_t) : bool :=
  match a, b with
  | RTCM_CONSTELLATION_GPS, RTCM_CONSTELLATION_GPS
  | RTCM_CONSTELLATION_SBAS, RTCM_CONSTELLATION_SBAS
  | RTCM_CONSTELLATION_GLO, RTCM_CONSTELLATION_GLO
  | RTCM_CONSTELLATION_BDS, RTCM_CONSTELLATION_BDS
  | RTCM_CONSTELLATION_QZS, RTCM_CONSTELLATION_QZS
  | RTCM_CONSTELLATION_GAL, RTCM_CONSTELLATION_GAL
  | RTCM_CONSTELLATION_IRN, RTCM_CONSTELLATION_IRN
  | RTCM_CONSTELLATION_INVALID, RTCM_CONSTELLATION_INVALID => true
  | _, _ => false
  end.

(** Modelled from the spec: the macros of the missing [rtcm3/constants.h]
    whose values the spec gives (3, 4.3, 4.5). *)
Definition NUM_FREQS : Z := 2.
Definition MT1012_GLO_FCN_OFFSET : Z := 7.
Definition MT1012_GLO_MAX_FCN : Z := 20.
Definition RTCM_MAX_TOW_MS : Z := 604799999.
Definition RTCM_GLO_MAX_TOW_MS : Z := 86400999.
Definition C_2P30 : Z := 1073741824.
Definition BDS_SECOND_TO_GPS_SECOND : Z := 14.
Definition MSM_MAX_CELLS : Z := 64.
Definition MSM_SATELLITE_MASK_SIZE : nat := 64.
Definition MSM_SIGNAL_MASK_SIZE : nat := 32.
Definition MSM_ROUGH_RANGE_INVALID : Z := 255.
Definition MSM_ROUGH_RATE_INVALID : Z := -8192.
Definition MSM_PR_INVALID : Z := -16384.
Definition MSM_PR_EXT_INVALID : Z := -524288.
Definition MSM_CP_INVALID : Z := -2097152.
Definition MSM_CP_EXT_INVALID : Z := -8388608.
Definition MSM_DOP_INVALID : Z := -16384.
Definition PRUNIT_GPS : float := 299792.458%float.
Definition PRUNIT_GLO : float := 599584.916%float.
Definition C_1_2P4 : float := 0.0625%float.
Definition C_1_2P24 : float := 0x1p-24%float.
Definition C_1_2P29 : float := 0x1p-29%float.
Definition C_1_2P31 : float := 0x1p-31%float.

(** The parts of the missing headers that the spec leaves open: the
    physical constants of the carrier-phase reconstruction, the legacy
    sentinels after their [(int)] cast, the FCN-unknown marker, and the two
    classifiers of [rtcm3/msm_utils.h].  The decoders are stated over any
    choice of them. *)
Class rtcm_externals := {
  GPS_C : float;
  GPS_L1_HZ : float;
  GPS_L2_HZ : float;
  GLO_L1_HZ : float;
  GLO_L2_HZ : float;
  GLO_L1_DELTA_HZ : float;
  GLO_L2_DELTA_HZ : float;
  PR_L1_INVALID : Z;
  PR_L2_INVALID : Z;
  CP_INVALID : Z;
  MSM_GLO_FCN_UNKNOWN : Z;
  to_msm_type : Z -> msm_enum;
  to_constellation : Z -> rtcm_constellation_t
}.

(** Modelled from the spec: the MSM classifier of 4.6, the last digit of a
    message number in 1071..1137 giving the MSM type. *)
Definition spec_to_msm_type (msg_num : Z) : msm_enum :=
  if (msg_num <? 1071) || (1137 <? msg_num) then MSM_UNKNOWN
  else match msg_num mod 10 with
       | 1 => MSM1 | 2 => MSM2 | 3 => MSM3 | 4 => MSM4
       | 5 => MSM5 | 6 => MSM6 | 7 => MSM7
       | _ => MSM_UNKNOWN
       end.

(** Modelled from the spec: the constellation ranges of 4.6. *)
Definition spec_to_constellation (msg_num : Z) : rtcm_constellation_t :=
  if msg_num <? 1071 then RTCM_CONSTELLATION_INVALID
  else if msg_num <? 1080 then RTCM_CONSTELLATION_GPS
  else if msg_num <? 1090 then RTCM_CONSTELLATION_GLO
  else if msg_num <? 1100 then RTCM_CONSTELLATION_GAL
  else if msg_num <? 1110 then RTCM_CONSTELLATION_SBAS
  else if msg_num <? 1120 then RTCM_CONSTELLATION_QZS
  else if msg_num <? 1130 then RTCM_CONSTELLATION_BDS
  else if msg_num <? 1140 then RTCM_CONSTELLATION_IRN
  else RTCM_CONSTELLATION_INVALID.

(** Modelled from the spec: one instance of the open parts, used to run
    the decoders on test vectors.  The speed of light and the L1
    frequencies are those of 4.3, the sentinels are the minimum of their
    signed field (glossary, "Sentinel"); the L2 frequencies and the
    FCN-unknown marker, which the spec does not give, have their customary
    values.  No theorem stated over [rtcm_externals] depends on them. *)
Definition spec_externals : rtcm_externals := {|
  GPS_C := 299792458.0%float;
  GPS_L1_HZ := 1575.42e6%float;
  GPS_L2_HZ := 1227.60e6%float;
  GLO_L1_HZ := 1602.0e6%float;
  GLO_L2_HZ := 1246.0e6%float;
  GLO_L1_DELTA_HZ := 0.5625e6%float;
  GLO_L2_DELTA_HZ := 0.4375e6%float;
  PR_L1_INVALID := -524288;
  PR_L2_INVALID := -8192;
  CP_INVALID := -524288;
  MSM_GLO_FCN_UNKNOWN := 255;
  to_msm_type := spec_to_msm_type;
  to_constellation := spec_to_constellation
|}.

(** Modelled from the spec: [count_mask_values] of the missing
    [rtcm3/msm_utils.h], the population count of the first [mask_size]
    entries of a mask (spec 3, [num_sats = popcount(satellite_mask)]). *)
Definition count_mask_values (mask_size : nat) (mask : list bool) : Z :=
  Z.of_nat (length (filter (fun b : bool => b = true) (take mask_size mask))).

(* ------------------------------------------------------------------ *)
(** ** Lock-time tables *)

(** [from_lock_ind]: the 7-bit lock time indicator in integer seconds. *)
Definition from_lock_ind (lock : Z) : Z :=
  if lock <? 24 then u32 lock
  else if lock <? 48 then u32 (2 * lock - 24)
  else if lock <? 72 then u32 (4 * lock - 120)
  else if lock <? 96 then u32 (8 * lock - 408)
  else if lock <? 120 then u32 (16 * lock - 1176)
  else if lock <? 127 then u32 (32 * lock - 3096)
  else 937.

(** [rtcm3_decode_lock_time]: the 4-bit indicator DF402 in seconds. *)
Definition rtcm3_decode_lock_time (lock : Z) : float :=
  let lock := Z.land lock 15 in
  if lock =? 0 then 0%float
  else PrimFloat.div (Z2F (s32 (Z.shiftl 32 (lock - 1)))) 1000%float.

(** [from_msm_lock_ind_ext]: the extended indicator DF407 in milliseconds. *)
Definition from_msm_lock_ind_ext (lock : Z) : Z :=
  if lock <? 64 then u32 lock
  else if lock <? 96 then u32 (2 * lock - 64)
  else if lock <? 128 then u32 (4 * lock - 256)
  else if lock <? 160 then u32 (8 * lock - 768)
  else if lock <? 192 then u32 (16 * lock - 2048)
  else if lock <? 224 then u32 (32 * lock - 5120)
  else if lock <? 256 then u32 (64 * lock - 12288)
  else if lock <? 288 then u32 (128 * lock - 28672)
  else if lock <? 320 then u32 (256 * lock - 65536)
  else if lock <? 352 then u32 (512 * lock - 147456)
  else if lock <? 384 then u32 (1024 * lock - 327680)
  else if lock <? 416 then u32 (2048 * lock - 720896)
  else if lock <? 448 then u32 (4096 * lock - 1572864)
  else if lock <? 480 then u32 (8192 * lock - 3407872)
  else if lock <? 512 then u32 (16384 * lock - 7340032)
  else if lock <? 544 then u32 (32768 * lock - 15728640)
  else if lock <? 576 then u32 (65536 * lock - 33554432)
  else if lock <? 608 then u32 (131072 * lock - 71303168)
  else if lock <? 640 then u32 (262144 * lock - 150994944)
  else if lock <? 672 then u32 (524288 * lock - 318767104)
  else if lock <? 704 then u32 (1048576 * lock - 671088640)
  else 67108864.

(* ------------------------------------------------------------------ *)
(** ** Records (rtcm3/messages.h) *)

(** [flag_bf]: the validity bits of one observation.  The C union overlays
    the five one-bit fields with the byte [data]; [flags.data = 0] clears
    them all. *)
Record flag_bf : Set := mk_flag_bf {
  valid_pr : bool;
  valid_cp : bool;
  valid_cnr : bool;
  valid_lock : bool;
  valid_dop : bool
}.

Definition flags_data_zero : flag_bf := mk_flag_bf false false false false false.

Definition set_valid_pr (f : flag_bf) (b : bool) : flag_bf :=
  mk_flag_bf b (valid_cp f) (valid_cnr f) (valid_lock f) (valid_dop f).
Definition set_valid_cp (f : flag_bf) (b : bool) : flag_bf :=
  mk_flag_bf (valid_pr f) b (valid_cnr f) (valid_lock f) (valid_dop f).
Definition set_valid_cnr (f : flag_bf) (b : bool) : flag_bf :=
  mk_flag_bf (valid_pr f) (valid_cp f) b (valid_lock f) (valid_dop f).
Definition set_valid_lock (f : flag_bf) (b : bool) : flag_bf :=
  mk_flag_bf (valid_pr f) (valid_cp f) (valid_cnr f) b (valid_dop f).
Definition set_valid_dop (f : flag_bf) (b : bool) : flag_bf :=
  mk_flag_bf (valid_pr f) (valid_cp f) (valid_cnr f) (valid_lock f) b.

(** The legacy observation messages 1001-1004, 1010 and 1012. *)
Module Obs.

Record rtcm_obs_header : Set := mk_header {
    msg_num : Z;
    stn_id : Z;
    tow_ms : Z;
    sync : Z;
    n_sat : Z;
    div_free : Z;
    smooth : Z
  }.

Record rtcm_freq_data : Set := mk_freq_data {
    code : Z;
    pseudorange : float;
    carrier_phase : float;
    lock : Z;
    cnr : float;
    flags : flag_bf
  }.

(** [obs[NUM_FREQS]] with [NUM_FREQS = 2] is the pair of its entries
      [obs[L1_FREQ]] and [obs[L2_FREQ]]. *)
Record rtcm_sat_data : Set := mk_sat_data {
    svId : Z;
    fcn : Z;
    obs_L1 : rtcm_freq_data;
    obs_L2 : rtcm_freq_data
  }.

Record rtcm_obs_message : Set := mk_message {
    header : rtcm_obs_header;
    sats : list rtcm_sat_data
  }.

Definition set_msg_num h v := mk_header v (stn_id h) (tow_ms h) (sync h) (n_sat h) (div_free h) (smooth h).
Definition set_stn_id h v := mk_header (msg_num h) v (tow_ms h) (sync h) (n_sat h) (div_free h) (smooth h).
Definition set_tow_ms h v := mk_header (msg_num h) (stn_id h) v (sync h) (n_sat h) (div_free h) (smooth h).
Definition set_sync h v := mk_header (msg_num h) (stn_id h) (tow_ms h) v (n_sat h) (div_free h) (smooth h).
Definition set_n_sat h v := mk_header (msg_num h) (stn_id h) (tow_ms h) (sync h) v (div_free h) (smooth h).
Definition set_div_free h v := mk_header (msg_num h) (stn_id h) (tow_ms h) (sync h) (n_sat h) v (smooth h).
Definition set_smooth h v := mk_header (msg_num h) (stn_id h) (tow_ms h) (sync h) (n_sat h) (div_free h) v.

Definition set_code d v := mk_freq_data v (pseudorange d) (carrier_phase d) (lock d) (cnr d) (flags d).
Definition set_pseudorange d v := mk_freq_data (code d) v (carrier_phase d) (lock d) (cnr d) (flags d).
Definition set_carrier_phase d v := mk_freq_data (code d) (pseudorange d) v (lock d) (cnr d) (flags d).
Definition set_lock d v := mk_freq_data (code d) (pseudorange d) (carrier_phase d) v (cnr d) (flags d).
Definition set_cnr d v := mk_freq_data (code d) (pseudorange d) (carrier_phase d) (lock d) v (flags d).
Definition set_flags d v := mk_freq_data (code d) (pseudorange d) (carrier_phase d) (lock d) (cnr d) v.

Definition set_svId s v := mk_sat_data v (fcn s) (obs_L1 s) (obs_L2 s).
Definition set_fcn s v := mk_sat_data (svId s) v (obs_L1 s) (obs_L2 s).
Definition set_obs_L1 s v := mk_sat_data (svId s) (fcn s) v (obs_L2 s).
Definition set_obs_L2 s v := mk_sat_data (svId s) (fcn s) (obs_L1 s) v.

Definition set_header m v := mk_message v (sats m).
Definition set_sats m v := mk_message (header m) v.

Definition freq_data_zero : rtcm_freq_data :=
    mk_freq_data 0 0%float 0%float 0 0%float flags_data_zero.
Definition sat_data_zero : rtcm_sat_data :=
    mk_sat_data 0 0 freq_data_zero freq_data_zero.
Definition header_zero : rtcm_obs_header := mk_header 0 0 0 0 0 0 0.

End Obs.

(** The Multiple Signal Messages MSM4-MSM7. *)
Module Msm.

Record rtcm_msm_header : Set := mk_header {
    msg_num : Z;
    stn_id : Z;
    tow_ms : Z;
    multiple : Z;
    iods : Z;
    reserved : Z;
    steering : Z;
    ext_clock : Z;
    div_free : Z;
    smooth : Z;
    satellite_mask : list bool;
    signal_mask : list bool;
    cell_mask : list bool
  }.

Record rtcm_msm_sat_data : Set := mk_sat_data {
    glo_fcn : Z;
    rough_range_ms : float;
    rough_range_rate_m_s : float
  }.

Record rtcm_msm_signal_data : Set := mk_signal_data {
    pseudorange_ms : float;
    carrier_phase_ms : float;
    lock_time_s : float;
    hca_indicator : bool;
    cnr : float;
    flags : flag_bf;
    range_rate_m_s : float
  }.

Record rtcm_msm_message : Set := mk_message {
    header : rtcm_msm_header;
    sats : list rtcm_msm_sat_data;
    signals : list rtcm_msm_signal_data
  }.

Definition set_msg_num h v := mk_header v (stn_id h) (tow_ms h) (multiple h) (iods h) (reserved h) (steering h) (ext_clock h) (div_free h) (smooth h) (satellite_mask h) (signal_mask h) (cell_mask h).
Definition set_stn_id h v := mk_header (msg_num h) v (tow_ms h) (multiple h) (iods h) (reserved h) (steering h) (ext_clock h) (div_free h) (smooth h) (satellite_mask h) (signal_mask h) (cell_mask h).
Definition set_tow_ms h v := mk_header (msg_num h) (stn_id h) v (multiple h) (iods h) (reserved h) (steering h) (ext_clock h) (div_free h) (smooth h) (satellite_mask h) (signal_mask h) (cell_mask h).
Definition set_multiple h v := mk_header (msg_num h) (stn_id h) (tow_ms h) v (iods h) (reserved h) (steering h) (ext_clock h) (div_free h) (smooth h) (satellite_mask h) (signal_mask h) (cell_mask h).
Definition set_iods h v := mk_header (msg_num h) (stn_id h) (tow_ms h) (multiple h) v (reserved h) (steering h) (ext_clock h) (div_free h) (smooth h) (satellite_mask h) (signal_mask h) (cell_mask h).
Definition set_reserved h v := mk_header (msg_num h) (stn_id h) (tow_ms h) (multiple h) (iods h) v (steering h) (ext_clock h) (div_free h) (smooth h) (satellite_mask h) (signal_mask h) (cell_mask h).
Definition set_steering h v := mk_header (msg_num h) (stn_id h) (tow_ms h) (multiple h) (iods h) (reserved h) v (ext_clock h) (div_free h) (smooth h) (satellite_mask h) (signal_mask h) (cell_mask h).
Definition set_ext_clock h v := mk_header (msg_num h) (stn_id h) (tow_ms h) (multiple h) (iods h) (reserved h) (steering h) v (div_free h) (smooth h) (satellite_mask h) (signal_mask h) (cell_mask h).
Definition set_div_free h v := mk_header (msg_num h) (stn_id h) (tow_ms h) (multiple h) (iods h) (reserved h) (steering h) (ext_clock h) v (smooth h) (satellite_mask h) (signal_mask h) (cell_mask h).
Definition set_smooth h v := mk_header (msg_num h) (stn_id h) (tow_ms h) (multiple h) (iods h) (reserved h) (steering h) (ext_clock h) (div_free h) v (satellite_mask h) (signal_mask h) (cell_mask h).
Definition set_satellite_mask h v := mk_header (msg_num h) (stn_id h) (tow_ms h) (multiple h) (iods h) (reserved h) (steering h) (ext_clock h) (div_free h) (smooth h) v (signal_mask h) (cell_mask h).
Definition set_signal_mask h v := mk_header (msg_num h) (stn_id h) (tow_ms h) (multiple h) (iods h) (reserved h) (steering h) (ext_clock h) (div_free h) (smooth h) (satellite_mask h) v (cell_mask h).
Definition set_cell_mask h v := mk_header (msg_num h) (stn_id h) (tow_ms h) (multiple h) (iods h) (reserved h) (steering h) (ext_clock h) (div_free h) (smooth h) (satellite_mask h) (signal_mask h) v.

Definition set_glo_fcn s v := mk_sat_data v (rough_range_ms s) (rough_range_rate_m_s s).
Definition set_rough_range_ms s v := mk_sat_data (glo_fcn s) v (rough_range_rate_m_s s).
Definition set_rough_range_rate_m_s s v := mk_sat_data (glo_fcn s) (rough_range_ms s) v.

Definition set_pseudorange_ms c v := mk_signal_data v (carrier_phase_ms c) (lock_time_s c) (hca_indicator c) (cnr c) (flags c) (range_rate_m_s c).
Definition set_carrier_phase_ms c v := mk_signal_data (pseudorange_ms c) v (lock_time_s c) (hca_indicator c) (cnr c) (flags c) (range_rate_m_s c).
Definition set_lock_time_s c v := mk_signal_data (pseudorange_ms c) (carrier_phase_ms c) v (hca_indicator c) (cnr c) (flags c) (range_rate_m_s c).
Definition set_hca_indicator c v := mk_signal_data (pseudorange_ms c) (carrier_phase_ms c) (lock_time_s c) v (cnr c) (flags c) (range_rate_m_s c).
Definition set_cnr c v := mk_signal_data (pseudorange_ms c) (carrier_phase_ms c) (lock_time_s c) (hca_indicator c) v (flags c) (range_rate_m_s c).
Definition set_flags c v := mk_signal_data (pseudorange_ms c) (carrier_phase_ms c) (lock_time_s c) (hca_indicator c) (cnr c) v (range_rate_m_s c).
Definition set_range_rate_m_s c v := mk_signal_data (pseudorange_ms c) (carrier_phase_ms c) (lock_time_s c) (hca_indicator c) (cnr c) (flags c) v.

Definition set_header m v := mk_message v (sats m) (signals m).
Definition set_sats m v := mk_message (header m) v (signals m).
Definition set_signals m v := mk_message (header m) (sats m) v.

Definition sat_data_zero : rtcm_msm_sat_data := mk_sat_data 0 0%float 0%float.
Definition signal_data_zero : rtcm_msm_signal_data :=
    mk_signal_data 0%float 0%float 0%float false 0%float flags_data_zero 0%float.

End Msm.

(** [rtcm_msg_1230]: the GLONASS code-phase bias message. *)
Record rtcm_msg_1230 : Set := mk_msg_1230 {
  stn_id_1230 : Z;
  bias_indicator : Z;
  fdma_signal_mask : Z;
  L1_CA_cpb_meter : float;
  L1_P_cpb_meter : float;
  L2_CA_cpb_meter : float;
  L2_P_cpb_meter : float
}.

(** [rtcm_msg_swift_proprietary]: the 4062 envelope. *)
Record rtcm_msg_swift_proprietary : Set := mk_msg_swift_proprietary {
  msg_type : Z;
  sender_id : Z;
  len : Z;
  data : list Z
}.

(** [rtcm_msg_1005], [rtcm_msg_1006]: the reference-station records.
    Every field holds the value of a bit field that fits it. *)
Record rtcm_msg_1005 : Set := mk_msg_1005 {
  stn_id_1005 : Z;
  ITRF : Z;
  GPS_ind : Z;
  GLO_ind : Z;
  GAL_ind : Z;
  ref_stn_ind : Z;
  osc_ind : Z;
  quart_cycle_ind : Z;
  arp_x : float;
  arp_y : float;
  arp_z : float
}.

Record rtcm_msg_1006 : Set := mk_msg_1006 {
  msg_1005 : rtcm_msg_1005;
  ant_height : float
}.

(** [rtcm_msg_1029]: the Unicode text message. *)
Record rtcm_msg_1029 : Set := mk_msg_1029 {
  stn_id_1029 : Z;
  mjd_num : Z;
  utc_sec_of_day : Z;
  unicode_chars : Z;
  utf8_code_units_n : Z;
  utf8_code_units : list Z
}.

(* ------------------------------------------------------------------ *)
(** ** Legacy observation decoders *)

Section Decoders.
Context `{Ext : rtcm_externals}.

(** [init_sat_data]: the loop over [freq < NUM_FREQS] clears both flag
    words. *)
Definition init_sat_data (sat_data : Obs.rtcm_sat_data) : Obs.rtcm_sat_data :=
  let sat_data :=
    Obs.set_obs_L1 sat_data (Obs.set_flags (Obs.obs_L1 sat_data) flags_data_zero) in
  Obs.set_obs_L2 sat_data (Obs.set_flags (Obs.obs_L2 sat_data) flags_data_zero).

(** The readers below return the advanced cursor [*bit] first, then the
    record they fill, then their other out-parameters. *)
Definition decode_basic_gps_l1_freq_data (buff : list Byte.byte) (bit : Z)
    (freq_data : Obs.rtcm_freq_data) : Z * Obs.rtcm_freq_data * Z * Z :=
  let freq_data := Obs.set_code freq_data (rtcm_getbitu buff bit 1) in
  let bit := u16 (bit + 1) in
  let pr := rtcm_getbitu buff bit 24 in
  let bit := u16 (bit + 24) in
  let phr_pr_diff := rtcm_getbits buff bit 20 in
  let bit := u16 (bit + 20) in
  let freq_data := Obs.set_lock freq_data (from_lock_ind (u8 (rtcm_getbitu buff bit 7))) in
  let bit := u16 (bit + 7) in
  (bit, freq_data, pr, phr_pr_diff).

Definition decode_basic_glo_l1_freq_data (buff : list Byte.byte) (bit : Z)
    (freq_data : Obs.rtcm_freq_data) : Z * Obs.rtcm_freq_data * Z * Z * Z :=
  let freq_data := Obs.set_code freq_data (rtcm_getbitu buff bit 1) in
  let bit := u16 (bit + 1) in
  let fcn := u8 (rtcm_getbitu buff bit 5) in
  let bit := u16 (bit + 5) in
  let pr := rtcm_getbitu buff bit 25 in
  let bit := u16 (bit + 25) in
  let phr_pr_diff := rtcm_getbits buff bit 20 in
  let bit := u16 (bit + 20) in
  let freq_data := Obs.set_lock freq_data (from_lock_ind (u8 (rtcm_getbitu buff bit 7))) in
  let bit := u16 (bit + 7) in
  (bit, freq_data, pr, phr_pr_diff, fcn).

Definition decode_basic_l2_freq_data (buff : list Byte.byte) (bit : Z)
    (freq_data : Obs.rtcm_freq_data) : Z * Obs.rtcm_freq_data * Z * Z :=
  let freq_data := Obs.set_code freq_data (rtcm_getbitu buff bit 2) in
  let bit := u16 (bit + 2) in
  let pr := rtcm_getbits buff bit 14 in
  let bit := u16 (bit + 14) in
  let phr_pr_diff := rtcm_getbits buff bit 20 in
  let bit := u16 (bit + 20) in
  let freq_data := Obs.set_lock freq_data (from_lock_ind (u8 (rtcm_getbitu buff bit 7))) in
  let bit := u16 (bit + 7) in
  (bit, freq_data, pr, phr_pr_diff).

(** [rtcm3_read_header] returns the number of bits read and the header. *)
Definition rtcm3_read_header (buff : list Byte.byte) (header : Obs.rtcm_obs_header)
    : Z * Obs.rtcm_obs_header :=
  let bit := 0 in
  let header := Obs.set_msg_num header (rtcm_getbitu buff bit 12) in
  let bit := u16 (bit + 12) in
  let header := Obs.set_stn_id header (rtcm_getbitu buff bit 12) in
  let bit := u16 (bit + 12) in
  let header := Obs.set_tow_ms header (rtcm_getbitu buff bit 30) in
  let bit := u16 (bit + 30) in
  let header := Obs.set_sync header (rtcm_getbitu buff bit 1) in
  let bit := u16 (bit + 1) in
  let header := Obs.set_n_sat header (rtcm_getbitu buff bit 5) in
  let bit := u16 (bit + 5) in
  let header := Obs.set_div_free header (rtcm_getbitu buff bit 1) in
  let bit := u16 (bit + 1) in
  let header := Obs.set_smooth header (rtcm_getbitu buff bit 3) in
  let bit := u16 (bit + 3) in
  (bit, header).

Definition rtcm3_read_glo_header (buff : list Byte.byte) (header : Obs.rtcm_obs_header)
    : Z * Obs.rtcm_obs_header :=
  let bit := 0 in
  let header := Obs.set_msg_num header (rtcm_getbitu buff bit 12) in
  let bit := u16 (bit + 12) in
  let header := Obs.set_stn_id header (rtcm_getbitu buff bit 12) in
  let bit := u16 (bit + 12) in
  let header := Obs.set_tow_ms header (rtcm_getbitu buff bit 27) in
  let bit := u16 (bit + 27) in
  let header := Obs.set_sync header (rtcm_getbitu buff bit 1) in
  let bit := u16 (bit + 1) in
  let header := Obs.set_n_sat header (rtcm_getbitu buff bit 5) in
  let bit := u16 (bit + 5) in
  let header := Obs.set_div_free header (rtcm_getbitu buff bit 1) in
  let bit := u16 (bit + 1) in
  let header := Obs.set_smooth header (rtcm_getbitu buff bit 3) in
  let bit := u16 (bit + 3) in
  (bit, header).

(** [normalize_bds2_tow]: unwrap an underflowed uint30 time of week. *)
Definition normalize_bds2_tow (tow_ms : Z) : Z :=
  if tow_ms >=? u32 (C_2P30 - BDS_SECOND_TO_GPS_SECOND * 1000) then
    let negative_tow_ms := u32 (C_2P30 - tow_ms) in
    u32 (RTCM_MAX_TOW_MS + 1 - negative_tow_ms)
  else tow_ms.

(** The four [construct_*] functions return their [uint8_t] result as a
    [bool] together with the record they write. *)
Definition construct_L1_code (l1_freq_data : Obs.rtcm_freq_data) (pr : Z)
    (amb_correction : float) : bool * Obs.rtcm_freq_data :=
  let l1_freq_data :=
    Obs.set_pseudorange l1_freq_data
      (PrimFloat.add (PrimFloat.mul 0.02%float (Z2F pr)) amb_correction) in
  if negb (pr =? PR_L1_INVALID) then (true, l1_freq_data) else (false, l1_freq_data).

Definition construct_L1_phase (l1_freq_data : Obs.rtcm_freq_data) (phr_pr_diff : Z)
    (freq : float) : bool * Obs.rtcm_freq_data :=
  let l1_freq_data :=
    Obs.set_carrier_phase l1_freq_data
      (PrimFloat.div
         (PrimFloat.add (Obs.pseudorange l1_freq_data)
            (PrimFloat.mul 0.0005%float (Z2F phr_pr_diff)))
         (PrimFloat.div GPS_C freq)) in
  if negb (phr_pr_diff =? CP_INVALID) then (true, l1_freq_data) else (false, l1_freq_data).

Definition construct_L2_code (l2_freq_data l1_freq_data : Obs.rtcm_freq_data) (pr : Z)
    : bool * Obs.rtcm_freq_data :=
  let l2_freq_data :=
    Obs.set_pseudorange l2_freq_data
      (PrimFloat.add (PrimFloat.mul 0.02%float (Z2F pr)) (Obs.pseudorange l1_freq_data)) in
  if negb (pr =? PR_L2_INVALID) then (true, l2_freq_data) else (false, l2_freq_data).

Definition construct_L2_phase (l2_freq_data l1_freq_data : Obs.rtcm_freq_data)
    (phr_pr_diff : Z) (freq : float) : bool * Obs.rtcm_freq_data :=
  let l2_freq_data :=
    Obs.set_carrier_phase l2_freq_data
      (PrimFloat.div
         (PrimFloat.add (Obs.pseudorange l1_freq_data)
            (PrimFloat.mul 0.0005%float (Z2F phr_pr_diff)))
         (PrimFloat.div GPS_C freq)) in
  if negb (phr_pr_diff =? CP_INVALID) then (true, l2_freq_data) else (false, l2_freq_data).

(** [get_cnr] returns its result, the record and the advanced cursor. *)
Definition get_cnr (freq_data : Obs.rtcm_freq_data) (buff : list Byte.byte) (bit : Z)
    : bool * Obs.rtcm_freq_data * Z :=
  let cnr := u8 (rtcm_getbitu buff bit 8) in
  let bit := u16 (bit + 8) in
  if cnr =? 0 then (false, freq_data, bit)
  else (true, Obs.set_cnr freq_data (PrimFloat.mul 0.25%float (Z2F cnr)), bit).

Definition set_flag_pr (d : Obs.rtcm_freq_data) (b : bool) : Obs.rtcm_freq_data :=
  Obs.set_flags d (set_valid_pr (Obs.flags d) b).
Definition set_flag_cp (d : Obs.rtcm_freq_data) (b : bool) : Obs.rtcm_freq_data :=
  Obs.set_flags d (set_valid_cp (Obs.flags d) b).
Definition set_flag_cnr (d : Obs.rtcm_freq_data) (b : bool) : Obs.rtcm_freq_data :=
  Obs.set_flags d (set_valid_cnr (Obs.flags d) b).
Definition set_flag_lock (d : Obs.rtcm_freq_data) (b : bool) : Obs.rtcm_freq_data :=
  Obs.set_flags d (set_valid_lock (Obs.flags d) b).

(** The body of the satellite loop of each decoder, on the entry
    [sats[i]] and the cursor; [l1_freq_data] and [l2_freq_data] point into
    the entry and are written back when the body ends. *)
Definition rtcm3_decode_1001_sat (buff : list Byte.byte) (bit : Z)
    (sat : Obs.rtcm_sat_data) : Obs.rtcm_sat_data * Z :=
  let sat := init_sat_data sat in
  let sat := Obs.set_svId sat (rtcm_getbitu buff bit 6) in
  let bit := u16 (bit + 6) in
  let l1_freq_data := Obs.obs_L1 sat in
  let '(bit, l1_freq_data, l1_pr, phr_pr_diff) :=
    decode_basic_gps_l1_freq_data buff bit l1_freq_data in
  let '(r, l1_freq_data) := construct_L1_code l1_freq_data (s32 l1_pr) 0%float in
  let l1_freq_data := set_flag_pr l1_freq_data r in
  let '(r, l1_freq_data) := construct_L1_phase l1_freq_data phr_pr_diff GPS_L1_HZ in
  let l1_freq_data := set_flag_cp l1_freq_data r in
  let l1_freq_data := set_flag_lock l1_freq_data (valid_cp (Obs.flags l1_freq_data)) in
  (Obs.set_obs_L1 sat l1_freq_data, bit).

Definition rtcm3_decode_1002_sat (buff : list Byte.byte) (bit : Z)
    (sat : Obs.rtcm_sat_data) : Obs.rtcm_sat_data * Z :=
  let sat := init_sat_data sat in
  let sat := Obs.set_svId sat (rtcm_getbitu buff bit 6) in
  let bit := u16 (bit + 6) in
  let l1_freq_data := Obs.obs_L1 sat in
  let '(bit, l1_freq_data, l1_pr, phr_pr_diff) :=
    decode_basic_gps_l1_freq_data buff bit l1_freq_data in
  let amb := u8 (rtcm_getbitu buff bit 8) in
  let bit := u16 (bit + 8) in
  let '(r, l1_freq_data, bit) := get_cnr l1_freq_data buff bit in
  let l1_freq_data := set_flag_cnr l1_freq_data r in
  let '(r, l1_freq_data) :=
    construct_L1_code l1_freq_data (s32 l1_pr) (PrimFloat.mul (Z2F amb) PRUNIT_GPS) in
  let l1_freq_data := set_flag_pr l1_freq_data r in
  let '(r, l1_freq_data) := construct_L1_phase l1_freq_data phr_pr_diff GPS_L1_HZ in
  let l1_freq_data := set_flag_cp l1_freq_data r in
  let l1_freq_data := set_flag_lock l1_freq_data (valid_cp (Obs.flags l1_freq_data)) in
  (Obs.set_obs_L1 sat l1_freq_data, bit).

Definition rtcm3_decode_1003_sat (buff : list Byte.byte) (bit : Z)
    (sat : Obs.rtcm_sat_data) : Obs.rtcm_sat_data * Z :=
  let sat := init_sat_data sat in
  let sat := Obs.set_svId sat (rtcm_getbitu buff bit 6) in
  let bit := u16 (bit + 6) in
  let l1_freq_data := Obs.obs_L1 sat in
  let '(bit, l1_freq_data, l1_pr, phr_pr_diff) :=
    decode_basic_gps_l1_freq_data buff bit l1_freq_data in
  let '(r, l1_freq_data) := construct_L1_code l1_freq_data (s32 l1_pr) 0%float in
  let l1_freq_data := set_flag_pr l1_freq_data r in
  let '(r, l1_freq_data) := construct_L1_phase l1_freq_data phr_pr_diff GPS_L1_HZ in
  let l1_freq_data := set_flag_cp l1_freq_data r in
  let l1_freq_data := set_flag_lock l1_freq_data (valid_cp (Obs.flags l1_freq_data)) in
  let l2_freq_data := Obs.obs_L2 sat in
  let '(bit, l2_freq_data, l2_pr, phr_pr_diff) :=
    decode_basic_l2_freq_data buff bit l2_freq_data in
  let '(r, l2_freq_data) := construct_L2_code l2_freq_data l1_freq_data l2_pr in
  let l2_freq_data := set_flag_pr l2_freq_data r in
  let '(r, l2_freq_data) :=
    construct_L2_phase l2_freq_data l1_freq_data phr_pr_diff GPS_L2_HZ in
  let l2_freq_data := set_flag_cp l2_freq_data r in
  let l2_freq_data := set_flag_lock l2_freq_data (valid_cp (Obs.flags l2_freq_data)) in
  (Obs.set_obs_L2 (Obs.set_obs_L1 sat l1_freq_data) l2_freq_data, bit).

Definition rtcm3_decode_1004_sat (buff : list Byte.byte) (bit : Z)
    (sat : Obs.rtcm_sat_data) : Obs.rtcm_sat_data * Z :=
  let sat := init_sat_data sat in
  let sat := Obs.set_svId sat (rtcm_getbitu buff bit 6) in
  let bit := u16 (bit + 6) in
  let l1_freq_data := Obs.obs_L1 sat in
  let '(bit, l1_freq_data, l1_pr, phr_pr_diff) :=
    decode_basic_gps_l1_freq_data buff bit l1_freq_data in
  let amb := u8 (rtcm_getbitu buff bit 8) in
  let bit := u16 (bit + 8) in
  let '(r, l1_freq_data, bit) := get_cnr l1_freq_data buff bit in
  let l1_freq_data := set_flag_cnr l1_freq_data r in
  let '(r, l1_freq_data) :=
    construct_L1_code l1_freq_data (s32 l1_pr) (PrimFloat.mul (Z2F amb) PRUNIT_GPS) in
  let l1_freq_data := set_flag_pr l1_freq_data r in
  let '(r, l1_freq_data) := construct_L1_phase l1_freq_data phr_pr_diff GPS_L1_HZ in
  let l1_freq_data := set_flag_cp l1_freq_data r in
  let l1_freq_data := set_flag_lock l1_freq_data (valid_cp (Obs.flags l1_freq_data)) in
  let l2_freq_data := Obs.obs_L2 sat in
  let '(bit, l2_freq_data, l2_pr, phr_pr_diff) :=
    decode_basic_l2_freq_data buff bit l2_freq_data in
  let '(r, l2_freq_data, bit) := get_cnr l2_freq_data buff bit in
  let l2_freq_data := set_flag_cnr l2_freq_data r in
  let '(r, l2_freq_data) := construct_L2_code l2_freq_data l1_freq_data l2_pr in
  let l2_freq_data := set_flag_pr l2_freq_data r in
  let '(r, l2_freq_data) :=
    construct_L2_phase l2_freq_data l1_freq_data phr_pr_diff GPS_L2_HZ in
  let l2_freq_data := set_flag_cp l2_freq_data r in
  let l2_freq_data := set_flag_lock l2_freq_data (valid_cp (Obs.flags l2_freq_data)) in
  (Obs.set_obs_L2 (Obs.set_obs_L1 sat l1_freq_data) l2_freq_data, bit).

(** In 1010 and 1012 the [&&] of the L1 phase validity short-circuits:
    [construct_L1_phase] runs, and writes the carrier phase, only when
    [fcn <= MT1012_GLO_MAX_FCN]. *)
Definition rtcm3_decode_1010_sat (buff : list Byte.byte) (bit : Z)
    (sat : Obs.rtcm_sat_data) : Obs.rtcm_sat_data * Z :=
  let sat := init_sat_data sat in
  let sat := Obs.set_svId sat (rtcm_getbitu buff bit 6) in
  let bit := u16 (bit + 6) in
  let l1_freq_data := Obs.obs_L1 sat in
  let '(bit, l1_freq_data, l1_pr, phr_pr_diff, fcn) :=
    decode_basic_glo_l1_freq_data buff bit l1_freq_data in
  let sat := Obs.set_fcn sat fcn in
  let amb := u8 (rtcm_getbitu buff bit 7) in
  let bit := u16 (bit + 7) in
  let '(r, l1_freq_data, bit) := get_cnr l1_freq_data buff bit in
  let l1_freq_data := set_flag_cnr l1_freq_data r in
  let glo_fcn := s8 (Obs.fcn sat - MT1012_GLO_FCN_OFFSET) in
  let '(r, l1_freq_data) :=
    construct_L1_code l1_freq_data (s32 l1_pr) (PrimFloat.mul PRUNIT_GLO (Z2F amb)) in
  let l1_freq_data := set_flag_pr l1_freq_data r in
  let '(r, l1_freq_data) :=
    if Obs.fcn sat <=? MT1012_GLO_MAX_FCN then
      construct_L1_phase l1_freq_data phr_pr_diff
        (PrimFloat.add GLO_L1_HZ (PrimFloat.mul (Z2F glo_fcn) GLO_L1_DELTA_HZ))
    else (false, l1_freq_data) in
  let l1_freq_data := set_flag_cp l1_freq_data r in
  let l1_freq_data := set_flag_lock l1_freq_data (valid_cp (Obs.flags l1_freq_data)) in
  (Obs.set_obs_L1 sat l1_freq_data, bit).

Definition rtcm3_decode_1012_sat (buff : list Byte.byte) (bit : Z)
    (sat : Obs.rtcm_sat_data) : Obs.rtcm_sat_data * Z :=
  let sat := init_sat_data sat in
  let sat := Obs.set_svId sat (rtcm_getbitu buff bit 6) in
  let bit := u16 (bit + 6) in
  let l1_freq_data := Obs.obs_L1 sat in
  let '(bit, l1_freq_data, l1_pr, phr_pr_diff, fcn) :=
    decode_basic_glo_l1_freq_data buff bit l1_freq_data in
  let sat := Obs.set_fcn sat fcn in
  let amb := u8 (rtcm_getbitu buff bit 7) in
  let bit := u16 (bit + 7) in
  let glo_fcn := s8 (Obs.fcn sat - MT1012_GLO_FCN_OFFSET) in
  let '(r, l1_freq_data, bit) := get_cnr l1_freq_data buff bit in
  let l1_freq_data := set_flag_cnr l1_freq_data r in
  let '(r, l1_freq_data) :=
    construct_L1_code l1_freq_data (s32 l1_pr) (PrimFloat.mul (Z2F amb) PRUNIT_GLO) in
  let l1_freq_data := set_flag_pr l1_freq_data r in
  let '(r, l1_freq_data) :=
    if Obs.fcn sat <=? MT1012_GLO_MAX_FCN then
      construct_L1_phase l1_freq_data phr_pr_diff
        (PrimFloat.add GLO_L1_HZ (PrimFloat.mul (Z2F glo_fcn) GLO_L1_DELTA_HZ))
    else (false, l1_freq_data) in
  let l1_freq_data := set_flag_cp l1_freq_data r in
  let l1_freq_data := set_flag_lock l1_freq_data (valid_cp (Obs.flags l1_freq_data)) in
  let l2_freq_data := Obs.obs_L2 sat in
  let '(bit, l2_freq_data, l2_pr, phr_pr_diff) :=
    decode_basic_l2_freq_data buff bit l2_freq_data in
  let '(r, l2_freq_data, bit) := get_cnr l2_freq_data buff bit in
  let l2_freq_data := set_flag_cnr l2_freq_data r in
  let '(r, l2_freq_data) := construct_L2_code l2_freq_data l1_freq_data l2_pr in
  let l2_freq_data := set_flag_pr l2_freq_data r in
  let '(r, l2_freq_data) :=
    construct_L2_phase l2_freq_data l1_freq_data phr_pr_diff
      (PrimFloat.add GLO_L2_HZ (PrimFloat.mul (Z2F glo_fcn) GLO_L2_DELTA_HZ)) in
  let l2_freq_data := set_flag_cp l2_freq_data r in
  let l2_freq_data := set_flag_lock l2_freq_data (valid_cp (Obs.flags l2_freq_data)) in
  (Obs.set_obs_L2 (Obs.set_obs_L1 sat l1_freq_data) l2_freq_data, bit).

(** One iteration [i] of a satellite loop: the body runs on [sats[i]] in
    place. *)
Definition decode_sat_at (body : list Byte.byte -> Z -> Obs.rtcm_sat_data -> Obs.rtcm_sat_data * Z)
    (buff : list Byte.byte) (i : nat) (st : Obs.rtcm_obs_message * Z)
    : Obs.rtcm_obs_message * Z :=
  let '(msg, bit) := st in
  let '(sat, bit) := body buff bit (default Obs.sat_data_zero (Obs.sats msg !! i)) in
  (Obs.set_sats msg (<[i := sat]> (Obs.sats msg)), bit).

(** The common shape of the six decoders: read the header into the
    caller's record, check the message number and the time of week, then
    loop over [header.n_sat] satellites. *)
Definition rtcm3_decode_obs
    (read_header : list Byte.byte -> Obs.rtcm_obs_header -> Z * Obs.rtcm_obs_header)
    (num : Z) (max_tow_ms : Z)
    (body : list Byte.byte -> Z -> Obs.rtcm_sat_data -> Obs.rtcm_sat_data * Z)
    (buff : list Byte.byte) (msg : Obs.rtcm_obs_message)
    : rtcm3_rc * Obs.rtcm_obs_message :=
  let bit := 0 in
  let '(hbits, header) := read_header buff (Obs.header msg) in
  let msg := Obs.set_header msg header in
  let bit := u16 (bit + hbits) in
  if negb (Obs.msg_num (Obs.header msg) =? num) then (RC_MESSAGE_TYPE_MISMATCH, msg)
  else if Obs.tow_ms (Obs.header msg) >? max_tow_ms then (RC_INVALID_MESSAGE, msg)
  else
    let '(msg, bit) :=
      for_loop (Z.to_nat (Obs.n_sat (Obs.header msg))) (decode_sat_at body buff) (msg, bit) in
    (RC_OK, msg).

Definition rtcm3_decode_1001 :=
  rtcm3_decode_obs rtcm3_read_header 1001 RTCM_MAX_TOW_MS rtcm3_decode_1001_sat.
Definition rtcm3_decode_1002 :=
  rtcm3_decode_obs rtcm3_read_header 1002 RTCM_MAX_TOW_MS rtcm3_decode_1002_sat.
Definition rtcm3_decode_1003 :=
  rtcm3_decode_obs rtcm3_read_header 1003 RTCM_MAX_TOW_MS rtcm3_decode_1003_sat.
Definition rtcm3_decode_1004 :=
  rtcm3_decode_obs rtcm3_read_header 1004 RTCM_MAX_TOW_MS rtcm3_decode_1004_sat.
Definition rtcm3_decode_1010 :=
  rtcm3_decode_obs rtcm3_read_glo_header 1010 RTCM_GLO_MAX_TOW_MS rtcm3_decode_1010_sat.
Definition rtcm3_decode_1012 :=
  rtcm3_decode_obs rtcm3_read_glo_header 1012 RTCM_GLO_MAX_TOW_MS rtcm3_decode_1012_sat.

(* ------------------------------------------------------------------ *)
(** ** Code-phase bias (1230) and the Swift proprietary envelope (4062) *)

Definition set_stn_id_1230 m v := mk_msg_1230 v (bias_indicator m) (fdma_signal_mask m) (L1_CA_cpb_meter m) (L1_P_cpb_meter m) (L2_CA_cpb_meter m) (L2_P_cpb_meter m).
Definition set_bias_indicator m v := mk_msg_1230 (stn_id_1230 m) v (fdma_signal_mask m) (L1_CA_cpb_meter m) (L1_P_cpb_meter m) (L2_CA_cpb_meter m) (L2_P_cpb_meter m).
Definition set_fdma_signal_mask m v := mk_msg_1230 (stn_id_1230 m) (bias_indicator m) v (L1_CA_cpb_meter m) (L1_P_cpb_meter m) (L2_CA_cpb_meter m) (L2_P_cpb_meter m).
Definition set_L1_CA_cpb_meter m v := mk_msg_1230 (stn_id_1230 m) (bias_indicator m) (fdma_signal_mask m) v (L1_P_cpb_meter m) (L2_CA_cpb_meter m) (L2_P_cpb_meter m).
Definition set_L1_P_cpb_meter m v := mk_msg_1230 (stn_id_1230 m) (bias_indicator m) (fdma_signal_mask m) (L1_CA_cpb_meter m) v (L2_CA_cpb_meter m) (L2_P_cpb_meter m).
Definition set_L2_CA_cpb_meter m v := mk_msg_1230 (stn_id_1230 m) (bias_indicator m) (fdma_signal_mask m) (L1_CA_cpb_meter m) (L1_P_cpb_meter m) v (L2_P_cpb_meter m).
Definition set_L2_P_cpb_meter m v := mk_msg_1230 (stn_id_1230 m) (bias_indicator m) (fdma_signal_mask m) (L1_CA_cpb_meter m) (L1_P_cpb_meter m) (L2_CA_cpb_meter m) v.

(** [rtcm3_decode_1230] with the local cursor [bit] as it stands at the
    [return], so that what was consumed can be stated. *)
Definition rtcm3_decode_1230_run (buff : list Byte.byte) (msg_1230 : rtcm_msg_1230)
    : rtcm3_rc * rtcm_msg_1230 * Z :=
  let bit := 0 in
  let msg_num := u16 (rtcm_getbitu buff bit 12) in
  let bit := u16 (bit + 12) in
  if negb (msg_num =? 1230) then (RC_MESSAGE_TYPE_MISMATCH, msg_1230, bit)
  else
    let msg_1230 := set_stn_id_1230 msg_1230 (rtcm_getbitu buff bit 12) in
    let bit := u16 (bit + 12) in
    let msg_1230 := set_bias_indicator msg_1230 (rtcm_getbitu buff bit 1) in
    let bit := u16 (bit + 1) in
    let bit := u16 (bit + 3) in
    let msg_1230 := set_fdma_signal_mask msg_1230 (u8 (rtcm_getbitu buff bit 4)) in
    let bit := u16 (bit + 4) in
    let '(msg_1230, bit) :=
      if Z2B (Z.land (fdma_signal_mask msg_1230) 8) then
        (set_L1_CA_cpb_meter msg_1230
           (PrimFloat.mul (Z2F (rtcm_getbits buff bit 16)) 0.02%float), u16 (bit + 16))
      else (set_L1_CA_cpb_meter msg_1230 0%float, bit) in
    let '(msg_1230, bit) :=
      if Z2B (Z.land (fdma_signal_mask msg_1230) 4) then
        (set_L1_P_cpb_meter msg_1230
           (PrimFloat.mul (Z2F (rtcm_getbits buff bit 16)) 0.02%float), u16 (bit + 16))
      else (set_L1_P_cpb_meter msg_1230 0%float, bit) in
    let '(msg_1230, bit) :=
      if Z2B (Z.land (fdma_signal_mask msg_1230) 2) then
        (set_L2_CA_cpb_meter msg_1230
           (PrimFloat.mul (Z2F (rtcm_getbits buff bit 16)) 0.02%float), u16 (bit + 16))
      else (set_L2_CA_cpb_meter msg_1230 0%float, bit) in
    let '(msg_1230, bit) :=
      if Z2B (Z.land (fdma_signal_mask msg_1230) 1) then
        (set_L2_P_cpb_meter msg_1230
           (PrimFloat.mul (Z2F (rtcm_getbits buff bit 16)) 0.02%float), u16 (bit + 16))
      else (set_L2_P_cpb_meter msg_1230 0%float, bit) in
    (RC_OK, msg_1230, bit).

Definition rtcm3_decode_1230 (buff : list Byte.byte) (msg_1230 : rtcm_msg_1230)
    : rtcm3_rc * rtcm_msg_1230 :=
  fst (rtcm3_decode_1230_run buff msg_1230).

Definition set_msg_type m v := mk_msg_swift_proprietary v (sender_id m) (len m) (data m).
Definition set_sender_id m v := mk_msg_swift_proprietary (msg_type m) v (len m) (data m).
Definition set_len m v := mk_msg_swift_proprietary (msg_type m) (sender_id m) v (data m).
Definition set_data m v := mk_msg_swift_proprietary (msg_type m) (sender_id m) (len m) v.

Definition rtcm3_decode_4062 (buff : list Byte.byte) (msg : rtcm_msg_swift_proprietary)
    : rtcm3_rc * rtcm_msg_swift_proprietary :=
  let bit := 0 in
  let msg_num := u16 (rtcm_getbitu buff bit 12) in
  let bit := u16 (bit + 12) in
  if negb (msg_num =? 4062) then (RC_MESSAGE_TYPE_MISMATCH, msg)
  else
    let reserved_bits := u8 (rtcm_getbitu buff bit 4) in
    let bit := u16 (bit + 4) in
    if negb (reserved_bits =? 0) then (RC_INVALID_MESSAGE, msg)
    else
      let msg := set_msg_type msg (rtcm_getbitu buff bit 16) in
      let bit := u16 (bit + 16) in
      let msg := set_sender_id msg (rtcm_getbitu buff bit 16) in
      let bit := u16 (bit + 16) in
      let msg := set_len msg (u8 (rtcm_getbitu buff bit 8)) in
      let bit := u16 (bit + 8) in
      let '(msg, bit) :=
        for_loop (Z.to_nat (len msg))
          (fun i '(msg, bit) =>
             (set_data msg (<[i := rtcm_getbitu buff bit 8]> (data msg)), u16 (bit + 8)))
          (msg, bit) in
      (RC_OK, msg).

(* ------------------------------------------------------------------ *)
(** ** Reference station (1005, 1006) and Unicode text (1029) *)

Definition set_stn_id_1005 m v := mk_msg_1005 v (ITRF m) (GPS_ind m) (GLO_ind m) (GAL_ind m) (ref_stn_ind m) (osc_ind m) (quart_cycle_ind m) (arp_x m) (arp_y m) (arp_z m).
Definition set_ITRF m v := mk_msg_1005 (stn_id_1005 m) v (GPS_ind m) (GLO_ind m) (GAL_ind m) (ref_stn_ind m) (osc_ind m) (quart_cycle_ind m) (arp_x m) (arp_y m) (arp_z m).
Definition set_GPS_ind m v := mk_msg_1005 (stn_id_1005 m) (ITRF m) v (GLO_ind m) (GAL_ind m) (ref_stn_ind m) (osc_ind m) (quart_cycle_ind m) (arp_x m) (arp_y m) (arp_z m).
Definition set_GLO_ind m v := mk_msg_1005 (stn_id_1005 m) (ITRF m) (GPS_ind m) v (GAL_ind m) (ref_stn_ind m) (osc_ind m) (quart_cycle_ind m) (arp_x m) (arp_y m) (arp_z m).
Definition set_GAL_ind m v := mk_msg_1005 (stn_id_1005 m) (ITRF m) (GPS_ind m) (GLO_ind m) v (ref_stn_ind m) (osc_ind m) (quart_cycle_ind m) (arp_x m) (arp_y m) (arp_z m).
Definition set_ref_stn_ind m v := mk_msg_1005 (stn_id_1005 m) (ITRF m) (GPS_ind m) (GLO_ind m) (GAL_ind m) v (osc_ind m) (quart_cycle_ind m) (arp_x m) (arp_y m) (arp_z m).
Definition set_osc_ind m v := mk_msg_1005 (stn_id_1005 m) (ITRF m) (GPS_ind m) (GLO_ind m) (GAL_ind m) (ref_stn_ind m) v (quart_cycle_ind m) (arp_x m) (arp_y m) (arp_z m).
Definition set_quart_cycle_ind m v := mk_msg_1005 (stn_id_1005 m) (ITRF m) (GPS_ind m) (GLO_ind m) (GAL_ind m) (ref_stn_ind m) (osc_ind m) v (arp_x m) (arp_y m) (arp_z m).
Definition set_arp_x m v := mk_msg_1005 (stn_id_1005 m) (ITRF m) (GPS_ind m) (GLO_ind m) (GAL_ind m) (ref_stn_ind m) (osc_ind m) (quart_cycle_ind m) v (arp_y m) (arp_z m).
Definition set_arp_y m v := mk_msg_1005 (stn_id_1005 m) (ITRF m) (GPS_ind m) (GLO_ind m) (GAL_ind m) (ref_stn_ind m) (osc_ind m) (quart_cycle_ind m) (arp_x m) v (arp_z m).
Definition set_arp_z m v := mk_msg_1005 (stn_id_1005 m) (ITRF m) (GPS_ind m) (GLO_ind m) (GAL_ind m) (ref_stn_ind m) (osc_ind m) (quart_cycle_ind m) (arp_x m) (arp_y m) v.

Definition set_msg_1005 m v := mk_msg_1006 v (ant_height m).
Definition set_ant_height m v := mk_msg_1006 (msg_1005 m) v.

Definition set_stn_id_1029 m v := mk_msg_1029 v (mjd_num m) (utc_sec_of_day m) (unicode_chars m) (utf8_code_units_n m) (utf8_code_units m).
Definition set_mjd_num m v := mk_msg_1029 (stn_id_1029 m) v (utc_sec_of_day m) (unicode_chars m) (utf8_code_units_n m) (utf8_code_units m).
Definition set_utc_sec_of_day m v := mk_msg_1029 (stn_id_1029 m) (mjd_num m) v (unicode_chars m) (utf8_code_units_n m) (utf8_code_units m).
Definition set_unicode_chars m v := mk_msg_1029 (stn_id_1029 m) (mjd_num m) (utc_sec_of_day m) v (utf8_code_units_n m) (utf8_code_units m).
Definition set_utf8_code_units_n m v := mk_msg_1029 (stn_id_1029 m) (mjd_num m) (utc_sec_of_day m) (unicode_chars m) v (utf8_code_units m).
Definition set_utf8_code_units m v := mk_msg_1029 (stn_id_1029 m) (mjd_num m) (utc_sec_of_day m) (unicode_chars m) (utf8_code_units_n m) v.

(** [rtcm3_decode_1005_base] returns its result, the record and the
    advanced cursor [*bit].  The bit after [osc_ind] is read and dropped. *)
Definition rtcm3_decode_1005_base (buff : list Byte.byte) (msg_1005 : rtcm_msg_1005)
    (bit : Z) : rtcm3_rc * rtcm_msg_1005 * Z :=
  let msg_1005 := set_stn_id_1005 msg_1005 (rtcm_getbitu buff bit 12) in
  let bit := u16 (bit + 12) in
  let msg_1005 := set_ITRF msg_1005 (rtcm_getbitu buff bit 6) in
  let bit := u16 (bit + 6) in
  let msg_1005 := set_GPS_ind msg_1005 (rtcm_getbitu buff bit 1) in
  let bit := u16 (bit + 1) in
  let msg_1005 := set_GLO_ind msg_1005 (rtcm_getbitu buff bit 1) in
  let bit := u16 (bit + 1) in
  let msg_1005 := set_GAL_ind msg_1005 (rtcm_getbitu buff bit 1) in
  let bit := u16 (bit + 1) in
  let msg_1005 := set_ref_stn_ind msg_1005 (rtcm_getbitu buff bit 1) in
  let bit := u16 (bit + 1) in
  let msg_1005 :=
    set_arp_x msg_1005 (PrimFloat.div (Z2F (rtcm_getbitsl buff bit 38)) 10000%float) in
  let bit := u16 (bit + 38) in
  let msg_1005 := set_osc_ind msg_1005 (rtcm_getbitu buff bit 1) in
  let bit := u16 (bit + 1) in
  let _ := rtcm_getbitu buff bit 1 in
  let bit := u16 (bit + 1) in
  let msg_1005 :=
    set_arp_y msg_1005 (PrimFloat.div (Z2F (rtcm_getbitsl buff bit 38)) 10000%float) in
  let bit := u16 (bit + 38) in
  let msg_1005 := set_quart_cycle_ind msg_1005 (rtcm_getbitu buff bit 2) in
  let bit := u16 (bit + 2) in
  let msg_1005 :=
    set_arp_z msg_1005 (PrimFloat.div (Z2F (rtcm_getbitsl buff bit 38)) 10000%float) in
  let bit := u16 (bit + 38) in
  (RC_OK, msg_1005, bit).

(** [rtcm3_decode_1005] and [rtcm3_decode_1006] with the local cursor
    [bit] as it stands at the [return]. *)
Definition rtcm3_decode_1005_run (buff : list Byte.byte) (msg_1005 : rtcm_msg_1005)
    : rtcm3_rc * rtcm_msg_1005 * Z :=
  let bit := 0 in
  let msg_num := u16 (rtcm_getbitu buff bit 12) in
  let bit := u16 (bit + 12) in
  if negb (msg_num =? 1005) then (RC_MESSAGE_TYPE_MISMATCH, msg_1005, bit)
  else rtcm3_decode_1005_base buff msg_1005 bit.

Definition rtcm3_decode_1005 (buff : list Byte.byte) (msg_1005 : rtcm_msg_1005)
    : rtcm3_rc * rtcm_msg_1005 :=
  fst (rtcm3_decode_1005_run buff msg_1005).

(** The result of [rtcm3_decode_1005_base] is dropped in 1006. *)
Definition rtcm3_decode_1006_run (buff : list Byte.byte) (msg_1006 : rtcm_msg_1006)
    : rtcm3_rc * rtcm_msg_1006 * Z :=
  let bit := 0 in
  let msg_num := u16 (rtcm_getbitu buff bit 12) in
  let bit := u16 (bit + 12) in
  if negb (msg_num =? 1006) then (RC_MESSAGE_TYPE_MISMATCH, msg_1006, bit)
  else
    let '(_, base, bit) := rtcm3_decode_1005_base buff (msg_1005 msg_1006) bit in
    let msg_1006 := set_msg_1005 msg_1006 base in
    let msg_1006 :=
      set_ant_height msg_1006
        (PrimFloat.div (Z2F (rtcm_getbitu buff bit 16)) 10000%float) in
    let bit := u16 (bit + 16) in
    (RC_OK, msg_1006, bit).

Definition rtcm3_decode_1006 (buff : list Byte.byte) (msg_1006 : rtcm_msg_1006)
    : rtcm3_rc * rtcm_msg_1006 :=
  fst (rtcm3_decode_1006_run buff msg_1006).

(** [rtcm3_decode_1029]: the loop writes [utf8_code_units[i]] for
    [i < utf8_code_units_n]. *)
Definition rtcm3_decode_1029 (buff : list Byte.byte) (msg_1029 : rtcm_msg_1029)
    : rtcm3_rc * rtcm_msg_1029 :=
  let bit := 0 in
  let msg_num := u16 (rtcm_getbitu buff bit 12) in
  let bit := u16 (bit + 12) in
  if negb (msg_num =? 1029) then (RC_MESSAGE_TYPE_MISMATCH, msg_1029)
  else
    let msg_1029 := set_stn_id_1029 msg_1029 (rtcm_getbitu buff bit 12) in
    let bit := u16 (bit + 12) in
    let msg_1029 := set_mjd_num msg_1029 (rtcm_getbitu buff bit 16) in
    let bit := u16 (bit + 16) in
    let msg_1029 := set_utc_sec_of_day msg_1029 (rtcm_getbitu buff bit 17) in
    let bit := u16 (bit + 17) in
    let msg_1029 := set_unicode_chars msg_1029 (rtcm_getbitu buff bit 7) in
    let bit := u16 (bit + 7) in
    let msg_1029 := set_utf8_code_units_n msg_1029 (u8 (rtcm_getbitu buff bit 8)) in
    let bit := u16 (bit + 8) in
    let '(msg_1029, bit) :=
      for_loop (Z.to_nat (utf8_code_units_n msg_1029))
        (fun i '(msg_1029, bit) =>
           (set_utf8_code_units msg_1029
              (<[i := rtcm_getbitu buff bit 8]> (utf8_code_units msg_1029)),
            u16 (bit + 8)))
        (msg_1029, bit) in
    (RC_OK, msg_1029).

(* ------------------------------------------------------------------ *)
(** ** MSM header *)

(** [rtcm3_read_msm_header] returns the number of bits read and the
    header.  The three mask loops write the mask entries one bit at a
    time. *)
Definition rtcm3_read_msm_header (buff : list Byte.byte) (cons : rtcm_constellation_t)
    (header : Msm.rtcm_msm_header) : Z * Msm.rtcm_msm_header :=
  let bit := 0 in
  let header := Msm.set_msg_num header (rtcm_getbitu buff bit 12) in
  let bit := u16 (bit + 12) in
  let header := Msm.set_stn_id header (rtcm_getbitu buff bit 12) in
  let bit := u16 (bit + 12) in
  let '(header, bit) :=
    if cons_eqb RTCM_CONSTELLATION_GLO cons then
      let bit := u16 (bit + 3) in
      let header := Msm.set_tow_ms header (rtcm_getbitu buff bit 27) in
      (header, u16 (bit + 27))
    else if cons_eqb RTCM_CONSTELLATION_BDS cons then
      let header := Msm.set_tow_ms header (normalize_bds2_tow (rtcm_getbitu buff bit 30)) in
      (header, u16 (bit + 30))
    else
      let header := Msm.set_tow_ms header (rtcm_getbitu buff bit 30) in
      (header, u16 (bit + 30)) in
  let header := Msm.set_multiple header (rtcm_getbitu buff bit 1) in
  let bit := u16 (bit + 1) in
  let header := Msm.set_iods header (rtcm_getbitu buff bit 3) in
  let bit := u16 (bit + 3) in
  let header := Msm.set_reserved header (rtcm_getbitu buff bit 7) in
  let bit := u16 (bit + 7) in
  let header := Msm.set_steering header (rtcm_getbitu buff bit 2) in
  let bit := u16 (bit + 2) in
  let header := Msm.set_ext_clock header (rtcm_getbitu buff bit 2) in
  let bit := u16 (bit + 2) in
  let header := Msm.set_div_free header (rtcm_getbitu buff bit 1) in
  let bit := u16 (bit + 1) in
  let header := Msm.set_smooth header (rtcm_getbitu buff bit 3) in
  let bit := u16 (bit + 3) in
  let '(header, bit) :=
    for_loop MSM_SATELLITE_MASK_SIZE
      (fun i '(header, bit) =>
         (Msm.set_satellite_mask header
            (<[i := Z2B (rtcm_getbitu buff bit 1)]> (Msm.satellite_mask header)),
          u16 (bit + 1)))
      (header, bit) in
  let '(header, bit) :=
    for_loop MSM_SIGNAL_MASK_SIZE
      (fun i '(header, bit) =>
         (Msm.set_signal_mask header
            (<[i := Z2B (rtcm_getbitu buff bit 1)]> (Msm.signal_mask header)),
          u16 (bit + 1)))
      (header, bit) in
  let num_sats := u8 (count_mask_values MSM_SATELLITE_MASK_SIZE (Msm.satellite_mask header)) in
  let num_sigs := u8 (count_mask_values MSM_SIGNAL_MASK_SIZE (Msm.signal_mask header)) in
  let cell_mask_size := u8 (num_sats * num_sigs) in
  let '(header, bit) :=
    for_loop (Z.to_nat cell_mask_size)
      (fun i '(header, bit) =>
         (Msm.set_cell_mask header
            (<[i := Z2B (rtcm_getbitu buff bit 1)]> (Msm.cell_mask header)),
          u16 (bit + 1)))
      (header, bit) in
  (bit, header).

(* ------------------------------------------------------------------ *)
(** ** MSM satellite and signal blocks *)

(** The arrays of the caller are passed in and returned; the result lists
    them in the order of the parameters, the cursor last. *)
Definition decode_msm_sat_data (buff : list Byte.byte) (num_sats : Z) (msm_type : msm_enum)
    (rough_range_ms : list float) (rough_range_valid : list bool)
    (sat_info : list Z) (sat_info_valid : list bool)
    (rough_rate_m_s : list float) (rough_rate_valid : list bool) (bit : Z)
    : list float * list bool * list Z * list bool * list float * list bool * Z :=
  let '(rough_range_ms, rough_range_valid, bit) :=
    for_loop (Z.to_nat num_sats)
      (fun i '(rough_range_ms, rough_range_valid, bit) =>
         let range_ms := rtcm_getbitu buff bit 8 in
         let bit := u16 (bit + 8) in
         (<[i := Z2F range_ms]> rough_range_ms,
          <[i := negb (MSM_ROUGH_RANGE_INVALID =? range_ms)]> rough_range_valid,
          bit))
      (rough_range_ms, rough_range_valid, bit) in
  let '(sat_info, sat_info_valid, bit) :=
    for_loop (Z.to_nat num_sats)
      (fun i '(sat_info, sat_info_valid, bit) =>
         if msm_enum_eqb MSM5 msm_type || msm_enum_eqb MSM7 msm_type then
           (<[i := u8 (rtcm_getbitu buff bit 4)]> sat_info,
            <[i := true]> sat_info_valid,
            u16 (bit + 4))
         else (<[i := 0]> sat_info, <[i := false]> sat_info_valid, bit))
      (sat_info, sat_info_valid, bit) in
  let '(rough_range_ms, bit) :=
    for_loop (Z.to_nat num_sats)
      (fun i '(rough_range_ms, bit) =>
         let rough_pr := rtcm_getbitu buff bit 10 in
         let bit := u16 (bit + 10) in
         if default false (rough_range_valid !! i) then
           (<[i := PrimFloat.add (default 0%float (rough_range_ms !! i))
                     (PrimFloat.div (Z2F rough_pr) 1024%float)]> rough_range_ms,
            bit)
         else (rough_range_ms, bit))
      (rough_range_ms, bit) in
  let '(rough_rate_m_s, rough_rate_valid, bit) :=
    for_loop (Z.to_nat num_sats)
      (fun i '(rough_rate_m_s, rough_rate_valid, bit) =>
         if msm_enum_eqb MSM5 msm_type || msm_enum_eqb MSM7 msm_type then
           let rate := s16 (rtcm_getbits buff bit 14) in
           let bit := u16 (bit + 14) in
           (<[i := Z2F rate]> rough_rate_m_s,
            <[i := negb (MSM_ROUGH_RATE_INVALID =? rate)]> rough_rate_valid,
            bit)
         else (<[i := 0%float]> rough_rate_m_s, <[i := false]> rough_rate_valid, bit))
      (rough_rate_m_s, rough_rate_valid, bit) in
  (rough_range_ms, rough_range_valid, sat_info, sat_info_valid,
   rough_rate_m_s, rough_rate_valid, bit).

(** The per-cell readers: [flags[i].valid_x = ...] alters entry [i] of
    the flag array. *)
Definition decode_msm_fine_pseudoranges (buff : list Byte.byte) (num_cells : Z)
    (fine_pr_ms : list float) (flags : list flag_bf) (bit : Z)
    : list float * list flag_bf * Z :=
  for_loop (Z.to_nat num_cells)
    (fun i '(fine_pr_ms, flags, bit) =>
       let decoded := s16 (rtcm_getbits buff bit 15) in
       let bit := u16 (bit + 15) in
       let flags := alter (fun f => set_valid_pr f (negb (decoded =? MSM_PR_INVALID))) i flags in
       (<[i := PrimFloat.mul (Z2F decoded) C_1_2P24]> fine_pr_ms, flags, bit))
    (fine_pr_ms, flags, bit).

Definition decode_msm_fine_pseudoranges_extended (buff : list Byte.byte) (num_cells : Z)
    (fine_pr_ms : list float) (flags : list flag_bf) (bit : Z)
    : list float * list flag_bf * Z :=
  for_loop (Z.to_nat num_cells)
    (fun i '(fine_pr_ms, flags, bit) =>
       let decoded := s32 (rtcm_getbitsl buff bit 20) in
       let bit := u16 (bit + 20) in
       let flags :=
         alter (fun f => set_valid_pr f (negb (decoded =? MSM_PR_EXT_INVALID))) i flags in
       (<[i := PrimFloat.mul (Z2F decoded) C_1_2P29]> fine_pr_ms, flags, bit))
    (fine_pr_ms, flags, bit).

Definition decode_msm_fine_phaseranges (buff : list Byte.byte) (num_cells : Z)
    (fine_cp_ms : list float) (flags : list flag_bf) (bit : Z)
    : list float * list flag_bf * Z :=
  for_loop (Z.to_nat num_cells)
    (fun i '(fine_cp_ms, flags, bit) =>
       let decoded := rtcm_getbits buff bit 22 in
       let bit := u16 (bit + 22) in
       let flags := alter (fun f => set_valid_cp f (negb (decoded =? MSM_CP_INVALID))) i flags in
       (<[i := PrimFloat.mul (Z2F decoded) C_1_2P29]> fine_cp_ms, flags, bit))
    (fine_cp_ms, flags, bit).

Definition decode_msm_fine_phaseranges_extended (buff : list Byte.byte) (num_cells : Z)
    (fine_cp_ms : list float) (flags : list flag_bf) (bit : Z)
    : list float * list flag_bf * Z :=
  for_loop (Z.to_nat num_cells)
    (fun i '(fine_cp_ms, flags, bit) =>
       let decoded := rtcm_getbits buff bit 24 in
       let bit := u16 (bit + 24) in
       let flags :=
         alter (fun f => set_valid_cp f (negb (decoded =? MSM_CP_EXT_INVALID))) i flags in
       (<[i := PrimFloat.mul (Z2F decoded) C_1_2P31]> fine_cp_ms, flags, bit))
    (fine_cp_ms, flags, bit).

Definition decode_msm_lock_times (buff : list Byte.byte) (num_cells : Z)
    (lock_time : list float) (flags : list flag_bf) (bit : Z)
    : list float * list flag_bf * Z :=
  for_loop (Z.to_nat num_cells)
    (fun i '(lock_time, flags, bit) =>
       let lock_ind := rtcm_getbitu buff bit 4 in
       let bit := u16 (bit + 4) in
       let lock_time := <[i := rtcm3_decode_lock_time (u8 lock_ind)]> lock_time in
       (lock_time, alter (fun f => set_valid_lock f true) i flags, bit))
    (lock_time, flags, bit).

Definition decode_msm_lock_times_extended (buff : list Byte.byte) (num_cells : Z)
    (lock_time : list float) (flags : list flag_bf) (bit : Z)
    : list float * list flag_bf * Z :=
  for_loop (Z.to_nat num_cells)
    (fun i '(lock_time, flags, bit) =>
       let lock_ind := u16 (rtcm_getbitu buff bit 10) in
       let bit := u16 (bit + 10) in
       let lock_time :=
         <[i := PrimFloat.div (Z2F (from_msm_lock_ind_ext lock_ind)) 1000%float]> lock_time in
       (lock_time, alter (fun f => set_valid_lock f true) i flags, bit))
    (lock_time, flags, bit).

Definition decode_msm_hca_indicators (buff : list Byte.byte) (num_cells : Z)
    (hca_indicator : list bool) (bit : Z) : list bool * Z :=
  for_loop (Z.to_nat num_cells)
    (fun i '(hca_indicator, bit) =>
       (<[i := Z2B (rtcm_getbitu buff bit 1)]> hca_indicator, u16 (bit + 1)))
    (hca_indicator, bit).

Definition decode_msm_cnrs (buff : list Byte.byte) (num_cells : Z)
    (cnr : list float) (flags : list flag_bf) (bit : Z)
    : list float * list flag_bf * Z :=
  for_loop (Z.to_nat num_cells)
    (fun i '(cnr, flags, bit) =>
       let decoded := rtcm_getbitu buff bit 6 in
       let bit := u16 (bit + 6) in
       let flags := alter (fun f => set_valid_cnr f (negb (decoded =? 0))) i flags in
       (<[i := Z2F decoded]> cnr, flags, bit))
    (cnr, flags, bit).

Definition decode_msm_cnrs_extended (buff : list Byte.byte) (num_cells : Z)
    (cnr : list float) (flags : list flag_bf) (bit : Z)
    : list float * list flag_bf * Z :=
  for_loop (Z.to_nat num_cells)
    (fun i '(cnr, flags, bit) =>
       let decoded := rtcm_getbitu buff bit 10 in
       let bit := u16 (bit + 10) in
       let flags := alter (fun f => set_valid_cnr f (negb (decoded =? 0))) i flags in
       (<[i := PrimFloat.mul (Z2F decoded) C_1_2P4]> cnr, flags, bit))
    (cnr, flags, bit).

Definition decode_msm_fine_phaserangerates (buff : list Byte.byte) (num_cells : Z)
    (fine_range_rate_m_s : list float) (flags : list flag_bf) (bit : Z)
    : list float * list flag_bf * Z :=
  for_loop (Z.to_nat num_cells)
    (fun i '(fine_range_rate_m_s, flags, bit) =>
       let decoded := rtcm_getbits buff bit 15 in
       let bit := u16 (bit + 15) in
       let fine_range_rate_m_s :=
         <[i := PrimFloat.mul (Z2F decoded) 0.0001%float]> fine_range_rate_m_s in
       (fine_range_rate_m_s,
        alter (fun f => set_valid_dop f (negb (decoded =? MSM_DOP_INVALID))) i flags,
        bit))
    (fine_range_rate_m_s, flags, bit).

(* ------------------------------------------------------------------ *)
(** ** MSM assembly *)

(** The body of the inner loop over [sig]: the state is the message, the
    flag array and the cell counter [i] ([uint8_t]).  An array entry of a
    local array is read with the value an untouched entry is given here
    (zero); every entry that is read has been written before. *)
Definition msm_signal_at (num_sigs : Z) (sat : nat)
    (rough_range_ms rough_rate_m_s : list float)
    (rough_range_valid rough_rate_valid : list bool)
    (fine_pr_ms fine_cp_ms lock_time : list float) (hca_indicator : list bool)
    (cnr fine_range_rate_m_s : list float)
    (sig : nat) (st : Msm.rtcm_msm_message * list flag_bf * Z)
    : Msm.rtcm_msm_message * list flag_bf * Z :=
  let '(msg, flags, i) := st in
  if default false (Msm.cell_mask (Msm.header msg) !! (sat * Z.to_nat num_sigs + sig)%nat) then
    let n := Z.to_nat i in
    let signal := default Msm.signal_data_zero (Msm.signals msg !! n) in
    let flag := default flags_data_zero (flags !! n) in
    let '(signal, flag) :=
      if default false (rough_range_valid !! sat) && valid_pr flag then
        (Msm.set_pseudorange_ms signal
           (PrimFloat.add (default 0%float (rough_range_ms !! sat))
              (default 0%float (fine_pr_ms !! n))), flag)
      else (Msm.set_pseudorange_ms signal 0%float, set_valid_pr flag false) in
    let '(signal, flag) :=
      if default false (rough_range_valid !! sat) && valid_cp flag then
        (Msm.set_carrier_phase_ms signal
           (PrimFloat.add (default 0%float (rough_range_ms !! sat))
              (default 0%float (fine_cp_ms !! n))), flag)
      else (Msm.set_carrier_phase_ms signal 0%float, set_valid_cp flag false) in
    let signal := Msm.set_lock_time_s signal (default 0%float (lock_time !! n)) in
    let signal := Msm.set_hca_indicator signal (default false (hca_indicator !! n)) in
    let signal :=
      if valid_cnr flag then Msm.set_cnr signal (default 0%float (cnr !! n))
      else Msm.set_cnr signal 0%float in
    let '(signal, flag) :=
      if default false (rough_rate_valid !! sat) && valid_dop flag then
        (Msm.set_range_rate_m_s signal
           (PrimFloat.add (default 0%float (rough_rate_m_s !! sat))
              (default 0%float (fine_range_rate_m_s !! n))), flag)
      else (Msm.set_range_rate_m_s signal 0%float, set_valid_dop flag false) in
    let signal := Msm.set_flags signal flag in
    (Msm.set_signals msg (<[n := signal]> (Msm.signals msg)), <[n := flag]> flags, u8 (i + 1))
  else (msg, flags, i).

(** The body of the outer loop over [sat]. *)
Definition msm_sat_at (cons : rtcm_constellation_t) (num_sigs : Z)
    (rough_range_ms rough_rate_m_s : list float)
    (rough_range_valid rough_rate_valid : list bool)
    (sat_info : list Z) (sat_info_valid : list bool)
    (fine_pr_ms fine_cp_ms lock_time : list float) (hca_indicator : list bool)
    (cnr fine_range_rate_m_s : list float)
    (sat : nat) (st : Msm.rtcm_msm_message * list flag_bf * Z)
    : Msm.rtcm_msm_message * list flag_bf * Z :=
  let '(msg, flags, i) := st in
  let s := default Msm.sat_data_zero (Msm.sats msg !! sat) in
  let s := Msm.set_rough_range_ms s (default 0%float (rough_range_ms !! sat)) in
  let s := Msm.set_rough_range_rate_m_s s (default 0%float (rough_rate_m_s !! sat)) in
  let s :=
    if cons_eqb RTCM_CONSTELLATION_GLO cons && negb (default false (sat_info_valid !! sat))
    then Msm.set_glo_fcn s MSM_GLO_FCN_UNKNOWN
    else Msm.set_glo_fcn s (default 0 (sat_info !! sat)) in
  let msg := Msm.set_sats msg (<[sat := s]> (Msm.sats msg)) in
  for_loop (Z.to_nat num_sigs)
    (msm_signal_at num_sigs sat rough_range_ms rough_rate_m_s rough_range_valid
       rough_rate_valid fine_pr_ms fine_cp_ms lock_time hca_indicator cnr
       fine_range_rate_m_s)
    (msg, flags, i).

Definition is_msm4567 (msm_type : msm_enum) : bool :=
  negb (negb (msm_enum_eqb MSM4 msm_type) && negb (msm_enum_eqb MSM5 msm_type)
        && negb (msm_enum_eqb MSM6 msm_type) && negb (msm_enum_eqb MSM7 msm_type)).

(** The time-of-week check after the header. *)
Definition msm_tow_out_of_range (cons : rtcm_constellation_t) (tow_ms : Z) : bool :=
  if negb (cons_eqb RTCM_CONSTELLATION_GLO cons) then tow_ms >? RTCM_MAX_TOW_MS
  else tow_ms >? RTCM_GLO_MAX_TOW_MS.

(** [rtcm3_decode_msm_internal].  The variable-length arrays of the
    function start with every entry zero.  The two [if / else if / else
    return] ladders over the MSM type yield [None] where the source
    returns. *)
Definition rtcm3_decode_msm_internal (buff : list Byte.byte) (msm_type : msm_enum)
    (msg : Msm.rtcm_msm_message) : rtcm3_rc * Msm.rtcm_msm_message :=
  if negb (is_msm4567 msm_type) then (RC_MESSAGE_TYPE_MISMATCH, msg)
  else
  let msg := Msm.set_header msg (Msm.set_msg_num (Msm.header msg) (rtcm_getbitu buff 0 12)) in
  if negb (msm_enum_eqb msm_type (to_msm_type (Msm.msg_num (Msm.header msg))))
  then (RC_MESSAGE_TYPE_MISMATCH, msg)
  else
  let cons := to_constellation (Msm.msg_num (Msm.header msg)) in
  if cons_eqb RTCM_CONSTELLATION_INVALID cons then (RC_MESSAGE_TYPE_MISMATCH, msg)
  else
  let bit := 0 in
  let '(hbits, header) := rtcm3_read_msm_header buff cons (Msm.header msg) in
  let msg := Msm.set_header msg header in
  let bit := u16 (bit + hbits) in
  if msm_tow_out_of_range cons (Msm.tow_ms (Msm.header msg)) then (RC_INVALID_MESSAGE, msg)
  else
  let num_sats :=
    u8 (count_mask_values MSM_SATELLITE_MASK_SIZE (Msm.satellite_mask (Msm.header msg))) in
  let num_sigs :=
    u8 (count_mask_values MSM_SIGNAL_MASK_SIZE (Msm.signal_mask (Msm.header msg))) in
  if num_sats * num_sigs >? MSM_MAX_CELLS then (RC_INVALID_MESSAGE, msg)
  else
  let cell_mask_size := u8 (num_sats * num_sigs) in
  let num_cells :=
    u8 (count_mask_values (Z.to_nat cell_mask_size) (Msm.cell_mask (Msm.header msg))) in
  let ns := Z.to_nat num_sats in
  let '(rough_range_ms, rough_range_valid, sat_info, sat_info_valid,
        rough_rate_m_s, rough_rate_valid, bit) :=
    decode_msm_sat_data buff num_sats msm_type
      (replicate ns 0%float) (replicate ns false) (replicate ns 0) (replicate ns false)
      (replicate ns 0%float) (replicate ns false) bit in
  let nc := Z.to_nat num_cells in
  let fine_pr_ms := replicate nc 0%float in
  let fine_cp_ms := replicate nc 0%float in
  let lock_time := replicate nc 0%float in
  let hca_indicator := replicate nc false in
  let cnr := replicate nc 0%float in
  let fine_range_rate_m_s := replicate nc 0%float in
  let flags := replicate nc flags_data_zero in
  let flags := for_loop nc (fun i flags => <[i := flags_data_zero]> flags) flags in
  let signal_block :=
    if msm_enum_eqb MSM4 msm_type || msm_enum_eqb MSM5 msm_type then
      let '(fine_pr_ms, flags, bit) :=
        decode_msm_fine_pseudoranges buff num_cells fine_pr_ms flags bit in
      let '(fine_cp_ms, flags, bit) :=
        decode_msm_fine_phaseranges buff num_cells fine_cp_ms flags bit in
      let '(lock_time, flags, bit) :=
        decode_msm_lock_times buff num_cells lock_time flags bit in
      Some (fine_pr_ms, fine_cp_ms, lock_time, flags, bit)
    else if msm_enum_eqb MSM6 msm_type || msm_enum_eqb MSM7 msm_type then
      let '(fine_pr_ms, flags, bit) :=
        decode_msm_fine_pseudoranges_extended buff num_cells fine_pr_ms flags bit in
      let '(fine_cp_ms, flags, bit) :=
        decode_msm_fine_phaseranges_extended buff num_cells fine_cp_ms flags bit in
      let '(lock_time, flags, bit) :=
        decode_msm_lock_times_extended buff num_cells lock_time flags bit in
      Some (fine_pr_ms, fine_cp_ms, lock_time, flags, bit)
    else None in
  match signal_block with
  | None => (RC_MESSAGE_TYPE_MISMATCH, msg)
  | Some (fine_pr_ms, fine_cp_ms, lock_time, flags, bit) =>
  let '(hca_indicator, bit) := decode_msm_hca_indicators buff num_cells hca_indicator bit in
  let cnr_block :=
    if msm_enum_eqb MSM4 msm_type || msm_enum_eqb MSM5 msm_type then
      Some (decode_msm_cnrs buff num_cells cnr flags bit)
    else if msm_enum_eqb MSM6 msm_type || msm_enum_eqb MSM7 msm_type then
      Some (decode_msm_cnrs_extended buff num_cells cnr flags bit)
    else None in
  match cnr_block with
  | None => (RC_MESSAGE_TYPE_MISMATCH, msg)
  | Some (cnr, flags, bit) =>
  let '(fine_range_rate_m_s, flags, bit) :=
    if msm_enum_eqb MSM5 msm_type || msm_enum_eqb MSM7 msm_type
    then decode_msm_fine_phaserangerates buff num_cells fine_range_rate_m_s flags bit
    else (fine_range_rate_m_s, flags, bit) in
  let i := 0 in
  let '(msg, flags, i) :=
    for_loop ns
      (msm_sat_at cons num_sigs rough_range_ms rough_rate_m_s rough_range_valid
         rough_rate_valid sat_info sat_info_valid fine_pr_ms fine_cp_ms lock_time
         hca_indicator cnr fine_range_rate_m_s)
      (msg, flags, i) in
  (RC_OK, msg)
  end
  end.

Definition rtcm3_decode_msm4 := fun buff msg => rtcm3_decode_msm_internal buff MSM4 msg.
Definition rtcm3_decode_msm5 := fun buff msg => rtcm3_decode_msm_internal buff MSM5 msg.
Definition rtcm3_decode_msm6 := fun buff msg => rtcm3_decode_msm_internal buff MSM6 msg.
Definition rtcm3_decode_msm7 := fun buff msg => rtcm3_decode_msm_internal buff MSM7 msg.

End Decoders.

(* ------------------------------------------------------------------ *)
(** ** Vocabulary of the specification *)

(** The 16-bit signed bias at bit [pos], scaled by 0.02. *)
Definition bias_at (buff : list Byte.byte) (pos : Z) : float :=
  PrimFloat.mul (Z2F (rtcm_getbits buff pos 16)) 0.02%float.

(** The bits that the bias of mask bit [b] occupies: 16 when the bit is
    set, none otherwise. *)
Definition bias_width (mask : Z) (b : Z) : Z := if Z.testbit mask b then 16 else 0.

(** The legacy observation header as the spec lays it out (3):
    [msg_num:u12, stn_id:u12, tow_ms:u30] ([u27] for GLONASS), [sync:bit],
    [n_sat:u5], [div_free:bit], [smooth:u3], from bit 0 of the buffer. *)
Definition spec_obs_header (buff : list Byte.byte) (tow_bits : Z) : Obs.rtcm_obs_header :=
  Obs.mk_header
    (rtcm_getbitu buff 0 12)
    (rtcm_getbitu buff 12 12)
    (rtcm_getbitu buff 24 tow_bits)
    (rtcm_getbitu buff (24 + tow_bits) 1)
    (rtcm_getbitu buff (25 + tow_bits) 5)
    (rtcm_getbitu buff (30 + tow_bits) 1)
    (rtcm_getbitu buff (31 + tow_bits) 3).

(** The six legacy observable decoders, each with the width of the time
    field of its header. *)
Definition legacy_decoders `{Ext : rtcm_externals}
    : list ((list Byte.byte -> Obs.rtcm_obs_message -> rtcm3_rc * Obs.rtcm_obs_message) * Z) :=
  [(rtcm3_decode_1001, 30); (rtcm3_decode_1002, 30); (rtcm3_decode_1003, 30);
   (rtcm3_decode_1004, 30); (rtcm3_decode_1010, 27); (rtcm3_decode_1012, 27)].

(** The time of week that the MSM header stores (spec 4.5, step 2):
    GLONASS skips the 3-bit day of week and reads 27 bits; Beidou reads 30
    bits and unwraps a raw value of at least [2^30 - 14 * 1000] to
    [RTCM_MAX_TOW_MS + 1 - (2^30 - raw)]; the others read 30 bits. *)
Definition spec_bds_tow (raw : Z) : Z :=
  if raw >=? 2 ^ 30 - 14 * 1000 then RTCM_MAX_TOW_MS + 1 - (2 ^ 30 - raw) else raw.

Definition spec_msm_tow (buff : list Byte.byte) (cons : rtcm_constellation_t) : Z :=
  match cons with
  | RTCM_CONSTELLATION_GLO => rtcm_getbitu buff 27 27
  | RTCM_CONSTELLATION_BDS => spec_bds_tow (rtcm_getbitu buff 24 30)
  | _ => rtcm_getbitu buff 24 30
  end.

(** The MSM header with its scalar fields as the spec lays them out (3)
    and the three masks given. *)
Definition spec_msm_header (buff : list Byte.byte) (cons : rtcm_constellation_t)
    (satellite_mask signal_mask cell_mask : list bool) : Msm.rtcm_msm_header :=
  Msm.mk_header
    (rtcm_getbitu buff 0 12)
    (rtcm_getbitu buff 12 12)
    (spec_msm_tow buff cons)
    (rtcm_getbitu buff 54 1)
    (rtcm_getbitu buff 55 3)
    (rtcm_getbitu buff 58 7)
    (rtcm_getbitu buff 65 2)
    (rtcm_getbitu buff 67 2)
    (rtcm_getbitu buff 69 1)
    (rtcm_getbitu buff 70 3)
    satellite_mask signal_mask cell_mask.

(** [num_sats], [num_sigs] and the size in bits of an MSM header: 73 bits
    of scalar fields, the 64-bit and 32-bit masks, and one cell-mask bit
    per (satellite, signal) pair. *)
Definition msm_num_sats (h : Msm.rtcm_msm_header) : Z :=
  count_mask_values MSM_SATELLITE_MASK_SIZE (Msm.satellite_mask h).

Definition msm_num_sigs (h : Msm.rtcm_msm_header) : Z :=
  count_mask_values MSM_SIGNAL_MASK_SIZE (Msm.signal_mask h).

Definition msm_header_bits (h : Msm.rtcm_msm_header) : Z :=
  169 + msm_num_sats h * msm_num_sigs h.

(** The index in [signals] of the cell of satellite [sat] and signal
    [sig]: the number of cells present before it in row-major order. *)
Definition msm_cell_index (h : Msm.rtcm_msm_header) (sat sig : nat) : nat :=
  Z.to_nat (count_mask_values (sat * Z.to_nat (msm_num_sigs h) + sig) (Msm.cell_mask h)).

(** The cell of satellite [sat] and signal [sig] is present in the cell
    mask. *)
Definition msm_cell_present (h : Msm.rtcm_msm_header) (sat sig : nat) : Prop :=
  (Z.of_nat sat < msm_num_sats h) /\ (Z.of_nat sig < msm_num_sigs h)
  /\ Msm.cell_mask h !! (sat * Z.to_nat (msm_num_sigs h) + sig)%nat = Some true.

(** The validity bits of an assembled MSM cell (spec 4.5, step 6): the
    pseudorange and the carrier phase are valid only if the rough range of
    the satellite and the fine value are, the range rate only if the rough
    rate and the fine rate are; the lock-time and CNR bits are those of
    the signal block. *)
Definition spec_cell_flags (rough_range_valid rough_rate_valid : bool) (f : flag_bf)
    : flag_bf :=
  mk_flag_bf (rough_range_valid && valid_pr f) (rough_range_valid && valid_cp f)
    (valid_cnr f) (valid_lock f) (rough_rate_valid && valid_dop f).

(** A flag word whose lock-time bit is set. *)
Definition lock_ok (f : flag_bf) : Prop := valid_lock f = true.

(** The invariant of the assembly loops of [rtcm3_decode_msm_internal]
    once the first [k] positions of the cell mask (row-major) have been
    visited: the header is untouched, the cell counter is the number of
    cells present so far, the flag array is untouched from the counter on,
    and every cell written so far carries the flags of the spec. *)
Definition msm_assembly_inv (h : Msm.rtcm_msm_header) (nsig : nat)
    (rough_range_valid rough_rate_valid : list bool) (flags0 : list flag_bf)
    (nsignals : nat) (k : nat) (st : Msm.rtcm_msm_message * list flag_bf * Z) : Prop :=
  let '(msg, flags, i) := st in
  Msm.header msg = h
  /\ i = count_mask_values k (Msm.cell_mask h)
  /\ length (Msm.signals msg) = nsignals
  /\ (forall j : nat, (Z.to_nat i <= j)%nat -> flags !! j = flags0 !! j)
  /\ (forall (sat sig : nat) (c : Msm.rtcm_msm_signal_data),
        (sig < nsig)%nat -> (sat * nsig + sig < k)%nat ->
        Msm.cell_mask h !! (sat * nsig + sig)%nat = Some true ->
        Msm.signals msg
          !! Z.to_nat (count_mask_values (sat * nsig + sig) (Msm.cell_mask h)) = Some c ->
        Msm.flags c
        = spec_cell_flags (default false (rough_range_valid !! sat))
            (default false (rough_rate_valid !! sat))
            (default flags_data_zero
               (flags0 !! Z.to_nat (count_mask_values (sat * nsig + sig) (Msm.cell_mask h))))).

(** The basic L1 block of a legacy satellite entry that starts at [bit]
    (spec 4.3, steps 1 and 2): after the 6-bit [sv_id], GPS has
    [code:bit, pr:u24, phr_pr_diff:i20, lock:u7] (52 bits) and GLONASS
    [code:bit, fcn:u5, pr:u25, phr_pr_diff:i20, lock:u7] (58 bits). *)
Definition l1_block_bits (glo : bool) : Z := if glo then 58 else 52.

Definition l1_block_pr (glo : bool) (buff : list Byte.byte) (bit : Z) : Z :=
  if glo then rtcm_getbitu buff (bit + 12) 25 else rtcm_getbitu buff (bit + 7) 24.

(** "After the basic L1 block the decoder reads an ambiguity field of
    [amb_bits] bits and then an 8-bit CNR field, and advances the cursor
    by exactly those widths" (spec 4.3, step 3), said of the body of a
    satellite loop through what it leaves behind: the L1 pseudorange is
    built from the ambiguity read there, the CNR and its validity come
    from the 8 bits that follow, and the cursor ends after them and, in a
    dual-frequency message, after the 43-bit L2 block and its 8-bit
    CNR. *)
Definition reads_ext_fields (glo dual : bool) (amb_bits : Z) (amb_correction : Z -> float)
    (body : list Byte.byte -> Z -> Obs.rtcm_sat_data -> Obs.rtcm_sat_data * Z)
    (buff : list Byte.byte) (bit : Z) (sat : Obs.rtcm_sat_data) : Prop :=
  let b1 := bit + 6 + l1_block_bits glo in
  let amb := rtcm_getbitu buff b1 amb_bits in
  let cnr := rtcm_getbitu buff (b1 + amb_bits) 8 in
  let l1 := Obs.obs_L1 (fst (body buff bit sat)) in
  Obs.pseudorange l1
  = PrimFloat.add (PrimFloat.mul 0.02%float (Z2F (l1_block_pr glo buff bit)))
      (amb_correction amb)
  /\ valid_cnr (Obs.flags l1) = negb (cnr =? 0)
  /\ (cnr <> 0 -> Obs.cnr l1 = PrimFloat.mul 0.25%float (Z2F cnr))
  /\ snd (body buff bit sat) = b1 + amb_bits + 8 + (if dual then 51 else 0).

(* ------------------------------------------------------------------ *)
(** ** Vocabulary of the further properties *)

(** An antenna-reference-point coordinate in metres: the signed 38-bit
    field at [pos] over 10000. *)
Definition arp_at (buff : list Byte.byte) (pos : Z) : float :=
  PrimFloat.div (Z2F (rtcm_getbitsl buff pos 38)) 10000%float.

(** The reference-station record that [rtcm3_decode_1005_base] fills when
    it starts at bit 12: twelve fields in 140 bits, the bit at 73 being
    skipped. *)
Definition msg_1005_of_buffer (buff : list Byte.byte) : rtcm_msg_1005 :=
  mk_msg_1005
    (rtcm_getbitu buff 12 12)
    (rtcm_getbitu buff 24 6)
    (rtcm_getbitu buff 30 1)
    (rtcm_getbitu buff 31 1)
    (rtcm_getbitu buff 32 1)
    (rtcm_getbitu buff 33 1)
    (rtcm_getbitu buff 72 1)
    (rtcm_getbitu buff 112 2)
    (arp_at buff 34) (arp_at buff 74) (arp_at buff 114).

(** The format of a legacy observable message: its number, whether it is
    a GLONASS message (27-bit time of week, 5-bit frequency channel in the
    L1 block, 7-bit ambiguity), whether it carries L2, and the size in
    bits of one satellite entry. *)
Record legacy_format : Set := mk_legacy_format {
  lf_num : Z;
  lf_glo : bool;
  lf_dual : bool;
  lf_sat_bits : Z
}.

Definition lf_tow_bits (f : legacy_format) : Z := if lf_glo f then 27 else 30.

Definition lf_max_tow (f : legacy_format) : Z :=
  if lf_glo f then RTCM_GLO_MAX_TOW_MS else RTCM_MAX_TOW_MS.

(** The header is 34 bits and the time of week. *)
Definition lf_header_bits (f : legacy_format) : Z := 34 + lf_tow_bits f.

(** The satellite count of a legacy header, the 5 bits after the
    synchronous flag. *)
Definition lf_n_sat (f : legacy_format) (buff : list Byte.byte) : Z :=
  rtcm_getbitu buff (25 + lf_tow_bits f) 5.

(** The cursor at which the entry of satellite [i] starts. *)
Definition lf_sat_start (f : legacy_format) (i : nat) : Z :=
  lf_header_bits f + lf_sat_bits f * Z.of_nat i.

(** The six legacy decoders, each with its satellite body and format. *)
Definition legacy_table `{Ext : rtcm_externals}
    : list ((list Byte.byte -> Obs.rtcm_obs_message -> rtcm3_rc * Obs.rtcm_obs_message)
            * (list Byte.byte -> Z -> Obs.rtcm_sat_data -> Obs.rtcm_sat_data * Z)
            * legacy_format) :=
  [(rtcm3_decode_1001, rtcm3_decode_1001_sat, mk_legacy_format 1001 false false 58);
   (rtcm3_decode_1002, rtcm3_decode_1002_sat, mk_legacy_format 1002 false false 74);
   (rtcm3_decode_1003, rtcm3_decode_1003_sat, mk_legacy_format 1003 false true 101);
   (rtcm3_decode_1004, rtcm3_decode_1004_sat, mk_legacy_format 1004 false true 125);
   (rtcm3_decode_1010, rtcm3_decode_1010_sat, mk_legacy_format 1010 true false 79);
   (rtcm3_decode_1012, rtcm3_decode_1012_sat, mk_legacy_format 1012 true true 130)].

(** The flags of a legacy observation as the decoders leave them: the
    lock-time bit copies the carrier-phase bit, and the Doppler bit is
    clear. *)
Definition lock_follows_phase (d : Obs.rtcm_freq_data) : Prop :=
  valid_lock (Obs.flags d) = valid_cp (Obs.flags d) /\ valid_dop (Obs.flags d) = false.

(** The offset of the 20-bit phase-minus-code field of the L1 block in a
    satellite entry. *)
Definition l1_phase_offset (glo : bool) : Z := if glo then 37 else 31.

(** What the body of a satellite loop makes of the entry [sat] at cursor
    [bit]: it consumes the bits of its format; the satellite number is the
    first 6 bits; both flag words have the lock-time bit equal to the
    carrier-phase bit and no Doppler bit; a single-frequency body clears
    the L2 flags and leaves the L2 observation otherwise as it was; the L1
    carrier phase is valid when its field is not the sentinel and, in a
    GLONASS body, the 5-bit frequency channel stored in [fcn] is at most
    [MT1012_GLO_MAX_FCN]. *)
Definition legacy_sat_shape `{Ext : rtcm_externals} (f : legacy_format)
    (body : list Byte.byte -> Z -> Obs.rtcm_sat_data -> Obs.rtcm_sat_data * Z)
    (buff : list Byte.byte) (bit : Z) (sat : Obs.rtcm_sat_data) : Prop :=
  let r := body buff bit sat in
  let phase_ok :=
    negb (rtcm_getbits buff (bit + l1_phase_offset (lf_glo f)) 20 =? CP_INVALID) in
  snd r = bit + lf_sat_bits f
  /\ Obs.svId (fst r) = rtcm_getbitu buff bit 6
  /\ lock_follows_phase (Obs.obs_L1 (fst r))
  /\ lock_follows_phase (Obs.obs_L2 (fst r))
  /\ (if lf_dual f then True
      else Obs.obs_L2 (fst r) = Obs.set_flags (Obs.obs_L2 sat) flags_data_zero)
  /\ (if lf_glo f then
        Obs.fcn (fst r) = rtcm_getbitu buff (bit + 7) 5
        /\ valid_cp (Obs.flags (Obs.obs_L1 (fst r)))
           = (rtcm_getbitu buff (bit + 7) 5 <=? MT1012_GLO_MAX_FCN) && phase_ok
      else
        Obs.fcn (fst r) = Obs.fcn sat
        /\ valid_cp (Obs.flags (Obs.obs_L1 (fst r))) = phase_ok).

(** The bits of the buffer from [pos] on as a mask of [n] entries. *)
Definition buff_mask (buff : list Byte.byte) (pos : Z) (n : nat) : list bool :=
  (fun i : nat => Z2B (rtcm_getbitu buff (pos + Z.of_nat i) 1)) <$> seq 0 n.

(** The satellite mask and the signal mask of an MSM buffer, after the 73
    bits of scalar fields, and their population counts. *)
Definition msm_buff_satellite_mask (buff : list Byte.byte) : list bool :=
  buff_mask buff 73 MSM_SATELLITE_MASK_SIZE.

Definition msm_buff_signal_mask (buff : list Byte.byte) : list bool :=
  buff_mask buff 137 MSM_SIGNAL_MASK_SIZE.

Definition msm_buff_num_sats (buff : list Byte.byte) : Z :=
  count_mask_values MSM_SATELLITE_MASK_SIZE (msm_buff_satellite_mask buff).

Definition msm_buff_num_sigs (buff : list Byte.byte) : Z :=
  count_mask_values MSM_SIGNAL_MASK_SIZE (msm_buff_signal_mask buff).

(** A caller's MSM record with the array sizes of the C type: 64
    satellite-mask entries, 32 signal-mask entries, and [MSM_MAX_CELLS]
    cell-mask entries, satellites and signals. *)
Definition msm_record_sized (msg : Msm.rtcm_msm_message) : Prop :=
  length (Msm.satellite_mask (Msm.header msg)) = MSM_SATELLITE_MASK_SIZE
  /\ length (Msm.signal_mask (Msm.header msg)) = MSM_SIGNAL_MASK_SIZE
  /\ length (Msm.cell_mask (Msm.header msg)) = Z.to_nat MSM_MAX_CELLS
  /\ length (Msm.sats msg) = Z.to_nat MSM_MAX_CELLS
  /\ length (Msm.signals msg) = Z.to_nat MSM_MAX_CELLS.

(** The number of cells of an MSM header: the population count of the
    first [num_sats * num_sigs] entries of the cell mask. *)
Definition msm_num_cells (h : Msm.rtcm_msm_header) : Z :=
  count_mask_values (Z.to_nat (msm_num_sats h * msm_num_sigs h)) (Msm.cell_mask h).

(** MSM5 and MSM7 carry the satellite info and the rough range rate of
    each satellite and the fine range rate of each cell; MSM6 and MSM7
    carry the fields of extended resolution. *)
Definition msm_has_rates (t : msm_enum) : bool :=
  msm_enum_eqb MSM5 t || msm_enum_eqb MSM7 t.

Definition msm_is_extended (t : msm_enum) : bool :=
  msm_enum_eqb MSM6 t || msm_enum_eqb MSM7 t.

(** The layout of an MSM message after its header [h], as the decoder
    walks it: the satellite block, field by field over all satellites,
    then the signal block, field by field over all cells. *)
Section MsmLayout.
Context `{Ext : rtcm_externals}.
Variables (buff : list Byte.byte) (t : msm_enum) (cons : rtcm_constellation_t).
Variable h : Msm.rtcm_msm_header.

(** The satellite block: 8 bits of integer milliseconds per satellite,
    then 4 bits of satellite info (MSM5, MSM7), 10 bits of range modulo
    one millisecond, and 14 bits of range rate (MSM5, MSM7). *)
Definition msm_range_ms_field (sat : nat) : Z :=
  rtcm_getbitu buff (msm_header_bits h + 8 * Z.of_nat sat) 8.

Definition msm_sat_info_field (sat : nat) : Z :=
  rtcm_getbitu buff (msm_header_bits h + 8 * msm_num_sats h + 4 * Z.of_nat sat) 4.

Definition msm_rough_pr_field (sat : nat) : Z :=
  rtcm_getbitu buff
    (msm_header_bits h + (if msm_has_rates t then 12 else 8) * msm_num_sats h
     + 10 * Z.of_nat sat) 10.

Definition msm_rough_rate_field (sat : nat) : Z :=
  s16 (rtcm_getbits buff (msm_header_bits h + 22 * msm_num_sats h + 14 * Z.of_nat sat) 14).

Definition msm_range_ok (sat : nat) : bool :=
  negb (MSM_ROUGH_RANGE_INVALID =? msm_range_ms_field sat).

Definition msm_rate_ok (sat : nat) : bool :=
  msm_has_rates t && negb (MSM_ROUGH_RATE_INVALID =? msm_rough_rate_field sat).

(** The rough range keeps the integer milliseconds alone, sentinel
    included, when they are invalid. *)
Definition msm_rough_range_ms (sat : nat) : float :=
  if msm_range_ok sat then
    PrimFloat.add (Z2F (msm_range_ms_field sat))
      (PrimFloat.div (Z2F (msm_rough_pr_field sat)) 1024%float)
  else Z2F (msm_range_ms_field sat).

Definition msm_rough_rate_m_s (sat : nat) : float :=
  if msm_has_rates t then Z2F (msm_rough_rate_field sat) else 0%float.

Definition msm_sat_of_buffer (sat : nat) : Msm.rtcm_msm_sat_data :=
  Msm.mk_sat_data
    (if cons_eqb RTCM_CONSTELLATION_GLO cons && negb (msm_has_rates t)
     then MSM_GLO_FCN_UNKNOWN
     else if msm_has_rates t then msm_sat_info_field sat else 0)
    (msm_rough_range_ms sat)
    (msm_rough_rate_m_s sat).

(** The signal block starts after the 18 or 36 bits of every satellite;
    its fields have the widths 15, 22, 4, 1, 6 (MSM4, MSM5) or 20, 24, 10,
    1, 10 (MSM6, MSM7), and 15 for the range rate (MSM5, MSM7). *)
Definition msm_cell_block_start : Z :=
  msm_header_bits h + (if msm_has_rates t then 36 else 18) * msm_num_sats h.

Definition msm_pr_bits : Z := if msm_is_extended t then 20 else 15.
Definition msm_cp_bits : Z := if msm_is_extended t then 24 else 22.
Definition msm_lock_bits : Z := if msm_is_extended t then 10 else 4.
Definition msm_cnr_bits : Z := if msm_is_extended t then 10 else 6.

Definition msm_pr_start : Z := msm_cell_block_start.
Definition msm_cp_start : Z := msm_pr_start + msm_pr_bits * msm_num_cells h.
Definition msm_lock_start : Z := msm_cp_start + msm_cp_bits * msm_num_cells h.
Definition msm_hca_start : Z := msm_lock_start + msm_lock_bits * msm_num_cells h.
Definition msm_cnr_start : Z := msm_hca_start + msm_num_cells h.
Definition msm_dop_start : Z := msm_cnr_start + msm_cnr_bits * msm_num_cells h.

Definition msm_fine_pr_field (j : nat) : Z :=
  if msm_is_extended t
  then s32 (rtcm_getbitsl buff (msm_pr_start + 20 * Z.of_nat j) 20)
  else s16 (rtcm_getbits buff (msm_pr_start + 15 * Z.of_nat j) 15).

Definition msm_fine_pr_ok (j : nat) : bool :=
  negb (msm_fine_pr_field j
        =? (if msm_is_extended t then MSM_PR_EXT_INVALID else MSM_PR_INVALID)).

Definition msm_fine_pr_ms (j : nat) : float :=
  PrimFloat.mul (Z2F (msm_fine_pr_field j))
    (if msm_is_extended t then C_1_2P29 else C_1_2P24).

Definition msm_fine_cp_field (j : nat) : Z :=
  if msm_is_extended t
  then rtcm_getbits buff (msm_cp_start + 24 * Z.of_nat j) 24
  else rtcm_getbits buff (msm_cp_start + 22 * Z.of_nat j) 22.

Definition msm_fine_cp_ok (j : nat) : bool :=
  negb (msm_fine_cp_field j
        =? (if msm_is_extended t then MSM_CP_EXT_INVALID else MSM_CP_INVALID)).

Definition msm_fine_cp_ms (j : nat) : float :=
  PrimFloat.mul (Z2F (msm_fine_cp_field j))
    (if msm_is_extended t then C_1_2P31 else C_1_2P29).

Definition msm_lock_time_s (j : nat) : float :=
  if msm_is_extended t
  then PrimFloat.div
         (Z2F (from_msm_lock_ind_ext
                 (u16 (rtcm_getbitu buff (msm_lock_start + 10 * Z.of_nat j) 10))))
         1000%float
  else rtcm3_decode_lock_time (u8 (rtcm_getbitu buff (msm_lock_start + 4 * Z.of_nat j) 4)).

Definition msm_hca_field (j : nat) : bool :=
  Z2B (rtcm_getbitu buff (msm_hca_start + Z.of_nat j) 1).

Definition msm_cnr_field (j : nat) : Z :=
  if msm_is_extended t
  then rtcm_getbitu buff (msm_cnr_start + 10 * Z.of_nat j) 10
  else rtcm_getbitu buff (msm_cnr_start + 6 * Z.of_nat j) 6.

Definition msm_cnr_ok (j : nat) : bool := negb (msm_cnr_field j =? 0).

Definition msm_cnr_value (j : nat) : float :=
  if msm_is_extended t then PrimFloat.mul (Z2F (msm_cnr_field j)) C_1_2P4
  else Z2F (msm_cnr_field j).

Definition msm_fine_rate_field (j : nat) : Z :=
  rtcm_getbits buff (msm_dop_start + 15 * Z.of_nat j) 15.

Definition msm_fine_rate_ok (j : nat) : bool :=
  msm_has_rates t && negb (msm_fine_rate_field j =? MSM_DOP_INVALID).

Definition msm_fine_rate_m_s (j : nat) : float :=
  PrimFloat.mul (Z2F (msm_fine_rate_field j)) 0.0001%float.

(** The flag word of cell [j] after the signal block, before the
    assembly: the lock-time bit is always set. *)
Definition msm_block_flags (j : nat) : flag_bf :=
  mk_flag_bf (msm_fine_pr_ok j) (msm_fine_cp_ok j) (msm_cnr_ok j) true
    (msm_fine_rate_ok j).

(** Cell [j], which belongs to satellite [sat], as the decoder assembles
    it: an observable whose rough or fine part is invalid is zero and
    flagged invalid. *)
Definition msm_cell_of_buffer (sat j : nat) : Msm.rtcm_msm_signal_data :=
  let pr_ok := msm_range_ok sat && msm_fine_pr_ok j in
  let cp_ok := msm_range_ok sat && msm_fine_cp_ok j in
  let dop_ok := msm_rate_ok sat && msm_fine_rate_ok j in
  Msm.mk_signal_data
    (if pr_ok then PrimFloat.add (msm_rough_range_ms sat) (msm_fine_pr_ms j) else 0%float)
    (if cp_ok then PrimFloat.add (msm_rough_range_ms sat) (msm_fine_cp_ms j) else 0%float)
    (msm_lock_time_s j)
    (msm_hca_field j)
    (if msm_cnr_ok j then msm_cnr_value j else 0%float)
    (mk_flag_bf pr_ok cp_ok (msm_cnr_ok j) true dop_ok)
    (if dop_ok then PrimFloat.add (msm_rough_rate_m_s sat) (msm_fine_rate_m_s j)
     else 0%float).

End MsmLayout.

(** The cell that the assembly loops write at index [n] for satellite
    [sat], from the arrays of the satellite block and of the signal
    block. *)
Definition msm_cell_assembled (rough_range_ms rough_rate_m_s : list float)
    (rough_range_valid rough_rate_valid : list bool)
    (fine_pr_ms fine_cp_ms lock_time : list float) (hca_indicator : list bool)
    (cnr fine_range_rate_m_s : list float) (flags : list flag_bf) (sat n : nat)
    : Msm.rtcm_msm_signal_data :=
  Msm.mk_signal_data
    (if default false (rough_range_valid !! sat)
        && valid_pr (default flags_data_zero (flags !! n))
     then PrimFloat.add (default 0%float (rough_range_ms !! sat))
            (default 0%float (fine_pr_ms !! n))
     else 0%float)
    (if default false (rough_range_valid !! sat)
        && valid_cp (default flags_data_zero (flags !! n))
     then PrimFloat.add (default 0%float (rough_range_ms !! sat))
            (default 0%float (fine_cp_ms !! n))
     else 0%float)
    (default 0%float (lock_time !! n))
    (default false (hca_indicator !! n))
    (if valid_cnr (default flags_data_zero (flags !! n))
     then default 0%float (cnr !! n) else 0%float)
    (spec_cell_flags (default false (rough_range_valid !! sat))
       (default false (rough_rate_valid !! sat))
       (default flags_data_zero (flags !! n)))
    (if default false (rough_rate_valid !! sat)
        && valid_dop (default flags_data_zero (flags !! n))
     then PrimFloat.add (default 0%float (rough_rate_m_s !! sat))
            (default 0%float (fine_range_rate_m_s !! n))
     else 0%float).

(** The satellite entry that the outer assembly loop writes. *)
Definition msm_sat_assembled `{Ext : rtcm_externals} (cons : rtcm_constellation_t)
    (rough_range_ms rough_rate_m_s : list float)
    (sat_info : list Z) (sat_info_valid : list bool) (sat : nat)
    : Msm.rtcm_msm_sat_data :=
  Msm.mk_sat_data
    (if cons_eqb RTCM_CONSTELLATION_GLO cons && negb (default false (sat_info_valid !! sat))
     then MSM_GLO_FCN_UNKNOWN
     else default 0 (sat_info !! sat))
    (default 0%float (rough_range_ms !! sat))
    (default 0%float (rough_rate_m_s !! sat)).

(** The invariant of the assembly loops on the signals, once the first
    [k] positions of the cell mask have been visited: the cell counter is
    the number of cells present so far, the flag array and the signals are
    untouched from the counter on, and every cell present so far holds the
    cell [cell sat index]. *)
Definition msm_cells_inv (h : Msm.rtcm_msm_header) (nsig : nat)
    (cell : nat -> nat -> Msm.rtcm_msm_signal_data)
    (flags0 : list flag_bf) (signals0 : list Msm.rtcm_msm_signal_data)
    (k : nat) (st : Msm.rtcm_msm_message * list flag_bf * Z) : Prop :=
  let '(msg, flags, i) := st in
  Msm.header msg = h
  /\ i = count_mask_values k (Msm.cell_mask h)
  /\ length (Msm.signals msg) = length signals0
  /\ (forall j : nat, (Z.to_nat i <= j)%nat -> flags !! j = flags0 !! j)
  /\ (forall j : nat, (Z.to_nat i <= j)%nat -> Msm.signals msg !! j = signals0 !! j)
  /\ (forall sat sig : nat,
        (sig < nsig)%nat -> (sat * nsig + sig < k)%nat ->
        Msm.cell_mask h !! (sat * nsig + sig)%nat = Some true ->
        (Z.to_nat (count_mask_values (sat * nsig + sig) (Msm.cell_mask h))
         < length signals0)%nat ->
        Msm.signals msg
          !! Z.to_nat (count_mask_values (sat * nsig + sig) (Msm.cell_mask h))
        = Some (cell sat
                  (Z.to_nat (count_mask_values (sat * nsig + sig) (Msm.cell_mask h))))).

(** The invariant of the outer assembly loop on the satellites, once [k]
    satellites have been visited. *)
Definition msm_sats_inv (entry : nat -> Msm.rtcm_msm_sat_data)
    (sats0 : list Msm.rtcm_msm_sat_data)
    (k : nat) (st : Msm.rtcm_msm_message * list flag_bf * Z) : Prop :=
  let sats := Msm.sats (fst (fst st)) in
  length sats = length sats0
  /\ (forall s : nat, (k <= s)%nat -> sats !! s = sats0 !! s)
  /\ (forall s : nat, (s < k)%nat -> (s < length sats0)%nat -> sats !! s = Some (entry s)).

(** The arrays of [rtcm3_decode_msm_internal] after the satellite block
    and the signal block have been read: each entry below the satellite
    count, or the cell count, holds the field of the layout. *)
Definition msm_blocks_decoded (buff : list Byte.byte) (t : msm_enum)
    (h : Msm.rtcm_msm_header)
    (rough_range_ms rough_rate_m_s : list float)
    (rough_range_valid rough_rate_valid : list bool)
    (sat_info : list Z) (sat_info_valid : list bool)
    (fine_pr_ms fine_cp_ms lock_time : list float) (hca_indicator : list bool)
    (cnr fine_range_rate_m_s : list float) (flags : list flag_bf) : Prop :=
  (forall sat : nat,
     Z.of_nat sat < msm_num_sats h ->
     rough_range_valid !! sat = Some (msm_range_ok buff h sat)
     /\ rough_range_ms !! sat = Some (msm_rough_range_ms buff t h sat)
     /\ sat_info !! sat
        = Some (if msm_has_rates t then msm_sat_info_field buff h sat else 0)
     /\ sat_info_valid !! sat = Some (msm_has_rates t)
     /\ rough_rate_m_s !! sat = Some (msm_rough_rate_m_s buff t h sat)
     /\ rough_rate_valid !! sat = Some (msm_rate_ok buff t h sat))
  /\ (forall j : nat,
        Z.of_nat j < msm_num_cells h ->
        fine_pr_ms !! j = Some (msm_fine_pr_ms buff t h j)
        /\ fine_cp_ms !! j = Some (msm_fine_cp_ms buff t h j)
        /\ lock_time !! j = Some (msm_lock_time_s buff t h j)
        /\ hca_indicator !! j = Some (msm_hca_field buff t h j)
        /\ cnr !! j = Some (msm_cnr_value buff t h j)
        /\ flags !! j = Some (msm_block_flags buff t h j)
        /\ fine_range_rate_m_s !! j
           = Some (if msm_has_rates t then msm_fine_rate_m_s buff t h j else 0%float)).

(** A cell whose observables are zero where they are flagged invalid. *)
Definition msm_cell_zeroed (c : Msm.rtcm_msm_signal_data) : Prop :=
  (if valid_pr (Msm.flags c) then True else Msm.pseudorange_ms c = 0%float)
  /\ (if valid_cp (Msm.flags c) then True else Msm.carrier_phase_ms c = 0%float)
  /\ (if valid_cnr (Msm.flags c) then True else Msm.cnr c = 0%float)
  /\ (if valid_dop (Msm.flags c) then True else Msm.range_rate_m_s c = 0%float).


(** The CNR fields of a legacy satellite entry, in the extended formats:
    after the L1 block and the ambiguity, and after the L2 block. *)
Definition l1_cnr_offset (glo : bool) : Z := if glo then 71 else 66.
Definition l2_cnr_offset (glo : bool) : Z := if glo then 122 else 117.

(** The extended formats, which carry an ambiguity and a CNR. *)
Definition lf_extended (f : legacy_format) : bool :=
  existsb (Z.eqb (lf_num f)) [1002; 1004; 1010; 1012].


(** The satellite entry that the body of a legacy format leaves for the
    entry at [bit] of the buffer, field by field.  The block of L1 is the
    code bit, in GLONASS the 5-bit frequency channel, the pseudorange of
    24 (GLONASS 25) bits, the 20-bit phase difference and the 7-bit lock
    indicator; the extended formats add the ambiguity of 8 (GLONASS 7)
    bits and the 8-bit CNR; the block of L2 is 2 bits of code, the 14-bit
    pseudorange difference, the 20-bit phase difference and the 7-bit lock
    indicator, and in the extended formats its CNR.  What the body does
    not write comes from the caller's entry [s0]. *)
Section LegacyLayout.
Context `{Ext : rtcm_externals}.
Variables (f : legacy_format) (buff : list Byte.byte) (bit : Z) (s0 : Obs.rtcm_sat_data).

Definition lf_lock_offset : Z := if lf_glo f then 57 else 51.
Definition lf_amb_offset : Z := if lf_glo f then 64 else 58.
Definition lf_amb_bits : Z := if lf_glo f then 7 else 8.
Definition lf_l2_offset : Z :=
  if lf_extended f then (if lf_glo f then 79 else 74) else lf_amb_offset.

Definition legacy_fcn : Z :=
  if lf_glo f then rtcm_getbitu buff (bit + 7) 5 else Obs.fcn s0.

(** The carrier frequencies: fixed for GPS, and for GLONASS moved by the
    channel number [fcn - MT1012_GLO_FCN_OFFSET]. *)
Definition legacy_l1_hz : float :=
  if lf_glo f
  then PrimFloat.add GLO_L1_HZ
         (PrimFloat.mul (Z2F (legacy_fcn - MT1012_GLO_FCN_OFFSET)) GLO_L1_DELTA_HZ)
  else GPS_L1_HZ.

Definition legacy_l2_hz : float :=
  if lf_glo f
  then PrimFloat.add GLO_L2_HZ
         (PrimFloat.mul (Z2F (legacy_fcn - MT1012_GLO_FCN_OFFSET)) GLO_L2_DELTA_HZ)
  else GPS_L2_HZ.

Definition legacy_amb_correction : float :=
  if lf_extended f
  then PrimFloat.mul (Z2F (rtcm_getbitu buff (bit + lf_amb_offset) lf_amb_bits))
         (if lf_glo f then PRUNIT_GLO else PRUNIT_GPS)
  else 0%float.

Definition legacy_l1_pseudorange : float :=
  PrimFloat.add (PrimFloat.mul 0.02%float (Z2F (l1_block_pr (lf_glo f) buff bit)))
    legacy_amb_correction.

(** Both carrier phases are built on the L1 pseudorange. *)
Definition legacy_phase (phr_pr_diff : Z) (freq : float) : float :=
  PrimFloat.div
    (PrimFloat.add legacy_l1_pseudorange (PrimFloat.mul 0.0005%float (Z2F phr_pr_diff)))
    (PrimFloat.div GPS_C freq).

Definition legacy_cnr (pos : Z) (old : float) : float :=
  if lf_extended f && negb (rtcm_getbitu buff pos 8 =? 0)
  then PrimFloat.mul 0.25%float (Z2F (rtcm_getbitu buff pos 8))
  else old.

Definition legacy_cnr_ok (pos : Z) : bool :=
  lf_extended f && negb (rtcm_getbitu buff pos 8 =? 0).

(** In GLONASS the L1 carrier phase is computed only for a frequency
    channel up to [MT1012_GLO_MAX_FCN]. *)
Definition legacy_l1_phase_computed : bool :=
  negb (lf_glo f) || (legacy_fcn <=? MT1012_GLO_MAX_FCN).

Definition legacy_l1_of_buffer : Obs.rtcm_freq_data :=
  let phr := rtcm_getbits buff (bit + l1_phase_offset (lf_glo f)) 20 in
  let cp_ok := legacy_l1_phase_computed && negb (phr =? CP_INVALID) in
  Obs.mk_freq_data
    (rtcm_getbitu buff (bit + 6) 1)
    legacy_l1_pseudorange
    (if legacy_l1_phase_computed then legacy_phase phr legacy_l1_hz
     else Obs.carrier_phase (Obs.obs_L1 s0))
    (from_lock_ind (rtcm_getbitu buff (bit + lf_lock_offset) 7))
    (legacy_cnr (bit + l1_cnr_offset (lf_glo f)) (Obs.cnr (Obs.obs_L1 s0)))
    (mk_flag_bf
       (negb (l1_block_pr (lf_glo f) buff bit =? PR_L1_INVALID))
       cp_ok
       (legacy_cnr_ok (bit + l1_cnr_offset (lf_glo f)))
       cp_ok
       false).

Definition legacy_l2_of_buffer : Obs.rtcm_freq_data :=
  if lf_dual f then
    let pr := rtcm_getbits buff (bit + lf_l2_offset + 2) 14 in
    let phr := rtcm_getbits buff (bit + lf_l2_offset + 16) 20 in
    let cp_ok := negb (phr =? CP_INVALID) in
    Obs.mk_freq_data
      (rtcm_getbitu buff (bit + lf_l2_offset) 2)
      (PrimFloat.add (PrimFloat.mul 0.02%float (Z2F pr)) legacy_l1_pseudorange)
      (legacy_phase phr legacy_l2_hz)
      (from_lock_ind (rtcm_getbitu buff (bit + lf_l2_offset + 36) 7))
      (legacy_cnr (bit + l2_cnr_offset (lf_glo f)) (Obs.cnr (Obs.obs_L2 s0)))
      (mk_flag_bf
         (negb (pr =? PR_L2_INVALID))
         cp_ok
         (legacy_cnr_ok (bit + l2_cnr_offset (lf_glo f)))
         cp_ok
         false)
  else Obs.set_flags (Obs.obs_L2 s0) flags_data_zero.

Definition legacy_sat_of_buffer : Obs.rtcm_sat_data :=
  Obs.mk_sat_data (rtcm_getbitu buff bit 6) legacy_fcn
    legacy_l1_of_buffer legacy_l2_of_buffer.

End LegacyLayout.
(* ------------------------------------------------------------------ *)
(** ** Test vectors *)

(** A 1012 message, one satellite (SV 3) with stored [fcn = 25], L1
    [pr = 1000000], [phr_pr_diff = 1234], lock 10, [amb = 35], CNR 160,
    and L2 [pr_diff = 100], [phr_pr_diff = 2345], lock 10, CNR 140. *)
Definition buff_1012_fcn25 : list Byte.byte :=
  [x3f; x40; x01; x00; x00; x7d; x00; x80; x6c; x83; xd0; x90; x00; x13; x48; x52;
   x3a; x00; x06; x40; x09; x29; x15; x18].

(** A 1010 message, one satellite (SV 3) with stored [fcn = 5], L1
    [pr = 1000000], [phr_pr_diff = 1234], lock 10, [amb = 35], CNR 160. *)
Definition buff_1010 : list Byte.byte :=
  [x3f; x20; x01; x00; x00; x7d; x00; x80; x62; x83; xd0; x90; x00; x13; x48; x52;
   x3a; x00].

(** A 1004 message, [tow_ms = 123456000], one satellite (SV 3), L1
    [pr = 10000000], [phr_pr_diff = 1234], lock 10, [amb = 80], CNR 140,
    and L2 [pr_diff = 100], [phr_pr_diff = 2345], lock 10, CNR 120. *)
Definition buff_1004 : list Byte.byte :=
  [x3e; xc0; x01; x1d; x6f; x28; x00; x10; x0d; x31; x2d; x00; x00; x9a; x42; x94;
   x23; x00; x19; x00; x24; xa4; x53; xc0].

(** The same L1 observation as a 1002 message. *)
Definition buff_1002 : list Byte.byte :=
  [x3e; xa0; x01; x1d; x6f; x28; x00; x10; x0d; x31; x2d; x00; x00; x9a; x42; x94;
   x23; x00].

(** A 1004 header with station 5, [tow_ms = 700000000] (out of range),
    [sync = 1], [n_sat = 2], [div_free = 1], [smooth = 3]. *)
Definition buff_1004_bad_tow : list Byte.byte :=
  [x3e; xc0; x05; xa6; xe4; x9c; x02; x2b].

(** An MSM4 GPS message (1074): satellites 1 and 2, signals 1 and 2, cell
    mask [0b1011]; the first satellite has the rough-range sentinel 255,
    the second 70 ms; three cells follow. *)
Definition buff_msm4 : list Byte.byte :=
  [x43; x20; x01; x00; x00; x0f; xa0; x00; x00; x60; x00; x00; x00; x00; x00; x00;
   x00; x60; x00; x00; x00; x5f; xfa; x34; x00; x80; x00; x64; x01; x90; x04; xb0;
   x00; x3e; x80; x01; xf4; x00; x0b; xb8; x56; x75; x40; x15; x00].

(** An MSM4 GPS header with 9 satellites and 8 signals, 72 cells. *)
Definition buff_msm4_72_cells : list Byte.byte :=
  [x43; x20; x01; x00; x00; x0f; xa0; x00; x00; x7f; xc0; x00; x00; x00; x00; x00;
   x00; x7f; x80; x00; x00; x00; x00; x00; x00; x00; x00; x00; x00; x00; x00].

(** An MSM7 Beidou message (1127) with raw [tow_ms = 2^30 - 5000], one
    satellite, one signal, one cell. *)
Definition buff_msm7_bds : list Byte.byte :=
  [x46; x70; x01; xff; xff; xb1; xe0; x00; x00; x40; x00; x00; x00; x00; x00; x00;
   x00; x20; x00; x00; x00; x51; x82; x00; x01; x90; x00; xfa; x00; x01; xf4; x06;
   x45; x00; x00; xc8].

(** A 1230 message with [fdma_signal_mask = 0b1010] and the two biases
    100 and -100. *)
Definition buff_1230_mask_1010 : list Byte.byte :=
  [x4c; xe0; x01; x8a; x00; x64; xff; x9c].

(** A 4062 message with reserved bits [0b0010], message type 1, sender 2
    and two payload bytes. *)
Definition buff_4062_reserved : list Byte.byte :=
  [xfd; xe2; x00; x01; x00; x02; x02; xaa; xbb].

(** Caller records as they stand before a call. *)
Definition msg_4062_prior : rtcm_msg_swift_proprietary :=
  mk_msg_swift_proprietary 7 8 1 [9].

Definition obs_message_zero : Obs.rtcm_obs_message :=
  Obs.mk_message Obs.header_zero (replicate 32 Obs.sat_data_zero).

Definition msm_message_zero : Msm.rtcm_msm_message :=
  Msm.mk_message
    (Msm.mk_header 0 0 0 0 0 0 0 0 0 0
       (replicate 64 false) (replicate 32 false) (replicate 64 false))
    (replicate 64 Msm.sat_data_zero) (replicate 64 Msm.signal_data_zero).

Definition msg_1230_zero : rtcm_msg_1230 :=
  mk_msg_1230 0 0 0 0%float 0%float 0%float 0%float.


(** A 4062 message with reserved bits zero, message type 1, sender 2 and
    the two payload bytes [0xaa], [0xbb]. *)
Definition buff_4062 : list Byte.byte :=
  [xfd; xe0; x00; x01; x00; x02; x02; xaa; xbb].

Definition msg_4062_zero : rtcm_msg_swift_proprietary :=
  mk_msg_swift_proprietary 0 0 0 (replicate 255 0).

(** A 1029 message of station 5, day 60000, second 43200, with 5
    characters in 7 UTF-8 code units. *)
Definition buff_1029 : list Byte.byte :=
  [x40; x50; x05; xea; x60; x54; x60; x05; x07; x48; x69; x2c; x20; xe4; xb8; x96].

Definition msg_1029_zero : rtcm_msg_1029 :=
  mk_msg_1029 0 0 0 0 0 (replicate 255 0).

(** A 1005 message of station 7 with the antenna reference point
    (3857000.0, 146000.0, 5040000.0) metres; the skipped bit is set. *)
Definition buff_1005 : list Byte.byte :=
  [x3e; xd0; x07; x03; x08; xfa; xf3; x7e; x80; xc0; x57; x05; xd5; x00; x0b; xbc;
   x12; xf8; x00].

(** A 1006 message with the antenna reference point (-2700000.1234,
    -4300000.5678, 3700000.0) metres and the antenna height 1.5 metres. *)
Definition buff_1006 : list Byte.byte :=
  [x3e; xe0; x07; x02; x39; xb6; xac; xad; x2e; x35; xfc; xff; xfb; xd2; x48; x9d;
   x5f; x32; x00; x3a; x98].

Definition msg_1005_zero : rtcm_msg_1005 :=
  mk_msg_1005 0 0 0 0 0 0 0 0 0%float 0%float 0%float.

Definition msg_1006_zero : rtcm_msg_1006 := mk_msg_1006 msg_1005_zero 0%float.

(** An MSM5 GLONASS message (1085): one satellite with the rough range
    70.5 ms, satellite info 9 and rough rate 100 m/s; one cell. *)
Definition buff_msm5_glo : list Byte.byte :=
  [x43; xd0; x01; x40; x00; x0f; xa0; x00; x00; x40; x00; x00; x00; x00; x00; x00;
   x00; x20; x00; x00; x00; x51; xa6; x00; x01; x90; x03; x20; x00; xfa; x0b; xa0;
   x01; x90].

(** The same observation as an MSM4 GLONASS message (1084), which has
    neither the satellite info nor the rates. *)
Definition buff_msm4_glo : list Byte.byte :=
  [x43; xc0; x01; x40; x00; x0f; xa0; x00; x00; x40; x00; x00; x00; x00; x00; x00;
   x00; x20; x00; x00; x00; x51; xa0; x00; x0c; x80; x03; xe8; x2e; x80].

(** A 1004 message, one satellite (SV 3), whose L1 CNR field is zero and
    whose L2 CNR field is 120. *)
Definition buff_1004_no_l1_cnr : list Byte.byte :=
  [x3e; xc0; x01; x1d; x6f; x28; x00; x10; x0d; x31; x2d; x00; x00; x9a; x42; x94;
   x00; x00; x19; x00; x24; xa4; x53; xc0].

(** A caller's record whose first satellite holds the CNR 33.0 on L1. *)
Definition obs_message_stale : Obs.rtcm_obs_message :=
  Obs.mk_message Obs.header_zero
    (Obs.set_obs_L1 Obs.sat_data_zero
       (Obs.set_cnr (Obs.obs_L1 Obs.sat_data_zero) 33%float)
     :: replicate 31 Obs.sat_data_zero).
(* ================================================================== *)
(** * Properties *)

(** ** Integers, loops and the bit reader *)

Lemma u8_small (x : Z) : 0 <= x < 256 -> u8 x = x.
Proof. intros H. unfold u8. apply Z.mod_small. lia. Qed.

Lemma u16_small (x : Z) : 0 <= x < 65536 -> u16 x = x.
Proof. intros H. unfold u16. apply Z.mod_small. lia. Qed.

Lemma u32_small (x : Z) : 0 <= x < 4294967296 -> u32 x = x.
Proof. intros H. unfold u32. apply Z.mod_small. lia. Qed.

Lemma u8_range (x : Z) : 0 <= u8 x < 256.
Proof. unfold u8. apply Z.mod_pos_bound. lia. Qed.

Lemma u16_range (x : Z) : 0 <= u16 x < 65536.
Proof. unfold u16. apply Z.mod_pos_bound. lia. Qed.

(** The invariant rule of [for_loop]. *)
Lemma for_loop_from_ind {S : Type} (P : nat -> S -> Prop) (body : nat -> S -> S)
    (n i : nat) (s : S) :
  P i s ->
  (forall j t, (i <= j < i + n)%nat -> P j t -> P (Datatypes.S j) (body j t)) ->
  P (i + n)%nat (for_loop_from n i body s).
Proof.
  revert i s. induction n as [|n IH]; intros i s H0 Hstep; simpl.
  - replace (i + 0)%nat with i by lia. exact H0.
  - replace (i + Datatypes.S n)%nat with (Datatypes.S i + n)%nat by lia.
    apply IH.
    + apply Hstep; [lia | exact H0].
    + intros j t Hj. apply Hstep. lia.
Qed.

Lemma for_loop_ind {S : Type} (P : nat -> S -> Prop) (body : nat -> S -> S)
    (n : nat) (s : S) :
  P 0%nat s ->
  (forall j t, (j < n)%nat -> P j t -> P (Datatypes.S j) (body j t)) ->
  P n (for_loop n body s).
Proof.
  intros H0 Hstep. unfold for_loop.
  change n with (0 + n)%nat at 1.
  apply for_loop_from_ind; [exact H0 |].
  intros j t Hj. apply Hstep. lia.
Qed.

Lemma buff_bit_range (buff : list Byte.byte) (pos : Z) : 0 <= buff_bit buff pos <= 1.
Proof.
  unfold buff_bit.
  set (x := Z.shiftr (buff_byte buff (pos / 8)) (7 - pos mod 8)).
  assert (E : Z.land x 1 = x mod 2).
  { change 1 with (Z.ones 1). rewrite Z.land_ones by lia. reflexivity. }
  rewrite E. pose proof (Z.mod_pos_bound x 2). lia.
Qed.

Lemma getbitu_from_range (len : nat) (buff : list Byte.byte) (pos bits : Z) :
  bits * 2 ^ Z.of_nat len <= getbitu_from len buff pos bits
    < (bits + 1) * 2 ^ Z.of_nat len.
Proof.
  revert pos bits. induction len as [|len IH]; intros pos bits.
  - simpl. lia.
  - cbn [getbitu_from].
    specialize (IH (pos + 1) (Z.shiftl bits 1 + buff_bit buff pos)).
    rewrite Z.shiftl_mul_pow2 in IH |- * by lia. change (2 ^ 1) with 2 in IH |- *.
    pose proof (buff_bit_range buff pos) as Hb.
    rewrite Nat2Z.inj_succ, Z.pow_succ_r by lia.
    assert (0 < 2 ^ Z.of_nat len) by (apply Z.pow_pos_nonneg; lia).
    set (g := getbitu_from len buff (pos + 1) (bits * 2 + buff_bit buff pos)) in *.
    nia.
Qed.

(** An unsigned field of [len] bits lies in [0, 2^len). *)
Lemma rtcm_getbitu_range (buff : list Byte.byte) (pos len : Z) :
  0 <= len -> 0 <= rtcm_getbitu buff pos len < 2 ^ len.
Proof.
  intros Hlen. unfold rtcm_getbitu.
  pose proof (getbitu_from_range (Z.to_nat len) buff pos 0) as H.
  rewrite Z2Nat.id in H by lia. lia.
Qed.

#[local] Opaque rtcm_getbitu rtcm_getbits.

(* ------------------------------------------------------------------ *)
(** ** Lock-time table *)

(** Below its last breakpoint the 7-bit table is the piecewise-linear map
    of RTCM 10403.3 Table 3.4-2, free of wrap-around. *)
Lemma from_lock_ind_pieces (lock : Z) :
  0 <= lock <= 127 ->
  from_lock_ind lock =
    if lock <? 24 then lock
    else if lock <? 48 then 2 * lock - 24
    else if lock <? 72 then 4 * lock - 120
    else if lock <? 96 then 8 * lock - 408
    else if lock <? 120 then 16 * lock - 1176
    else if lock <? 127 then 32 * lock - 3096
    else 937.
Proof.
  intros H. unfold from_lock_ind.
  repeat match goal with
         | |- context [?a <? ?b] => destruct (Z.ltb_spec a b)
         end; try reflexivity; apply u32_small; lia.
Qed.

(** C6. For lock indicators [a <= b] in [0, 127], [from_lock_ind a <=
    from_lock_ind b] (the expansion is monotonic non-decreasing); no value
    in the range exceeds 937 seconds, and 937 is attained at the top of
    the range, [from_lock_ind 127 = 937]. *)
Theorem from_lock_ind_monotone_saturates (a b : Z) :
  0 <= a -> a <= b -> b <= 127 ->
  from_lock_ind a <= from_lock_ind b
  /\ from_lock_ind b <= 937
  /\ from_lock_ind 127 = 937.
Proof.
  intros Ha Hab Hb.
  rewrite (from_lock_ind_pieces a), (from_lock_ind_pieces b) by lia.
  split; [|split; [|reflexivity]];
    repeat match goal with
           | |- context [?x <? ?y] => destruct (Z.ltb_spec x y)
           end; lia.
Qed.

Lemma from_lock_ind_monotone_saturates_witness :
  from_lock_ind 47 <= from_lock_ind 48
  /\ from_lock_ind 48 <= 937
  /\ from_lock_ind 127 = 937.
Proof.
  apply (from_lock_ind_monotone_saturates 47 48); lia.
Defined.

(* ------------------------------------------------------------------ *)
(** ** Cursor arithmetic *)

Ltac z_literal z :=
  match z with
  | Z0 => idtac
  | Zpos _ => idtac
  end.

(** Evaluate the wrap-around of a cursor that is a literal. *)
Ltac cursor_eval :=
  repeat match goal with
         | |- context [u16 (?a + ?b)] =>
             z_literal a; z_literal b;
             let v := eval vm_compute in (u16 (a + b)) in
             change (u16 (a + b)) with v
         end.

(* ------------------------------------------------------------------ *)
(** ** The 4062 envelope *)

(** C7. A 4062 buffer (message number 4062 in its first 12 bits) whose
    four reserved bits are not all zero is rejected with
    [RC_INVALID_MESSAGE], and the caller's record comes back unchanged in
    every field. *)
Theorem rtcm3_decode_4062_reserved_bits (buff : list Byte.byte)
    (msg : rtcm_msg_swift_proprietary) :
  rtcm_getbitu buff 0 12 = 4062 ->
  rtcm_getbitu buff 12 4 <> 0 ->
  rtcm3_decode_4062 buff msg = (RC_INVALID_MESSAGE, msg).
Proof.
  intros Hnum Hres. unfold rtcm3_decode_4062. cursor_eval.
  rewrite Hnum. change (negb (u16 4062 =? 4062)) with false. cbv iota.
  pose proof (rtcm_getbitu_range buff 12 4 ltac:(lia)) as Hr.
  rewrite u8_small by (change (2 ^ 4) with 16 in Hr; lia).
  destruct (Z.eqb_spec (rtcm_getbitu buff 12 4) 0) as [E|E]; [contradiction|].
  reflexivity.
Qed.

Lemma rtcm3_decode_4062_reserved_bits_witness :
  rtcm3_decode_4062 buff_4062_reserved msg_4062_prior
  = (RC_INVALID_MESSAGE, msg_4062_prior).
Proof.
  apply (rtcm3_decode_4062_reserved_bits buff_4062_reserved msg_4062_prior).
  - vm_compute. reflexivity.
  - vm_compute. discriminate.
Defined.

(* ------------------------------------------------------------------ *)
(** ** Code-phase bias message 1230 *)

#[local] Opaque Z2F.

(** C8. For a 1230 buffer with mask [fdma_signal_mask] (the 4 bits at
    offset 28), the decoder returns [RC_OK]; the bias of L1-CA, L1-P,
    L2-CA, L2-P is read iff its mask bit (0x08, 0x04, 0x02, 0x01, that is
    bit 3, 2, 1, 0) is set, from the position that follows the biases
    present before it in this order, and is its 16-bit signed field times
    0.02; an absent bias is 0.0 and consumes nothing.  With the mask
    [0b1010] the L1-CA bias comes from bit 32, the L2-CA bias from bit 48,
    L1-P and L2-P are 0.0 and the cursor ends at bit 64. *)
Theorem rtcm3_decode_1230_conditional_biases (buff : list Byte.byte)
    (msg_1230 : rtcm_msg_1230) :
  rtcm_getbitu buff 0 12 = 1230 ->
  let mask := rtcm_getbitu buff 28 4 in
  let w := bias_width mask in
  exists out bit,
    rtcm3_decode_1230_run buff msg_1230 = (RC_OK, out, bit)
    /\ rtcm3_decode_1230 buff msg_1230 = (RC_OK, out)
    /\ fdma_signal_mask out = mask
    /\ L1_CA_cpb_meter out = (if Z.testbit mask 3 then bias_at buff 32 else 0%float)
    /\ L1_P_cpb_meter out = (if Z.testbit mask 2 then bias_at buff (32 + w 3) else 0%float)
    /\ L2_CA_cpb_meter out
       = (if Z.testbit mask 1 then bias_at buff (32 + w 3 + w 2) else 0%float)
    /\ L2_P_cpb_meter out
       = (if Z.testbit mask 0 then bias_at buff (32 + w 3 + w 2 + w 1) else 0%float)
    /\ bit = 32 + w 3 + w 2 + w 1 + w 0
    /\ (mask = 10 ->
        L1_CA_cpb_meter out = bias_at buff 32 /\ L1_P_cpb_meter out = 0%float
        /\ L2_CA_cpb_meter out = bias_at buff 48 /\ L2_P_cpb_meter out = 0%float
        /\ bit = 64).
Proof.
  intros Hnum mask w. subst w.
  pose proof (rtcm_getbitu_range buff 28 4 ltac:(lia)) as Hr.
  change (2 ^ 4) with 16 in Hr. fold mask in Hr.
  unfold rtcm3_decode_1230, rtcm3_decode_1230_run. cursor_eval.
  rewrite Hnum. change (negb (u16 1230 =? 1230)) with false. cbv iota.
  fold mask. rewrite (u8_small mask) by lia.
  assert (Hcases : mask = 0 \/ mask = 1 \/ mask = 2 \/ mask = 3 \/ mask = 4 \/ mask = 5
                   \/ mask = 6 \/ mask = 7 \/ mask = 8 \/ mask = 9 \/ mask = 10
                   \/ mask = 11 \/ mask = 12 \/ mask = 13 \/ mask = 14 \/ mask = 15)
    by lia.
  clear Hr. generalize dependent mask. intros mask Hcases.
  repeat (destruct Hcases as [-> | Hcases]); [..| subst mask];
    cbn; do 2 eexists; (split; [reflexivity|]);
    repeat split; try reflexivity; lia.
Qed.

Lemma rtcm3_decode_1230_conditional_biases_witness :
  exists out bit,
    rtcm3_decode_1230_run buff_1230_mask_1010 msg_1230_zero = (RC_OK, out, bit)
    /\ L1_CA_cpb_meter out = 2%float /\ L1_P_cpb_meter out = 0%float
    /\ L2_CA_cpb_meter out = (-2)%float /\ L2_P_cpb_meter out = 0%float
    /\ bit = 64.
Proof.
  destruct (rtcm3_decode_1230_conditional_biases buff_1230_mask_1010 msg_1230_zero)
    as (out & bit & Hrun & _ & _ & _ & _ & _ & _ & _ & H10).
  { vm_compute. reflexivity. }
  destruct H10 as (H1 & H2 & H3 & H4 & H5).
  { vm_compute. reflexivity. }
  subst bit. exists out, 64. rewrite H1, H2, H3, H4.
  repeat split; try assumption; vm_compute; reflexivity.
Defined.

(* ------------------------------------------------------------------ *)
(** ** Legacy observation headers *)

Section LegacyHeader.
Context `{Ext : rtcm_externals}.

Lemma rtcm3_read_header_spec (buff : list Byte.byte) (header : Obs.rtcm_obs_header) :
  rtcm3_read_header buff header = (64, spec_obs_header buff 30).
Proof. unfold rtcm3_read_header. cursor_eval. reflexivity. Qed.

Lemma rtcm3_read_glo_header_spec (buff : list Byte.byte) (header : Obs.rtcm_obs_header) :
  rtcm3_read_glo_header buff header = (61, spec_obs_header buff 27).
Proof. unfold rtcm3_read_glo_header. cursor_eval. reflexivity. Qed.

(** The satellite loop leaves the header alone. *)
Lemma decode_sats_header body buff (n : nat) (msg : Obs.rtcm_obs_message) (bit : Z) :
  Obs.header (fst (for_loop n (decode_sat_at body buff) (msg, bit))) = Obs.header msg.
Proof.
  apply (for_loop_ind (fun _ st => Obs.header (fst st) = Obs.header msg)).
  - reflexivity.
  - intros j [m b] _ H. unfold decode_sat_at.
    destruct (body buff b _) as [sat b']. exact H.
Qed.

Lemma rtcm3_decode_obs_header read_header num max_tow_ms body buff msg hbits header :
  read_header buff (Obs.header msg) = (hbits, header) ->
  let r := rtcm3_decode_obs read_header num max_tow_ms body buff msg in
  Obs.header (snd r) = header
  /\ (fst r <> RC_OK ->
      (fst r = RC_MESSAGE_TYPE_MISMATCH \/ fst r = RC_INVALID_MESSAGE)
      /\ snd r = Obs.mk_message header (Obs.sats msg)).
Proof.
  intros Hread r. subst r. unfold rtcm3_decode_obs. rewrite Hread.
  cbn [Obs.header Obs.set_header Obs.sats].
  destruct (negb (Obs.msg_num header =? num)).
  { cbn. split; [reflexivity|]. intros _. split; [left|]; reflexivity. }
  destruct (Obs.tow_ms header >? max_tow_ms).
  { cbn. split; [reflexivity|]. intros _. split; [right|]; reflexivity. }
  pose proof (decode_sats_header body buff (Z.to_nat (Obs.n_sat header))
                (Obs.mk_message header (Obs.sats msg)) (u16 (0 + hbits))) as Hh.
  destruct (for_loop _ _ _) as [m b]. cbn in Hh |- *.
  split; [exact Hh|]. intros Hne. contradiction.
Qed.

(** C9. Each legacy observable decoder (1001, 1002, 1003, 1004, 1010,
    1012) leaves in the caller's record the header parsed from the buffer,
    whatever it returns: the header is written before the message-number
    and time-of-week checks run.  When the return is not [RC_OK] it is
    [RC_MESSAGE_TYPE_MISMATCH] or [RC_INVALID_MESSAGE], and the record is
    then the caller's satellites under the header decoded from the buffer:
    the error return is not atomic. *)
Theorem legacy_header_written_before_checks dec tow_bits
    (buff : list Byte.byte) (msg : Obs.rtcm_obs_message) :
  In (dec, tow_bits) legacy_decoders ->
  Obs.header (snd (dec buff msg)) = spec_obs_header buff tow_bits
  /\ (fst (dec buff msg) <> RC_OK ->
      (fst (dec buff msg) = RC_MESSAGE_TYPE_MISMATCH
       \/ fst (dec buff msg) = RC_INVALID_MESSAGE)
      /\ snd (dec buff msg) = Obs.mk_message (spec_obs_header buff tow_bits) (Obs.sats msg)).
Proof.
  intros Hin. unfold legacy_decoders in Hin. cbn [In] in Hin.
  repeat (destruct Hin as [Hin | Hin];
          [ injection Hin as <- <-;
            first [ eapply rtcm3_decode_obs_header, rtcm3_read_header_spec
                  | eapply rtcm3_decode_obs_header, rtcm3_read_glo_header_spec ] | ]).
  contradiction.
Qed.

End LegacyHeader.

Lemma legacy_header_written_before_checks_witness :
  @rtcm3_decode_1004 spec_externals buff_1004_bad_tow obs_message_zero
  = (RC_INVALID_MESSAGE,
     Obs.mk_message (Obs.mk_header 1004 5 700000000 1 2 1 3) (Obs.sats obs_message_zero)).
Proof.
  destruct (@legacy_header_written_before_checks spec_externals
              (@rtcm3_decode_1004 spec_externals) 30
              buff_1004_bad_tow obs_message_zero) as [_ H].
  { right. right. right. left. reflexivity. }
  destruct H as [_ H].
  { vm_compute. discriminate. }
  rewrite (surjective_pairing (rtcm3_decode_1004 _ _)), H.
  vm_compute. reflexivity.
Defined.

(* ------------------------------------------------------------------ *)
(** ** MSM header *)

Lemma count_mask_values_range (n : nat) (mask : list bool) :
  0 <= count_mask_values n mask <= Z.of_nat n.
Proof.
  unfold count_mask_values.
  pose proof (length_filter (fun b : bool => b = true) (take n mask)) as H1.
  rewrite length_take in H1. lia.
Qed.

Lemma normalize_bds2_tow_spec (raw : Z) :
  0 <= raw < 2 ^ 30 -> normalize_bds2_tow raw = spec_bds_tow raw.
Proof.
  intros H. change (2 ^ 30) with 1073741824 in H.
  unfold normalize_bds2_tow, spec_bds_tow, C_2P30, BDS_SECOND_TO_GPS_SECOND,
    RTCM_MAX_TOW_MS.
  change (2 ^ 30) with 1073741824.
  rewrite (u32_small (1073741824 - 14 * 1000)) by lia.
  destruct (Z.geb_spec raw (1073741824 - 14 * 1000)); [|reflexivity].
  rewrite (u32_small (1073741824 - raw)) by lia.
  apply u32_small. lia.
Qed.

(** A mask loop writes only its mask and advances the cursor by one bit
    per entry. *)
Lemma mask_loop_spec
    (set : Msm.rtcm_msm_header -> list bool -> Msm.rtcm_msm_header)
    (get : Msm.rtcm_msm_header -> list bool)
    (buff : list Byte.byte) (n : nat) (h : Msm.rtcm_msm_header) (bit : Z) :
  (forall h m m', set (set h m) m' = set h m') ->
  (forall h, set h (get h) = h) ->
  0 <= bit -> bit + Z.of_nat n < 65536 ->
  exists m,
    for_loop n
      (fun i '(header, bit) =>
         (set header (<[i := Z2B (rtcm_getbitu buff bit 1)]> (get header)), u16 (bit + 1)))
      (h, bit)
    = (set h m, bit + Z.of_nat n).
Proof.
  intros Hset Hget Hb Hn.
  apply (for_loop_ind
           (fun i st => (i <= n)%nat -> exists m, st = (set h m, bit + Z.of_nat i)));
    [| | lia].
  - intros _. exists (get h). rewrite Hget. f_equal. lia.
  - intros j [hh b] Hj IH Hle. destruct IH as [m E]; [lia|].
    injection E as -> ->. eexists. rewrite Hset. f_equal.
    rewrite u16_small by lia. lia.
Qed.

Ltac msm_header_simpl :=
  cbv beta iota delta
      [Msm.msg_num Msm.stn_id Msm.tow_ms Msm.multiple Msm.iods Msm.reserved Msm.steering
       Msm.ext_clock Msm.div_free Msm.smooth Msm.satellite_mask Msm.signal_mask
       Msm.cell_mask Msm.set_msg_num Msm.set_stn_id Msm.set_tow_ms Msm.set_multiple
       Msm.set_iods Msm.set_reserved Msm.set_steering Msm.set_ext_clock Msm.set_div_free
       Msm.set_smooth Msm.set_satellite_mask Msm.set_signal_mask Msm.set_cell_mask
       Msm.header Msm.sats Msm.signals Msm.set_header Msm.set_sats Msm.set_signals].

Ltac msm_header_simpl_in H :=
  cbv beta iota delta
      [Msm.msg_num Msm.stn_id Msm.tow_ms Msm.multiple Msm.iods Msm.reserved Msm.steering
       Msm.ext_clock Msm.div_free Msm.smooth Msm.satellite_mask Msm.signal_mask
       Msm.cell_mask Msm.set_msg_num Msm.set_stn_id Msm.set_tow_ms Msm.set_multiple
       Msm.set_iods Msm.set_reserved Msm.set_steering Msm.set_ext_clock Msm.set_div_free
       Msm.set_smooth Msm.set_satellite_mask Msm.set_signal_mask Msm.set_cell_mask
       Msm.header Msm.sats Msm.signals Msm.set_header Msm.set_sats Msm.set_signals] in H.

(** [rtcm3_read_msm_header] stores the scalar fields of the spec layout
    and three masks, and returns the size of the header it has read. *)
Lemma rtcm3_read_msm_header_spec (buff : list Byte.byte) (cons : rtcm_constellation_t)
    (header : Msm.rtcm_msm_header) :
  exists sm gm cm,
    rtcm3_read_msm_header buff cons header
    = (169 + u8 (count_mask_values MSM_SATELLITE_MASK_SIZE sm
                 * count_mask_values MSM_SIGNAL_MASK_SIZE gm),
       spec_msm_header buff cons sm gm cm).
Proof.
  assert (Hn : normalize_bds2_tow (rtcm_getbitu buff 24 30)
               = spec_bds_tow (rtcm_getbitu buff 24 30))
    by (apply normalize_bds2_tow_spec, rtcm_getbitu_range; lia).
  pose proof (fun m => count_mask_values_range MSM_SATELLITE_MASK_SIZE m) as Hs.
  pose proof (fun m => count_mask_values_range MSM_SIGNAL_MASK_SIZE m) as Hg.
  unfold rtcm3_read_msm_header, spec_msm_header, spec_msm_tow.
  unfold MSM_SATELLITE_MASK_SIZE, MSM_SIGNAL_MASK_SIZE in *.
  destruct header.
  destruct cons; cbn [cons_eqb]; cbv beta iota zeta; cursor_eval; try rewrite Hn.
  all: msm_header_simpl.
  all: match goal with
       | |- context [for_loop 64 ?f (?h, ?b)] =>
           destruct (mask_loop_spec Msm.set_satellite_mask Msm.satellite_mask buff
                       64 h b) as [sm Esm];
           [reflexivity | intros []; reflexivity | lia | lia |];
           assert (E : for_loop 64 f (h, b) = (Msm.set_satellite_mask h sm, b + Z.of_nat 64))
             by exact Esm;
           rewrite E; clear E Esm; cbv beta iota; change (73 + Z.of_nat 64) with 137
       end.
  all: msm_header_simpl.
  all: match goal with
       | |- context [for_loop 32 ?f (?h, ?b)] =>
           destruct (mask_loop_spec Msm.set_signal_mask Msm.signal_mask buff
                       32 h b) as [gm Egm];
           [reflexivity | intros []; reflexivity | lia | lia |];
           assert (E : for_loop 32 f (h, b) = (Msm.set_signal_mask h gm, b + Z.of_nat 32))
             by exact Egm;
           rewrite E; clear E Egm; cbv beta iota; change (137 + Z.of_nat 32) with 169
       end.
  all: msm_header_simpl;
       rewrite (u8_small (count_mask_values 64 sm)) by (specialize (Hs sm); lia);
       rewrite (u8_small (count_mask_values 32 gm)) by (specialize (Hg gm); lia).
  all: pose proof (u8_range (count_mask_values 64 sm * count_mask_values 32 gm)) as Hsize.
  all: match goal with
       | |- context [for_loop (Z.to_nat ?size) ?f (?h, ?b)] =>
           destruct (mask_loop_spec Msm.set_cell_mask Msm.cell_mask buff
                       (Z.to_nat size) h b) as [cm Ecm];
           [reflexivity | intros []; reflexivity | lia | lia |];
           assert (E : for_loop (Z.to_nat size) f (h, b)
                       = (Msm.set_cell_mask h cm, b + Z.of_nat (Z.to_nat size)))
             by exact Ecm;
           rewrite E; clear E Ecm; cbv beta iota
       end.
  all: msm_header_simpl.
  all: exists sm, gm, cm; rewrite Z2Nat.id by lia; reflexivity.
Qed.

(* ------------------------------------------------------------------ *)
(** ** Counting mask entries *)

Lemma count_mask_values_S (k : nat) (mask : list bool) :
  count_mask_values (Datatypes.S k) mask
  = count_mask_values k mask + (if default false (mask !! k) then 1 else 0).
Proof.
  unfold count_mask_values. destruct (mask !! k) as [b|] eqn:E.
  - rewrite (take_S_r _ _ _ E), filter_app, length_app.
    destruct b; cbn; case_decide; try congruence; cbn; lia.
  - apply lookup_ge_None_1 in E. rewrite !take_ge by lia. cbn. lia.
Qed.

Lemma count_mask_values_mono (a b : nat) (mask : list bool) :
  (a <= b)%nat -> count_mask_values a mask <= count_mask_values b mask.
Proof.
  induction 1 as [|b Hle IH]; [lia|].
  rewrite count_mask_values_S. destruct (default false (mask !! b)); lia.
Qed.

Lemma count_mask_values_present (k n : nat) (mask : list bool) :
  (k < n)%nat -> mask !! k = Some true ->
  count_mask_values k mask < count_mask_values n mask.
Proof.
  intros Hk E.
  pose proof (count_mask_values_mono (Datatypes.S k) n mask ltac:(lia)) as H.
  rewrite count_mask_values_S, E in H. cbn in H. lia.
Qed.

(* ------------------------------------------------------------------ *)
(** ** MSM signal block: the flag array *)

Ltac flags_loop_preserved :=
  intros; cbv zeta;
  match goal with
  | |- length (snd (fst (?f _ _ _ ?flags _))) = _ /\ _ =>
      unfold f;
      apply (for_loop_ind
               (fun _ st => length (snd (fst st)) = length flags
                            /\ (Forall lock_ok flags -> Forall lock_ok (snd (fst st)))))
  end;
  [ split; [reflexivity | auto]
  | intros j [[a fl] b] _ [IH1 IH2]; cbn [fst snd]; split;
    [ rewrite length_alter; exact IH1
    | intros H; apply Forall_alter; [auto | intros x _ Hx; exact Hx] ] ].

Lemma decode_msm_fine_pseudoranges_flags buff n vals flags bit :
  length (snd (fst (decode_msm_fine_pseudoranges buff n vals flags bit))) = length flags
  /\ (Forall lock_ok flags ->
      Forall lock_ok (snd (fst (decode_msm_fine_pseudoranges buff n vals flags bit)))).
Proof. flags_loop_preserved. Qed.

Lemma decode_msm_fine_pseudoranges_extended_flags buff n vals flags bit :
  length (snd (fst (decode_msm_fine_pseudoranges_extended buff n vals flags bit)))
  = length flags
  /\ (Forall lock_ok flags ->
      Forall lock_ok
        (snd (fst (decode_msm_fine_pseudoranges_extended buff n vals flags bit)))).
Proof. flags_loop_preserved. Qed.

Lemma decode_msm_fine_phaseranges_flags buff n vals flags bit :
  length (snd (fst (decode_msm_fine_phaseranges buff n vals flags bit))) = length flags
  /\ (Forall lock_ok flags ->
      Forall lock_ok (snd (fst (decode_msm_fine_phaseranges buff n vals flags bit)))).
Proof. flags_loop_preserved. Qed.

Lemma decode_msm_fine_phaseranges_extended_flags buff n vals flags bit :
  length (snd (fst (decode_msm_fine_phaseranges_extended buff n vals flags bit)))
  = length flags
  /\ (Forall lock_ok flags ->
      Forall lock_ok
        (snd (fst (decode_msm_fine_phaseranges_extended buff n vals flags bit)))).
Proof. flags_loop_preserved. Qed.

Lemma decode_msm_cnrs_flags buff n vals flags bit :
  length (snd (fst (decode_msm_cnrs buff n vals flags bit))) = length flags
  /\ (Forall lock_ok flags ->
      Forall lock_ok (snd (fst (decode_msm_cnrs buff n vals flags bit)))).
Proof. flags_loop_preserved. Qed.

Lemma decode_msm_cnrs_extended_flags buff n vals flags bit :
  length (snd (fst (decode_msm_cnrs_extended buff n vals flags bit))) = length flags
  /\ (Forall lock_ok flags ->
      Forall lock_ok (snd (fst (decode_msm_cnrs_extended buff n vals flags bit)))).
Proof. flags_loop_preserved. Qed.

Lemma decode_msm_fine_phaserangerates_flags buff n vals flags bit :
  length (snd (fst (decode_msm_fine_phaserangerates buff n vals flags bit))) = length flags
  /\ (Forall lock_ok flags ->
      Forall lock_ok (snd (fst (decode_msm_fine_phaserangerates buff n vals flags bit)))).
Proof. flags_loop_preserved. Qed.

(** The two lock-time readers set the lock-time bit of every cell. *)
Ltac flags_loop_lock_set :=
  intros Hlen; cbv zeta;
  match goal with
  | |- length (snd (fst (?f _ ?n _ ?flags _))) = _ /\ _ =>
      unfold f;
      match goal with
      | |- length (snd (fst ?L)) = _ /\ _ =>
          cut (length (snd (fst L)) = length flags
               /\ forall (i : nat) (x : flag_bf),
                    (i < Z.to_nat n)%nat -> snd (fst L) !! i = Some x -> lock_ok x);
          [ intros [H1 H2]; split; [exact H1|];
            apply Forall_lookup_2; intros i x Hx; apply (H2 i x); [|exact Hx];
            apply lookup_lt_Some in Hx; lia
          | apply (for_loop_ind
                     (fun k st => length (snd (fst st)) = length flags
                                  /\ forall (i : nat) (x : flag_bf), (i < k)%nat ->
                                       snd (fst st) !! i = Some x -> lock_ok x)) ]
      end
  end;
  [ split; [reflexivity | intros; lia]
  | intros j [[a fl] b] _ [IH1 IH2]; cbn [fst snd]; split;
    [ rewrite length_alter; exact IH1
    | intros i x Hi Hx; destruct (decide (j = i)) as [->|Hne];
      [ rewrite list_lookup_alter_eq in Hx; destruct (fl !! i); [|discriminate];
        injection Hx as <-; reflexivity
      | rewrite list_lookup_alter_ne in Hx by exact Hne; apply (IH2 i x); [lia | exact Hx] ] ] ].

Lemma decode_msm_lock_times_flags buff n vals flags bit :
  length flags = Z.to_nat n ->
  length (snd (fst (decode_msm_lock_times buff n vals flags bit))) = length flags
  /\ Forall lock_ok (snd (fst (decode_msm_lock_times buff n vals flags bit))).
Proof. flags_loop_lock_set. Qed.

Lemma decode_msm_lock_times_extended_flags buff n vals flags bit :
  length flags = Z.to_nat n ->
  length (snd (fst (decode_msm_lock_times_extended buff n vals flags bit))) = length flags
  /\ Forall lock_ok (snd (fst (decode_msm_lock_times_extended buff n vals flags bit))).
Proof. flags_loop_lock_set. Qed.

(* ------------------------------------------------------------------ *)
(** ** MSM satellite block: validity of the rough range *)

Ltac destruct_let_in H :=
  repeat match type of H with
         | context [match ?x with pair _ _ => _ end] => destruct x
         end.

(** Entry [sat] of [rough_range_valid] tells whether the 8-bit field
    DF397 of the satellite, the [sat]-th after the header, is not the
    sentinel. *)
Lemma decode_msm_sat_data_rough_range_valid buff num_sats msm_type
    rr rv si siv rrt rrtv bit rr' rv' si' siv' rrt' rrtv' bit' :
  decode_msm_sat_data buff num_sats msm_type rr rv si siv rrt rrtv bit
  = (rr', rv', si', siv', rrt', rrtv', bit') ->
  0 <= bit -> bit + 8 * num_sats < 65536 ->
  length rv = Z.to_nat num_sats ->
  forall sat : nat,
    (sat < Z.to_nat num_sats)%nat ->
    rv' !! sat
    = Some (negb (MSM_ROUGH_RANGE_INVALID =? rtcm_getbitu buff (bit + 8 * Z.of_nat sat) 8)).
Proof.
  intros H Hbit Hmax Hlen. unfold decode_msm_sat_data in H.
  match type of H with
  | context [for_loop ?n ?f (rr, rv, bit)] =>
      pose proof (for_loop_ind
        (fun k st =>
           (k <= Z.to_nat num_sats)%nat ->
           length (snd (fst st)) = length rv
           /\ snd st = bit + 8 * Z.of_nat k
           /\ forall sat : nat, (sat < k)%nat ->
                snd (fst st) !! sat
                = Some (negb (MSM_ROUGH_RANGE_INVALID
                              =? rtcm_getbitu buff (bit + 8 * Z.of_nat sat) 8)))
        f n (rr, rv, bit)) as Hloop;
      destruct (for_loop n f (rr, rv, bit)) as [[rr1 rv1] b1]
  end.
  destruct Hloop as (_ & _ & Hrv).
  - intros _. cbn. repeat split; [lia | intros; lia].
  - intros j [[a v] b] Hj IH Hle. destruct IH as (IH1 & IH2 & IH3); [lia|].
    cbn [fst snd] in *. subst b. repeat split.
    + rewrite length_insert. exact IH1.
    + rewrite u16_small by lia. lia.
    + intros sat Hsat. destruct (decide (j = sat)) as [->|Hne].
      * rewrite list_lookup_insert_eq by lia. reflexivity.
      * rewrite list_lookup_insert_ne by exact Hne. apply IH3. lia.
  - lia.
  - cbn [fst snd] in Hrv. destruct_let_in H. injection H as <- <- <- <- <- <- <-.
    exact Hrv.
Qed.

(* ------------------------------------------------------------------ *)
(** ** MSM assembly *)

Section Assembly.
Context `{Ext : rtcm_externals}.
Variables (cons : rtcm_constellation_t) (num_sigs : Z).
Variables (rough_range_ms rough_rate_m_s : list float).
Variables (rough_range_valid rough_rate_valid : list bool).
Variables (sat_info : list Z) (sat_info_valid : list bool).
Variables (fine_pr_ms fine_cp_ms lock_time : list float) (hca_indicator : list bool).
Variables (cnr fine_range_rate_m_s : list float).
Variables (h : Msm.rtcm_msm_header) (flags0 : list flag_bf) (nsignals : nat).

#[local] Abbreviation nsig := (Z.to_nat num_sigs).
#[local] Abbreviation signal_at := (msm_signal_at num_sigs).
#[local] Abbreviation inv :=
  (msm_assembly_inv h nsig rough_range_valid rough_rate_valid flags0 nsignals).

(** A cell that is present is written at the counter, with the flags of
    the spec, and the counter advances. *)
Lemma msm_signal_at_present (sat sig : nat) msg flags i :
  Msm.header msg = h ->
  Msm.cell_mask h !! (sat * nsig + sig)%nat = Some true ->
  exists signal flag,
    signal_at sat rough_range_ms rough_rate_m_s rough_range_valid rough_rate_valid
      fine_pr_ms fine_cp_ms lock_time hca_indicator cnr fine_range_rate_m_s sig
      (msg, flags, i)
    = (Msm.set_signals msg (<[Z.to_nat i := signal]> (Msm.signals msg)),
       <[Z.to_nat i := flag]> flags, u8 (i + 1))
    /\ Msm.flags signal
       = spec_cell_flags (default false (rough_range_valid !! sat))
           (default false (rough_rate_valid !! sat))
           (default flags_data_zero (flags !! Z.to_nat i)).
Proof.
  intros Hh Hcell. unfold msm_signal_at. rewrite Hh, Hcell. cbn [default].
  cbv zeta.
  generalize (default Msm.signal_data_zero (Msm.signals msg !! Z.to_nat i)).
  generalize (default false (rough_range_valid !! sat)).
  generalize (default false (rough_rate_valid !! sat)).
  generalize (default flags_data_zero (flags !! Z.to_nat i)).
  intros [[] [] [] [] []] [] [] signal; cbn [andb valid_pr valid_cp valid_cnr valid_dop];
    cbv beta iota; do 2 eexists; (split; [reflexivity|]); reflexivity.
Qed.

Lemma msm_signal_at_absent (sat sig : nat) msg flags i :
  Msm.header msg = h ->
  Msm.cell_mask h !! (sat * nsig + sig)%nat <> Some true ->
  signal_at sat rough_range_ms rough_rate_m_s rough_range_valid rough_rate_valid
    fine_pr_ms fine_cp_ms lock_time hca_indicator cnr fine_range_rate_m_s sig
    (msg, flags, i)
  = (msg, flags, i).
Proof.
  intros Hh Hcell. unfold msm_signal_at. rewrite Hh.
  destruct (Msm.cell_mask h !! (sat * nsig + sig)%nat) as [[|]|]; cbn [default];
    [contradiction | reflexivity | reflexivity].
Qed.

(** One step of the inner loop keeps the invariant. *)
Lemma msm_signal_at_inv (sat sig : nat) st :
  (sig < nsig)%nat -> (sat * nsig + sig < 255)%nat ->
  inv (sat * nsig + sig)%nat st ->
  inv (Datatypes.S (sat * nsig + sig))
    (signal_at sat rough_range_ms rough_rate_m_s rough_range_valid rough_rate_valid
       fine_pr_ms fine_cp_ms lock_time hca_indicator cnr fine_range_rate_m_s sig st).
Proof.
  intros Hsig Hk. destruct st as [[msg flags] i].
  intros (Hh & Hi & Hlen & Hfl & Hcells).
  set (k := (sat * nsig + sig)%nat) in *.
  pose proof (count_mask_values_range k (Msm.cell_mask h)) as Hrange.
  pose proof (count_mask_values_S k (Msm.cell_mask h)) as HS.
  destruct (decide (Msm.cell_mask h !! k = Some true)) as [Hcell|Hcell].
  - destruct (msm_signal_at_present sat sig msg flags i Hh Hcell)
      as (signal & flag & -> & Hflag).
    rewrite Hcell in HS. simpl in HS.
    unfold msm_assembly_inv. cbn [Msm.header Msm.set_signals Msm.signals].
    rewrite u8_small by lia.
    split; [exact Hh|]. split; [lia|]. split; [rewrite length_insert; exact Hlen|].
    split.
    + intros j Hj. rewrite list_lookup_insert_ne by lia. apply Hfl. lia.
    + intros sat' sig' c Hsig' Hlt Hcell' Hc.
      set (k' := (sat' * nsig + sig')%nat) in *.
      destruct (decide (k' = k)) as [Hkk|Hkk].
      * assert (sat' = sat /\ sig' = sig) as [-> ->]
          by (subst k k'; apply (Nat.div_mod_unique nsig); lia).
        subst k'. fold k in Hc. rewrite <- Hi in Hc.
        apply list_lookup_insert_Some in Hc.
        destruct Hc as [(_ & <- & _) | (Hne & _)]; [|contradiction].
        rewrite Hflag. fold k. rewrite <- Hi.
        rewrite Hfl by lia. reflexivity.
      * assert (Hlt' : (k' < k)%nat) by lia.
        pose proof (count_mask_values_present k' k _ Hlt' Hcell') as Hpres.
        pose proof (count_mask_values_range k' (Msm.cell_mask h)) as Hrange'.
        rewrite list_lookup_insert_ne in Hc by lia.
        apply (Hcells sat' sig' c Hsig' Hlt' Hcell' Hc).
  - rewrite (msm_signal_at_absent sat sig msg flags i Hh Hcell).
    assert (HS' : count_mask_values (Datatypes.S k) (Msm.cell_mask h)
                  = count_mask_values k (Msm.cell_mask h)).
    { rewrite HS. destruct (Msm.cell_mask h !! k) as [[|]|]; simpl;
        [contradiction | lia | lia]. }
    unfold msm_assembly_inv.
    split; [exact Hh|]. split; [lia|]. split; [exact Hlen|]. split; [exact Hfl|].
    intros sat' sig' c Hsig' Hlt Hcell' Hc.
    set (k' := (sat' * nsig + sig')%nat) in *.
    assert (k' <> k) by (intros ->; contradiction).
    apply (Hcells sat' sig' c Hsig'); [lia | exact Hcell' | exact Hc].
Qed.

(** One step of the outer loop keeps the invariant. *)
Lemma msm_sat_at_inv (sat : nat) st :
  (Datatypes.S sat * nsig <= 255)%nat ->
  inv (sat * nsig)%nat st ->
  inv (Datatypes.S sat * nsig)%nat
    (msm_sat_at cons num_sigs rough_range_ms rough_rate_m_s rough_range_valid
       rough_rate_valid sat_info sat_info_valid fine_pr_ms fine_cp_ms lock_time
       hca_indicator cnr fine_range_rate_m_s sat st).
Proof.
  intros Hmax Hinv. destruct st as [[msg flags] i]. unfold msm_sat_at. cbv zeta.
  match goal with
  | |- inv _ (for_loop _ _ (?m, _, _)) =>
      assert (Hstart : inv (sat * nsig + 0)%nat (m, flags, i))
  end.
  { replace (sat * nsig + 0)%nat with (sat * nsig)%nat by lia. exact Hinv. }
  replace (Datatypes.S sat * nsig)%nat with (sat * nsig + nsig)%nat by lia.
  apply (for_loop_ind (fun sig st' => inv (sat * nsig + sig)%nat st')).
  - exact Hstart.
  - intros sig st' Hsig Hst'.
    replace (sat * nsig + Datatypes.S sig)%nat
      with (Datatypes.S (sat * nsig + sig)) by lia.
    apply msm_signal_at_inv; [exact Hsig | lia | exact Hst'].
Qed.

(** The assembly loops establish the invariant for the whole cell mask. *)
Lemma msm_assembly_spec (ns : nat) msg :
  (ns * nsig <= 255)%nat ->
  Msm.header msg = h -> length (Msm.signals msg) = nsignals ->
  inv (ns * nsig)%nat
    (for_loop ns
       (msm_sat_at cons num_sigs rough_range_ms rough_rate_m_s rough_range_valid
          rough_rate_valid sat_info sat_info_valid fine_pr_ms fine_cp_ms lock_time
          hca_indicator cnr fine_range_rate_m_s)
       (msg, flags0, 0)).
Proof.
  intros Hmax Hh Hlen.
  apply (for_loop_ind (fun sat st => inv (sat * nsig)%nat st)).
  - unfold msm_assembly_inv. cbn [Nat.mul].
    repeat split; [exact Hh | exact Hlen | intros; lia].
  - intros sat st Hsat Hst. apply msm_sat_at_inv; [nia | exact Hst].
Qed.

End Assembly.

(* ------------------------------------------------------------------ *)
(** ** The MSM decoder as a whole *)

Section MsmDecode.
Context `{Ext : rtcm_externals}.

Lemma flags_clear_loop_length (n : nat) (flags : list flag_bf) :
  length (for_loop n (fun i flags => <[i := flags_data_zero]> flags) flags) = length flags.
Proof.
  apply (for_loop_ind (fun _ fl => length fl = length flags)); [reflexivity|].
  intros j fl _ IH. rewrite length_insert. exact IH.
Qed.

(** Pose the flag lemma of a cell reader, then name its result. *)
Ltac step_cells H f lemma :=
  match type of H with
  | context [f ?b ?n ?vals ?flags ?bit] =>
      let E := fresh "E" in
      pose proof (lemma b n vals flags bit) as E;
      destruct (f b n vals flags bit) as [[? ?] ?];
      cbn [fst snd] in E
  end.

(** Chain the facts that the cell readers give about the flag array. *)
Ltac flags_facts :=
  repeat match goal with
         | E : _ /\ _ |- _ => destruct E
         | E : length ?l = Z.to_nat ?n -> _ |- _ => specialize (E ltac:(congruence))
         end.

(** What [rtcm3_decode_msm_internal] returns once the message number has
    been accepted: the header of the spec layout is in the record; the
    return is [RC_INVALID_MESSAGE] when the time of week is out of range
    or the cell mask has more than [MSM_MAX_CELLS] entries, and [RC_OK]
    otherwise, and then every cell present carries the flags of the
    spec. *)
Lemma rtcm3_decode_msm_internal_spec (buff : list Byte.byte) (msm_type : msm_enum)
    (msg : Msm.rtcm_msm_message) (rc : rtcm3_rc) (out : Msm.rtcm_msm_message) :
  rtcm3_decode_msm_internal buff msm_type msg = (rc, out) ->
  is_msm4567 msm_type = true ->
  msm_enum_eqb msm_type (to_msm_type (rtcm_getbitu buff 0 12)) = true ->
  cons_eqb RTCM_CONSTELLATION_INVALID (to_constellation (rtcm_getbitu buff 0 12)) = false ->
  exists sm gm cm,
    let h := spec_msm_header buff (to_constellation (rtcm_getbitu buff 0 12)) sm gm cm in
    Msm.header out = h
    /\ (((msm_tow_out_of_range (to_constellation (rtcm_getbitu buff 0 12)) (Msm.tow_ms h) = true
          \/ msm_num_sats h * msm_num_sigs h > MSM_MAX_CELLS)
         /\ rc = RC_INVALID_MESSAGE)
        \/ (msm_num_sats h * msm_num_sigs h <= MSM_MAX_CELLS
            /\ rc = RC_OK
            /\ length (Msm.signals out) = length (Msm.signals msg)
            /\ exists (flags0 : list flag_bf) (rrv rrtv : list bool),
                Forall lock_ok flags0
                /\ Z.of_nat (length flags0)
                   = count_mask_values (Z.to_nat (msm_num_sats h * msm_num_sigs h))
                       (Msm.cell_mask h)
                /\ (forall sat : nat,
                      Z.of_nat sat < msm_num_sats h ->
                      rrv !! sat
                      = Some (negb (MSM_ROUGH_RANGE_INVALID
                                    =? rtcm_getbitu buff
                                         (msm_header_bits h + 8 * Z.of_nat sat) 8)))
                /\ (forall (sat sig : nat) (c : Msm.rtcm_msm_signal_data),
                      msm_cell_present h sat sig ->
                      Msm.signals out !! msm_cell_index h sat sig = Some c ->
                      Msm.flags c
                      = spec_cell_flags (default false (rrv !! sat))
                          (default false (rrtv !! sat))
                          (default flags_data_zero
                             (flags0 !! msm_cell_index h sat sig))))).
Proof.
  intros H Hty Hnum Hcons.
  set (cons := to_constellation (rtcm_getbitu buff 0 12)) in *.
  destruct msg as [hdr sats signals]. destruct hdr.
  unfold rtcm3_decode_msm_internal in H. rewrite Hty in H. cbn [negb] in H. cbv zeta in H.
  msm_header_simpl_in H. rewrite Hnum in H. fold cons in H. rewrite Hcons in H.
  cbn [negb] in H.
  match type of H with
  | context [rtcm3_read_msm_header buff cons ?h0] =>
      destruct (rtcm3_read_msm_header_spec buff cons h0) as (sm & gm & cm & Eh);
      rewrite Eh in H; clear Eh
  end.
  exists sm, gm, cm. unfold spec_msm_header in *. msm_header_simpl_in H.
  unfold msm_header_bits, msm_cell_present, msm_cell_index.
  unfold msm_num_sats, msm_num_sigs.
  cbv zeta. msm_header_simpl.
  pose proof (count_mask_values_range MSM_SATELLITE_MASK_SIZE sm) as Hns.
  pose proof (count_mask_values_range MSM_SIGNAL_MASK_SIZE gm) as Hng.
  set (NS := count_mask_values MSM_SATELLITE_MASK_SIZE sm) in *.
  set (NG := count_mask_values MSM_SIGNAL_MASK_SIZE gm) in *.
  unfold MSM_SATELLITE_MASK_SIZE, MSM_SIGNAL_MASK_SIZE in Hns, Hng.
  rewrite !(u8_small NS), !(u8_small NG) in H by lia.
  destruct (msm_tow_out_of_range cons (spec_msm_tow buff cons)) eqn:Etow.
  { injection H as <- <-. split; [reflexivity|]. left. split; [left|]; reflexivity. }
  unfold MSM_MAX_CELLS in *.
  destruct (Z.gtb_spec (NS * NG) 64) as [Hgt|Hle].
  { injection H as <- <-. split; [reflexivity|]. left. split; [right; lia|reflexivity]. }
  rewrite !(u8_small (NS * NG)) in H by nia.
  pose proof (count_mask_values_range (Z.to_nat (NS * NG)) cm) as Hnc.
  set (NC := count_mask_values (Z.to_nat (NS * NG)) cm) in *.
  rewrite !(u8_small NC) in H by lia.
  rewrite (u16_small (0 + (169 + NS * NG))) in H by nia.
  rewrite Z.add_0_l in H.
  destruct (decode_msm_sat_data _ _ _ _ _ _ _ _ _ _)
    as [[[[[[rr rv] si] siv] rrt] rrtv] b1] eqn:Esat.
  pose proof (decode_msm_sat_data_rough_range_valid _ _ _ _ _ _ _ _ _ _ _ _ _ _ _ _ _
                Esat ltac:(nia) ltac:(nia) ltac:(apply length_replicate)) as Hrv.
  clear Esat.
  match type of H with
  | context [for_loop (Z.to_nat NC) ?f ?l] =>
      pose proof (flags_clear_loop_length (Z.to_nat NC) l) as Hinit;
      rewrite length_replicate in Hinit;
      assert (Hzero : Forall lock_ok (for_loop (Z.to_nat NC) f l) ->
                      Forall lock_ok (for_loop (Z.to_nat NC) f l)) by auto;
      set (flags_init := for_loop (Z.to_nat NC) f l) in *
  end.
  destruct msm_type; try discriminate Hty; cbn [msm_enum_eqb orb] in H; cbv iota in H.
  all: repeat first
         [ step_cells H decode_msm_fine_pseudoranges decode_msm_fine_pseudoranges_flags
         | step_cells H decode_msm_fine_pseudoranges_extended
             decode_msm_fine_pseudoranges_extended_flags
         | step_cells H decode_msm_fine_phaseranges decode_msm_fine_phaseranges_flags
         | step_cells H decode_msm_fine_phaseranges_extended
             decode_msm_fine_phaseranges_extended_flags
         | step_cells H decode_msm_lock_times decode_msm_lock_times_flags
         | step_cells H decode_msm_lock_times_extended decode_msm_lock_times_extended_flags
         | step_cells H decode_msm_cnrs decode_msm_cnrs_flags
         | step_cells H decode_msm_cnrs_extended decode_msm_cnrs_extended_flags
         | step_cells H decode_msm_fine_phaserangerates
             decode_msm_fine_phaserangerates_flags
         | match type of H with
           | context [decode_msm_hca_indicators ?b ?n ?v ?bit] =>
               destruct (decode_msm_hca_indicators b n v bit) as [? ?]
           end ].
  all: assert (Hprod : (Z.to_nat NS * Z.to_nat NG)%nat = Z.to_nat (NS * NG))
         by (rewrite Z2Nat.inj_mul; lia).
  all: match type of H with
       | context [for_loop ?n
                    (msm_sat_at ?cns ?g ?rr ?rrt ?rv ?rrtv ?si ?siv ?pr ?cp ?lt ?hca ?cnr
                       ?frr) (?m, ?fl, 0)] =>
           assert (Hfl : Forall lock_ok fl /\ length fl = Z.to_nat NC)
             by (flags_facts; split; [auto | congruence]);
           pose proof (msm_assembly_spec cons NG rr rrt rv rrtv si siv pr cp lt hca cnr frr
                         (Msm.header m) fl (length signals) (Z.to_nat NS) m
                         ltac:(lia) eq_refl eq_refl) as Hinv;
           destruct (for_loop (Z.to_nat NS)
                       (msm_sat_at cons NG rr rrt rv rrtv si siv pr cp lt hca cnr frr)
                       (m, fl, 0)) as [[m' fl'] i'];
           injection H as <- <-;
           destruct Hinv as (Hh & Hi & Hlen & Hflg & Hcells);
           cbn [Msm.header Msm.cell_mask Msm.signals] in Hh, Hi, Hlen, Hflg, Hcells;
           split; [exact Hh|];
           right; split; [lia|]; split; [reflexivity|]; split; [exact Hlen|];
           exists fl, rv, rrtv; split; [apply Hfl|]; split; [lia|]; split;
           [ intros sat Hsat; apply Hrv; lia
           | intros sat sig c (Hs & Hg & Hcell) Hc;
             apply (Hcells sat sig c); [lia | | exact Hcell | exact Hc];
             apply Nat.lt_le_trans with ((sat + 1) * Z.to_nat g)%nat;
             [lia | apply Nat.mul_le_mono_r; lia] ]
       end.
Qed.

End MsmDecode.

Section MsmClaims.
Context `{Ext : rtcm_externals}.

Lemma msm_enum_eqb_refl (t : msm_enum) : msm_enum_eqb t t = true.
Proof. destruct t; reflexivity. Qed.

Lemma cons_eqb_invalid (c : rtcm_constellation_t) :
  c <> RTCM_CONSTELLATION_INVALID -> cons_eqb RTCM_CONSTELLATION_INVALID c = false.
Proof. destruct c; intros H; try reflexivity. contradiction. Qed.

(** A return of [RC_OK] means that the three classification checks have
    passed. *)
Lemma rtcm3_decode_msm_internal_ok_checks buff msm_type msg out :
  rtcm3_decode_msm_internal buff msm_type msg = (RC_OK, out) ->
  is_msm4567 msm_type = true
  /\ msm_enum_eqb msm_type (to_msm_type (rtcm_getbitu buff 0 12)) = true
  /\ cons_eqb RTCM_CONSTELLATION_INVALID (to_constellation (rtcm_getbitu buff 0 12)) = false.
Proof.
  intros H. destruct msg as [hdr sats signals]. destruct hdr.
  unfold rtcm3_decode_msm_internal in H.
  destruct (is_msm4567 msm_type); cbn [negb] in H; [|discriminate].
  cbv zeta in H. msm_header_simpl_in H.
  destruct (msm_enum_eqb msm_type _); cbn [negb] in H; [|discriminate].
  destruct (cons_eqb RTCM_CONSTELLATION_INVALID _); [discriminate|].
  repeat split.
Qed.

(** Every cell present in the cell mask of a decoded message is in
    [signals] at its index, with a flag word that is the spec's
    combination of the validity of the satellite's rough range, of its
    rough rate, and of a signal-block flag word whose lock-time bit is
    set. *)
Lemma msm_present_cell_flags buff msm_type msg out (sat sig : nat) :
  rtcm3_decode_msm_internal buff msm_type msg = (RC_OK, out) ->
  MSM_MAX_CELLS <= Z.of_nat (length (Msm.signals msg)) ->
  msm_cell_present (Msm.header out) sat sig ->
  exists c f rrtv,
    Msm.signals out !! msm_cell_index (Msm.header out) sat sig = Some c
    /\ lock_ok f
    /\ Msm.flags c
       = spec_cell_flags
           (negb (MSM_ROUGH_RANGE_INVALID
                  =? rtcm_getbitu buff
                       (msm_header_bits (Msm.header out) + 8 * Z.of_nat sat) 8))
           rrtv f.
Proof.
  intros H Hlen Hcell.
  destruct (rtcm3_decode_msm_internal_ok_checks _ _ _ _ H) as (Hty & Hnum & Hcons).
  destruct (rtcm3_decode_msm_internal_spec _ _ _ _ _ H Hty Hnum Hcons)
    as (sm & gm & cm & Hh & Hcases).
  cbv zeta in Hh, Hcases. rewrite <- Hh in Hcases. clear Hh.
  destruct Hcases as [[_ Hrc] | (Hle & _ & Hlen' & flags0 & rrv & rrtv & Hlock & Hnc & Hrv & Hcells)];
    [discriminate|].
  set (h := Msm.header out) in *.
  pose proof Hcell as (Hs & Hg & Hbit).
  set (k := (sat * Z.to_nat (msm_num_sigs h) + sig)%nat) in *.
  assert (Hk : (k < Z.to_nat (msm_num_sats h * msm_num_sigs h))%nat).
  { rewrite Z2Nat.inj_mul by lia. subst k.
    apply Nat.lt_le_trans with ((sat + 1) * Z.to_nat (msm_num_sigs h))%nat;
      [lia | apply Nat.mul_le_mono_r; lia]. }
  pose proof (count_mask_values_present k _ _ Hk Hbit) as Hidx.
  pose proof (count_mask_values_range k (Msm.cell_mask h)) as Hidx0.
  pose proof (count_mask_values_range (Z.to_nat (msm_num_sats h * msm_num_sigs h))
                (Msm.cell_mask h)) as Hnc0.
  unfold MSM_MAX_CELLS in *.
  assert (Hi : (msm_cell_index h sat sig < length (Msm.signals out))%nat)
    by (unfold msm_cell_index; fold k; lia).
  assert (Hf : (msm_cell_index h sat sig < length flags0)%nat)
    by (unfold msm_cell_index; fold k; lia).
  apply lookup_lt_is_Some_2 in Hi. destruct Hi as [c Hc].
  apply lookup_lt_is_Some_2 in Hf. destruct Hf as [f Hf].
  exists c, f, (default false (rrtv !! sat)). split; [exact Hc|]. split.
  - exact (Forall_lookup_1 _ _ _ _ Hlock Hf).
  - rewrite (Hcells sat sig c Hcell Hc), Hf, (Hrv sat Hs). reflexivity.
Qed.

(** C3. For an MSM4-MSM7 message whose message number is accepted
    (the requested type agrees with the number and the constellation is
    known), if [popcount(satellite_mask) * popcount(signal_mask)] of the
    header read exceeds [MSM_MAX_CELLS = 64], the decoder returns
    [RC_INVALID_MESSAGE]; this holds whether or not the time of week is in
    range. *)
Theorem msm_cell_mask_too_large (buff : list Byte.byte) (msm_type : msm_enum)
    (msg : Msm.rtcm_msm_message) :
  is_msm4567 msm_type = true ->
  to_msm_type (rtcm_getbitu buff 0 12) = msm_type ->
  to_constellation (rtcm_getbitu buff 0 12) <> RTCM_CONSTELLATION_INVALID ->
  msm_num_sats (Msm.header (snd (rtcm3_decode_msm_internal buff msm_type msg)))
  * msm_num_sigs (Msm.header (snd (rtcm3_decode_msm_internal buff msm_type msg)))
  > MSM_MAX_CELLS ->
  fst (rtcm3_decode_msm_internal buff msm_type msg) = RC_INVALID_MESSAGE.
Proof.
  intros Hty Hnum Hcons Hgt.
  destruct (rtcm3_decode_msm_internal buff msm_type msg) as [rc out] eqn:H.
  cbn [fst snd] in *.
  destruct (rtcm3_decode_msm_internal_spec _ _ _ _ _ H Hty) as (sm & gm & cm & Hh & Hcases).
  { rewrite Hnum. apply msm_enum_eqb_refl. }
  { apply cons_eqb_invalid, Hcons. }
  cbv zeta in Hh, Hcases. rewrite <- Hh in Hcases.
  destruct Hcases as [[_ Hrc] | (Hle & _)]; [exact Hrc | lia].
Qed.

(** C4. In an MSM4-MSM7 message decoded with [RC_OK] into a record with
    room for [MSM_MAX_CELLS] signals, if the rough range of satellite
    [sat] is invalid (its 8-bit integer-milliseconds field, the [sat]-th
    after the header, is the sentinel 255), then every cell of [sat]
    present in the cell mask has [valid_pr = false] and
    [valid_cp = false]. *)
Theorem msm_rough_range_invalid_cells (buff : list Byte.byte) (msm_type : msm_enum)
    (msg out : Msm.rtcm_msm_message) (sat sig : nat) :
  rtcm3_decode_msm_internal buff msm_type msg = (RC_OK, out) ->
  MSM_MAX_CELLS <= Z.of_nat (length (Msm.signals msg)) ->
  rtcm_getbitu buff (msm_header_bits (Msm.header out) + 8 * Z.of_nat sat) 8
  = MSM_ROUGH_RANGE_INVALID ->
  msm_cell_present (Msm.header out) sat sig ->
  exists c,
    Msm.signals out !! msm_cell_index (Msm.header out) sat sig = Some c
    /\ valid_pr (Msm.flags c) = false
    /\ valid_cp (Msm.flags c) = false.
Proof.
  intros H Hlen Hinv Hcell.
  destruct (msm_present_cell_flags _ _ _ _ _ _ H Hlen Hcell)
    as (c & f & rrtv & Hc & _ & Hflags).
  exists c. split; [exact Hc|]. rewrite Hflags, Hinv. split; reflexivity.
Qed.

(** C5. For a Beidou MSM message (accepted message number, constellation
    BDS) the stored [tow_ms] is the raw 30-bit field at bit 24 when it is
    below [2^30 - 14 * 1000], and [RTCM_MAX_TOW_MS + 1 - (2^30 - raw)]
    otherwise, which is what [normalize_bds2_tow] computes on a 30-bit
    value; a raw value of [2^30 - 5000] is stored as 604795000. *)
Theorem msm_bds_tow_normalized (buff : list Byte.byte) (msm_type : msm_enum)
    (msg : Msm.rtcm_msm_message) :
  is_msm4567 msm_type = true ->
  to_msm_type (rtcm_getbitu buff 0 12) = msm_type ->
  to_constellation (rtcm_getbitu buff 0 12) = RTCM_CONSTELLATION_BDS ->
  let raw := rtcm_getbitu buff 24 30 in
  let stored :=
    Msm.tow_ms (Msm.header (snd (rtcm3_decode_msm_internal buff msm_type msg))) in
  stored = (if raw >=? 2 ^ 30 - 14 * 1000 then RTCM_MAX_TOW_MS + 1 - (2 ^ 30 - raw) else raw)
  /\ stored = normalize_bds2_tow raw
  /\ (raw = 2 ^ 30 - 5000 -> stored = 604795000).
Proof.
  intros Hty Hnum Hcons raw stored.
  assert (Hstored : stored = spec_bds_tow raw).
  { subst stored.
    destruct (rtcm3_decode_msm_internal buff msm_type msg) as [rc out] eqn:H.
    destruct (rtcm3_decode_msm_internal_spec _ _ _ _ _ H Hty)
      as (sm & gm & cm & Hh & _).
    { rewrite Hnum. apply msm_enum_eqb_refl. }
    { rewrite Hcons. reflexivity. }
    cbv zeta in Hh. cbn [snd]. rewrite Hh, Hcons. reflexivity. }
  split; [exact Hstored|]. split.
  - rewrite Hstored. symmetry. apply normalize_bds2_tow_spec, rtcm_getbitu_range. lia.
  - intros Hraw. rewrite Hstored, Hraw. reflexivity.
Qed.

(** C10. In an MSM4-MSM7 message decoded with [RC_OK] into a record with
    room for [MSM_MAX_CELLS] signals, every cell present in the cell mask
    has [valid_lock = true]; nothing is assumed about its pseudorange,
    carrier phase, CNR or the rough range of its satellite. *)
Theorem msm_valid_lock_unconditional (buff : list Byte.byte) (msm_type : msm_enum)
    (msg out : Msm.rtcm_msm_message) (sat sig : nat) :
  rtcm3_decode_msm_internal buff msm_type msg = (RC_OK, out) ->
  MSM_MAX_CELLS <= Z.of_nat (length (Msm.signals msg)) ->
  msm_cell_present (Msm.header out) sat sig ->
  exists c,
    Msm.signals out !! msm_cell_index (Msm.header out) sat sig = Some c
    /\ valid_lock (Msm.flags c) = true.
Proof.
  intros H Hlen Hcell.
  destruct (msm_present_cell_flags _ _ _ _ _ _ H Hlen Hcell)
    as (c & f & rrtv & Hc & Hf & Hflags).
  exists c. split; [exact Hc|]. rewrite Hflags. exact Hf.
Qed.

End MsmClaims.

Lemma msm_cell_mask_too_large_witness :
  fst (@rtcm3_decode_msm_internal spec_externals buff_msm4_72_cells MSM4 msm_message_zero)
  = RC_INVALID_MESSAGE.
Proof.
  apply (@msm_cell_mask_too_large spec_externals buff_msm4_72_cells MSM4 msm_message_zero).
  - reflexivity.
  - vm_compute. reflexivity.
  - vm_compute. discriminate.
  - vm_compute. reflexivity.
Defined.

Lemma msm_rough_range_invalid_cells_witness :
  exists c,
    Msm.signals
      (snd (@rtcm3_decode_msm_internal spec_externals buff_msm4 MSM4 msm_message_zero))
      !! 0%nat = Some c
    /\ valid_pr (Msm.flags c) = false
    /\ valid_cp (Msm.flags c) = false.
Proof.
  apply (@msm_rough_range_invalid_cells spec_externals buff_msm4 MSM4 msm_message_zero
           (snd (@rtcm3_decode_msm_internal spec_externals buff_msm4 MSM4 msm_message_zero))
           0%nat 0%nat).
  - vm_compute. reflexivity.
  - vm_compute. discriminate.
  - vm_compute. reflexivity.
  - repeat split; vm_compute; reflexivity.
Defined.

Lemma msm_bds_tow_normalized_witness :
  Msm.tow_ms
    (Msm.header
       (snd (@rtcm3_decode_msm_internal spec_externals buff_msm7_bds MSM7 msm_message_zero)))
  = 604795000.
Proof.
  destruct (@msm_bds_tow_normalized spec_externals buff_msm7_bds MSM7 msm_message_zero)
    as (_ & _ & H).
  - reflexivity.
  - vm_compute. reflexivity.
  - vm_compute. reflexivity.
  - apply H. vm_compute. reflexivity.
Defined.

Lemma msm_valid_lock_unconditional_witness :
  exists c,
    Msm.signals
      (snd (@rtcm3_decode_msm_internal spec_externals buff_msm4 MSM4 msm_message_zero))
      !! 2%nat = Some c
    /\ valid_lock (Msm.flags c) = true.
Proof.
  apply (@msm_valid_lock_unconditional spec_externals buff_msm4 MSM4 msm_message_zero
           (snd (@rtcm3_decode_msm_internal spec_externals buff_msm4 MSM4 msm_message_zero))
           1%nat 1%nat).
  - vm_compute. reflexivity.
  - vm_compute. discriminate.
  - repeat split; vm_compute; reflexivity.
Defined.

(* ------------------------------------------------------------------ *)
(** ** Extended legacy messages: ambiguity and CNR *)

Lemma s32_small (x : Z) : - 2147483648 <= x < 2147483648 -> s32 x = x.
Proof.
  intros H. unfold s32. change (2 ^ 31) with 2147483648.
  change (2 ^ 32) with 4294967296. rewrite Z.mod_small by lia. lia.
Qed.

Ltac obs_simpl :=
  cbv beta iota zeta delta
      [Obs.code Obs.pseudorange Obs.carrier_phase Obs.lock Obs.cnr Obs.flags
       Obs.svId Obs.fcn Obs.obs_L1 Obs.obs_L2
       Obs.set_code Obs.set_pseudorange Obs.set_carrier_phase Obs.set_lock Obs.set_cnr
       Obs.set_flags Obs.set_svId Obs.set_fcn Obs.set_obs_L1 Obs.set_obs_L2
       set_flag_pr set_flag_cp set_flag_cnr set_flag_lock
       valid_pr valid_cp valid_cnr valid_lock valid_dop
       set_valid_pr set_valid_cp set_valid_cnr set_valid_lock set_valid_dop
       init_sat_data flags_data_zero fst snd].

(** Remove the wrap-around of cursors that stay below [2^16] and of
    fields that fit their variable. *)
Ltac unwrap_cursors_in H :=
  repeat match type of H with
         | context [u16 ?x] => rewrite (u16_small x) in H by lia
         end.

Ltac unwrap_fields_in H :=
  repeat match type of H with
         | context [u8 (rtcm_getbitu ?b ?o ?w)] =>
             let R := fresh in
             pose proof (rtcm_getbitu_range b o w ltac:(lia)) as R;
             let v := eval vm_compute in (2 ^ w) in
             change (2 ^ w) with v in R;
             rewrite (u8_small (rtcm_getbitu b o w)) in H by lia; clear R
         | context [s32 (rtcm_getbitu ?b ?o ?w)] =>
             let R := fresh in
             pose proof (rtcm_getbitu_range b o w ltac:(lia)) as R;
             let v := eval vm_compute in (2 ^ w) in
             change (2 ^ w) with v in R;
             rewrite (s32_small (rtcm_getbitu b o w)) in H by lia; clear R
         end.

Ltac obs_simpl_in H :=
  cbv beta iota zeta delta
      [Obs.code Obs.pseudorange Obs.carrier_phase Obs.lock Obs.cnr Obs.flags
       Obs.svId Obs.fcn Obs.obs_L1 Obs.obs_L2
       Obs.set_code Obs.set_pseudorange Obs.set_carrier_phase Obs.set_lock Obs.set_cnr
       Obs.set_flags Obs.set_svId Obs.set_fcn Obs.set_obs_L1 Obs.set_obs_L2
       set_flag_pr set_flag_cp set_flag_cnr set_flag_lock
       valid_pr valid_cp valid_cnr valid_lock valid_dop
       set_valid_pr set_valid_cp set_valid_cnr set_valid_lock set_valid_dop
       init_sat_data flags_data_zero fst snd] in H.

Lemma if_pair_same {A : Type} (b : bool) (x : A) :
  (if b then (true, x) else (false, x)) = (b, x).
Proof. destruct b; reflexivity. Qed.

(** Bring the offsets of a goal to the form [bit + literal]. *)
Ltac add_literals :=
  repeat match goal with
         | |- context [Z.add ?a ?b] =>
             z_literal a; z_literal b;
             let v := eval vm_compute in (Z.add a b) in
             change (Z.add a b) with v
         end.

Ltac add_literals_in H :=
  repeat match type of H with
         | context [Z.add ?a ?b] =>
             z_literal a; z_literal b;
             let v := eval vm_compute in (Z.add a b) in
             change (Z.add a b) with v in H
         end.

Ltac norm_offsets := rewrite <- ?Z.add_assoc; add_literals.
Ltac norm_offsets_in H := rewrite <- ?Z.add_assoc in H; add_literals_in H.

(** Walk through the conditionals of a satellite body: a [construct_*]
    result is the pair of its test and its record; a CNR test and the FCN
    guard are split into their cases. *)
Ltac sat_body_cases H :=
  repeat (first
            [ rewrite if_pair_same in H
            | match type of H with
              | context [if rtcm_getbitu ?b ?o 8 =? 0 then _ else _] =>
                  destruct (Z.eqb_spec (rtcm_getbitu b o 8) 0)
              | context [if ?x <=? MT1012_GLO_MAX_FCN then _ else _] =>
                  destruct (x <=? MT1012_GLO_MAX_FCN)
              end ];
          cbv beta iota in H; unwrap_cursors_in H; unwrap_fields_in H;
          norm_offsets_in H).

(** The proof of [reads_ext_fields] for one satellite body. *)
Ltac ext_fields_proof :=
  intros H0 H1;
  match goal with
  | |- reads_ext_fields _ _ _ _ _ _ _ ?sat => destruct sat as [sv fc [] []]
  end;
  unfold reads_ext_fields, l1_block_bits, l1_block_pr; cbv zeta;
  match goal with
  | |- context [fst (?body ?b ?c ?s)] =>
      let H := fresh "H" in
      destruct (body b c s) as [sat' bit'] eqn:H;
      cbv delta [rtcm3_decode_1002_sat rtcm3_decode_1004_sat rtcm3_decode_1010_sat
                 rtcm3_decode_1012_sat decode_basic_gps_l1_freq_data
                 decode_basic_glo_l1_freq_data decode_basic_l2_freq_data get_cnr
                 construct_L1_code construct_L1_phase construct_L2_code
                 construct_L2_phase] in H;
      cbv beta zeta in H; unwrap_cursors_in H; unwrap_fields_in H;
      norm_offsets_in H; norm_offsets;
      sat_body_cases H;
      obs_simpl_in H; injection H as <- <-; obs_simpl
  end;
  repeat split; try reflexivity; intros; contradiction.

Section ExtendedFields.
Context `{Ext : rtcm_externals}.

Lemma rtcm3_decode_1002_sat_ext buff bit sat :
  0 <= bit -> bit + 130 < 65536 ->
  reads_ext_fields false false 8 (fun amb => PrimFloat.mul (Z2F amb) PRUNIT_GPS)
    rtcm3_decode_1002_sat buff bit sat.
Proof. ext_fields_proof. Qed.

Lemma rtcm3_decode_1004_sat_ext buff bit sat :
  0 <= bit -> bit + 130 < 65536 ->
  reads_ext_fields false true 8 (fun amb => PrimFloat.mul (Z2F amb) PRUNIT_GPS)
    rtcm3_decode_1004_sat buff bit sat.
Proof. ext_fields_proof. Qed.

Lemma rtcm3_decode_1010_sat_ext buff bit sat :
  0 <= bit -> bit + 130 < 65536 ->
  reads_ext_fields true false 7 (fun amb => PrimFloat.mul PRUNIT_GLO (Z2F amb))
    rtcm3_decode_1010_sat buff bit sat.
Proof. ext_fields_proof. Qed.

Lemma rtcm3_decode_1012_sat_ext buff bit sat :
  0 <= bit -> bit + 130 < 65536 ->
  reads_ext_fields true true 7 (fun amb => PrimFloat.mul (Z2F amb) PRUNIT_GLO)
    rtcm3_decode_1012_sat buff bit sat.
Proof. ext_fields_proof. Qed.

End ExtendedFields.

(** C2 (amended). After the basic L1 block of a satellite, 1002 and 1004
    read an 8-bit ambiguity and then an 8-bit CNR (16 bits), while 1010
    and 1012 read a 7-bit ambiguity and then an 8-bit CNR (15 bits); the
    cursor advances by exactly those widths, and in 1004 and 1012 by the
    51 bits of the L2 block and its CNR after them. *)
Theorem extended_messages_ambiguity_and_cnr `{Ext : rtcm_externals}
    (buff : list Byte.byte) (bit : Z) (sat : Obs.rtcm_sat_data) :
  0 <= bit -> bit + 130 < 65536 ->
  reads_ext_fields false false 8 (fun amb => PrimFloat.mul (Z2F amb) PRUNIT_GPS)
    rtcm3_decode_1002_sat buff bit sat
  /\ reads_ext_fields false true 8 (fun amb => PrimFloat.mul (Z2F amb) PRUNIT_GPS)
       rtcm3_decode_1004_sat buff bit sat
  /\ reads_ext_fields true false 7 (fun amb => PrimFloat.mul PRUNIT_GLO (Z2F amb))
       rtcm3_decode_1010_sat buff bit sat
  /\ reads_ext_fields true true 7 (fun amb => PrimFloat.mul (Z2F amb) PRUNIT_GLO)
       rtcm3_decode_1012_sat buff bit sat.
Proof.
  intros H0 H1. split; [|split; [|split]].
  - apply rtcm3_decode_1002_sat_ext; assumption.
  - apply rtcm3_decode_1004_sat_ext; assumption.
  - apply rtcm3_decode_1010_sat_ext; assumption.
  - apply rtcm3_decode_1012_sat_ext; assumption.
Qed.

Lemma extended_messages_ambiguity_and_cnr_witness :
  reads_ext_fields false false 8 (fun amb => PrimFloat.mul (Z2F amb) PRUNIT_GPS)
    (@rtcm3_decode_1002_sat spec_externals) buff_1004 64 Obs.sat_data_zero
  /\ reads_ext_fields false true 8 (fun amb => PrimFloat.mul (Z2F amb) PRUNIT_GPS)
       (@rtcm3_decode_1004_sat spec_externals) buff_1004 64 Obs.sat_data_zero
  /\ reads_ext_fields true false 7 (fun amb => PrimFloat.mul PRUNIT_GLO (Z2F amb))
       (@rtcm3_decode_1010_sat spec_externals) buff_1004 64 Obs.sat_data_zero
  /\ reads_ext_fields true true 7 (fun amb => PrimFloat.mul (Z2F amb) PRUNIT_GLO)
       (@rtcm3_decode_1012_sat spec_externals) buff_1004 64 Obs.sat_data_zero.
Proof.
  apply (@extended_messages_ambiguity_and_cnr spec_externals buff_1004 64 Obs.sat_data_zero);
    lia.
Defined.

(** C2 (counterexample). The 1010 message [buff_1010] has its satellite
    at bit 61.  Read as the claim says, with an 8-bit ambiguity, the body
    would end at bit 141 and take the CNR from the 8 bits at bit 133; the
    decoder ends at bit 140 and takes the CNR from bit 132. *)
Lemma glonass_ambiguity_is_not_8_bits :
  ~ reads_ext_fields true false 8 (fun amb => PrimFloat.mul PRUNIT_GLO (Z2F amb))
      (@rtcm3_decode_1010_sat spec_externals) buff_1010 61 Obs.sat_data_zero.
Proof.
  unfold reads_ext_fields. vm_compute. intros (_ & _ & _ & H). discriminate H.
Qed.

(* ------------------------------------------------------------------ *)
(** ** GLONASS phase validity in 1012 *)

(** In 1012 the L1 phase validity is guarded by the stored [fcn], the L2
    phase validity is not: it is decided by the L2 [phr_pr_diff] alone. *)
Lemma rtcm3_decode_1012_sat_valid_cp `{Ext : rtcm_externals}
    (buff : list Byte.byte) (bit : Z) (sat : Obs.rtcm_sat_data) :
  0 <= bit -> bit + 130 < 65536 ->
  let sat' := fst (rtcm3_decode_1012_sat buff bit sat) in
  Obs.fcn sat' = rtcm_getbitu buff (bit + 7) 5
  /\ valid_cp (Obs.flags (Obs.obs_L1 sat'))
     = (rtcm_getbitu buff (bit + 7) 5 <=? MT1012_GLO_MAX_FCN)
       && negb (rtcm_getbits buff (bit + 37) 20 =? CP_INVALID)
  /\ valid_cp (Obs.flags (Obs.obs_L2 sat'))
     = negb (rtcm_getbits buff (bit + 95) 20 =? CP_INVALID).
Proof.
  intros H0 H1. destruct sat as [sv fc [] []]. cbv zeta.
  destruct (rtcm3_decode_1012_sat buff bit _) as [sat' bit'] eqn:H.
  cbv delta [rtcm3_decode_1012_sat decode_basic_glo_l1_freq_data
             decode_basic_l2_freq_data get_cnr construct_L1_code construct_L1_phase
             construct_L2_code construct_L2_phase] in H.
  cbv beta zeta in H. unwrap_cursors_in H. unwrap_fields_in H. norm_offsets_in H.
  obs_simpl_in H.
  destruct (rtcm_getbitu buff (bit + 7) 5 <=? MT1012_GLO_MAX_FCN);
    sat_body_cases H; obs_simpl_in H; injection H as <- <-; obs_simpl;
    repeat split; reflexivity.
Qed.

(** C1 (the code at a failing input). [buff_1012_fcn25] is a 1012 message
    whose only satellite has stored [fcn = 25], above
    [MT1012_GLO_MAX_FCN = 20].  It decodes with [RC_OK]; the L1
    observation has [valid_cp = false], as the guard on [fcn] asks, but
    the L2 observation has [valid_cp = true]: the L2 phase validity is the
    result of [construct_L2_phase] alone. *)
Theorem rtcm3_decode_1012_l2_phase_ignores_fcn :
  exists out sat,
    @rtcm3_decode_1012 spec_externals buff_1012_fcn25 obs_message_zero = (RC_OK, out)
    /\ Obs.sats out !! 0%nat = Some sat
    /\ Obs.fcn sat = 25
    /\ MT1012_GLO_MAX_FCN = 20
    /\ valid_cp (Obs.flags (Obs.obs_L1 sat)) = false
    /\ valid_cp (Obs.flags (Obs.obs_L2 sat)) = true.
Proof.
  do 2 eexists. split; [vm_compute; reflexivity|].
  split; [reflexivity|]. repeat split.
Qed.

(* ------------------------------------------------------------------ *)
(** ** The decoders on the test vectors *)

(** The 1004 vector: [0.02 * 10000000 + 80 * 299792.458] metres on L1,
    CNR [0.25 * 140], and the L2 pseudorange [0.02 * 100] metres above. *)
Example rtcm3_decode_1004_vector :
  exists out sat,
    @rtcm3_decode_1004 spec_externals buff_1004 obs_message_zero = (RC_OK, out)
    /\ Obs.header out = Obs.mk_header 1004 1 123456000 0 1 0 0
    /\ Obs.sats out !! 0%nat = Some sat
    /\ Obs.svId sat = 3
    /\ Obs.pseudorange (Obs.obs_L1 sat) = 24183396.64%float
    /\ Obs.cnr (Obs.obs_L1 sat) = 35%float
    /\ Obs.lock (Obs.obs_L1 sat) = 10
    /\ Obs.pseudorange (Obs.obs_L2 sat) = 24183398.64%float
    /\ Obs.cnr (Obs.obs_L2 sat) = 30%float.
Proof.
  do 2 eexists. split; [vm_compute; reflexivity|].
  split; [reflexivity|]. split; [reflexivity|]. repeat split.
Qed.

(** The 1002 vector carries the same L1 observation. *)
Example rtcm3_decode_1002_vector :
  exists out sat,
    @rtcm3_decode_1002 spec_externals buff_1002 obs_message_zero = (RC_OK, out)
    /\ Obs.sats out !! 0%nat = Some sat
    /\ Obs.pseudorange (Obs.obs_L1 sat) = 24183396.64%float
    /\ Obs.cnr (Obs.obs_L1 sat) = 35%float.
Proof.
  do 2 eexists. split; [vm_compute; reflexivity|].
  split; [reflexivity|]. repeat split.
Qed.

(** The 1010 vector: the 7-bit ambiguity 35 and the CNR 160 that follows
    it give [0.02 * 1000000 + 599584.916 * 35] metres and 40 dB-Hz. *)
Example rtcm3_decode_1010_vector :
  exists out sat,
    @rtcm3_decode_1010 spec_externals buff_1010 obs_message_zero = (RC_OK, out)
    /\ Obs.sats out !! 0%nat = Some sat
    /\ Obs.fcn sat = 5
    /\ Obs.pseudorange (Obs.obs_L1 sat)
       = PrimFloat.add (PrimFloat.mul 0.02%float 1000000%float)
           (PrimFloat.mul 599584.916%float 35%float)
    /\ Obs.cnr (Obs.obs_L1 sat) = 40%float.
Proof.
  do 2 eexists. split; [vm_compute; reflexivity|].
  split; [reflexivity|]. repeat split.
Qed.

(** The 4-bit lock-time table at its ends, and the extended table at its
    last breakpoint. *)
Example lock_time_tables_vector :
  rtcm3_decode_lock_time 0 = 0%float
  /\ rtcm3_decode_lock_time 15 = 524.288%float
  /\ from_msm_lock_ind_ext 703 = 66060288
  /\ from_msm_lock_ind_ext 704 = 67108864.
Proof. repeat split. Qed.

(** The MSM4 vector: three cells; the cell of the satellite with the
    rough-range sentinel has neither pseudorange nor carrier phase, the
    other two have both, and all three have a lock time. *)
Example rtcm3_decode_msm4_vector :
  exists out,
    @rtcm3_decode_msm4 spec_externals buff_msm4 msm_message_zero = (RC_OK, out)
    /\ take 4 (Msm.cell_mask (Msm.header out)) = [true; false; true; true]
    /\ map (fun c => (valid_pr (Msm.flags c), valid_cp (Msm.flags c),
                      valid_lock (Msm.flags c)))
         (take 3 (Msm.signals out))
       = [(false, false, true); (true, true, true); (true, true, true)]
    /\ map Msm.lock_time_s (take 3 (Msm.signals out))
       = [0.512%float; 1.024%float; 2.048%float].
Proof.
  eexists. split; [vm_compute; reflexivity|]. repeat split.
Qed.

(* ================================================================== *)
(** * Further properties of the decoders *)

(** ** The lock-time tables of the MSM messages *)





(** The 4-bit table DF402 on a nibble: zero, and then [2^(n+4)]
    milliseconds in seconds; the shift stays far below [2^31]. *)
Lemma rtcm3_decode_lock_time_nibble (n : Z) :
  0 <= n < 16 ->
  rtcm3_decode_lock_time n
  = if n =? 0 then 0%float else PrimFloat.div (Z2F (2 ^ (n + 4))) 1000%float.
Proof.
  intros H.
  assert (Hm : (Z.to_nat n < 16)%nat) by lia.
  rewrite <- (Z2Nat.id n) by lia.
  revert Hm. generalize (Z.to_nat n). intros m Hm.
  do 16 (destruct m as [|m]; [vm_compute; reflexivity|]). lia.
Qed.

Lemma rtcm3_decode_lock_time_mod (lock : Z) :
  rtcm3_decode_lock_time lock = rtcm3_decode_lock_time (lock mod 16).
Proof.
  unfold rtcm3_decode_lock_time. cbv zeta.
  change 15 with (Z.ones 4). rewrite !Z.land_ones by lia.
  change (2 ^ 4) with 16. rewrite Z.mod_mod by lia. reflexivity.
Qed.

(** [rtcm3_decode_lock_time] looks at the low nibble of its argument
    only, [lock & 0x0F]; it maps 0 to 0 s and a nibble [n > 0] to
    [2^(n+4) / 1000] s, and is strictly increasing over the nibbles. *)
Theorem rtcm3_decode_lock_time_table (lock a b : Z) :
  0 <= a -> a < b -> b <= 15 ->
  rtcm3_decode_lock_time lock = rtcm3_decode_lock_time (lock mod 16)
  /\ rtcm3_decode_lock_time lock
     = (if lock mod 16 =? 0 then 0%float
        else PrimFloat.div (Z2F (2 ^ (lock mod 16 + 4))) 1000%float)
  /\ PrimFloat.ltb (rtcm3_decode_lock_time a) (rtcm3_decode_lock_time b) = true.
Proof.
  intros Ha Hab Hb. split; [apply rtcm3_decode_lock_time_mod|]. split.
  - rewrite rtcm3_decode_lock_time_mod.
    apply rtcm3_decode_lock_time_nibble, Z.mod_pos_bound. lia.
  - assert (Hcheck :
      forallb (fun x : nat =>
        forallb (fun y : nat =>
          implb (x <? y)%nat
            (PrimFloat.ltb (rtcm3_decode_lock_time (Z.of_nat x))
               (rtcm3_decode_lock_time (Z.of_nat y))))
          (seq 0 16)) (seq 0 16) = true) by (vm_compute; reflexivity).
    rewrite forallb_forall in Hcheck.
    specialize (Hcheck (Z.to_nat a) ltac:(apply in_seq; lia)).
    rewrite forallb_forall in Hcheck.
    specialize (Hcheck (Z.to_nat b) ltac:(apply in_seq; lia)).
    rewrite !Z2Nat.id in Hcheck by lia.
    destruct (Nat.ltb_spec (Z.to_nat a) (Z.to_nat b)) as [_|Hge]; [exact Hcheck | lia].
Qed.

Lemma rtcm3_decode_lock_time_table_witness :
  rtcm3_decode_lock_time 0xf5 = rtcm3_decode_lock_time (0xf5 mod 16)
  /\ rtcm3_decode_lock_time 0xf5
     = (if 0xf5 mod 16 =? 0 then 0%float
        else PrimFloat.div (Z2F (2 ^ (0xf5 mod 16 + 4))) 1000%float)
  /\ PrimFloat.ltb (rtcm3_decode_lock_time 14) (rtcm3_decode_lock_time 15) = true.
Proof.
  apply (rtcm3_decode_lock_time_table 0xf5 14 15); lia.
Defined.

(* ------------------------------------------------------------------ *)
(** ** Byte-aligned reads and array loops *)

(** An 8-bit read at a byte boundary is the byte of the buffer. *)
Lemma rtcm_getbitu_byte (buff : list Byte.byte) (k : Z) :
  0 <= k -> rtcm_getbitu buff (8 * k) 8 = buff_byte buff k.
Proof.
  intros Hk.
  change (rtcm_getbitu buff (8 * k) 8) with (getbitu_from 8 buff (8 * k) 0).
  cbn [getbitu_from]. unfold buff_bit.
  norm_offsets.
  replace (8 * k / 8) with k by (rewrite Z.mul_comm, Z.div_mul; lia).
  replace (8 * k mod 8) with 0 by (rewrite Z.mul_comm, Z.mod_mul; lia).
  repeat match goal with
         | |- context [(8 * k + ?j) / 8] =>
             replace ((8 * k + j) / 8) with k
               by (rewrite (Z.mul_comm 8 k), Z.div_add_l, (Z.div_small j 8); lia)
         | |- context [(8 * k + ?j) mod 8] =>
             replace ((8 * k + j) mod 8) with j
               by (rewrite Z.add_comm, (Z.mul_comm 8 k), Z.mod_add, (Z.mod_small j 8); lia)
         end.
  unfold buff_byte. destruct (buff !! Z.to_nat k) as [b|]; [|reflexivity].
  destruct b; reflexivity.
Qed.

(** A loop that fills entries [0 .. n-1] of an array field, one [w]-bit
    read per entry: the cursor advances by [w * n], entry [i] is the read
    at [bit + w * i], and the entries from [n] on are left alone. *)
Lemma array_loop_spec {R A : Type} (set : R -> list A -> R) (get : R -> list A)
    (rd : Z -> A) (w : Z) (n : nat) (r : R) (bit : Z) :
  (forall r l l', set (set r l) l' = set r l') ->
  (forall r, set r (get r) = r) ->
  (forall r l, get (set r l) = l) ->
  0 <= bit -> 0 <= w -> bit + w * Z.of_nat n < 65536 ->
  exists l,
    for_loop n (fun i '(r, bit) => (set r (<[i := rd bit]> (get r)), u16 (bit + w))) (r, bit)
    = (set r l, bit + w * Z.of_nat n)
    /\ length l = length (get r)
    /\ (forall i : nat, (i < n)%nat -> (i < length (get r))%nat ->
          l !! i = Some (rd (bit + w * Z.of_nat i)))
    /\ (forall i : nat, (n <= i)%nat -> l !! i = get r !! i).
Proof.
  intros Hset Hget Hgs Hb Hw Hn.
  apply (for_loop_ind
           (fun k st =>
              (k <= n)%nat ->
              exists l,
                st = (set r l, bit + w * Z.of_nat k)
                /\ length l = length (get r)
                /\ (forall i : nat, (i < k)%nat -> (i < length (get r))%nat ->
                      l !! i = Some (rd (bit + w * Z.of_nat i)))
                /\ (forall i : nat, (k <= i)%nat -> l !! i = get r !! i)));
    [| | lia].
  - intros _. exists (get r). rewrite Hget.
    repeat split; [f_equal; lia | intros; lia].
  - intros j [rr b] Hj IH Hle. destruct IH as (l & E & Hlen & Hin & Hout); [lia|].
    injection E as -> ->. rewrite Hgs, Hset.
    exists (<[j := rd (bit + w * Z.of_nat j)]> l). repeat split.
    + f_equal. rewrite u16_small by nia. lia.
    + rewrite length_insert. exact Hlen.
    + intros i Hi Hil. destruct (decide (j = i)) as [->|Hne].
      * rewrite list_lookup_insert_eq by lia. reflexivity.
      * rewrite list_lookup_insert_ne by exact Hne. apply Hin; lia.
    + intros i Hi. rewrite list_lookup_insert_ne by lia. apply Hout. lia.
Qed.

(* ------------------------------------------------------------------ *)
(** ** The 4062 envelope and the 1029 text message *)

(** An accepted 4062 message (number 4062, reserved bits zero) decodes
    with [RC_OK]: the message type, the sender and the length come from
    bits 16, 32 and 48; the payload starts at bit 56, a byte boundary, so
    that [data[i]] is byte [7 + i] of the buffer for [i < len]; the
    entries of [data] from [len] on keep the caller's values. *)
Theorem rtcm3_decode_4062_payload (buff : list Byte.byte)
    (msg : rtcm_msg_swift_proprietary) :
  rtcm_getbitu buff 0 12 = 4062 ->
  rtcm_getbitu buff 12 4 = 0 ->
  exists out,
    rtcm3_decode_4062 buff msg = (RC_OK, out)
    /\ msg_type out = rtcm_getbitu buff 16 16
    /\ sender_id out = rtcm_getbitu buff 32 16
    /\ len out = rtcm_getbitu buff 48 8
    /\ length (data out) = length (data msg)
    /\ (forall i : nat, Z.of_nat i < len out -> (i < length (data msg))%nat ->
          data out !! i = Some (buff_byte buff (7 + Z.of_nat i)))
    /\ (forall i : nat, len out <= Z.of_nat i -> data out !! i = data msg !! i).
Proof.
  intros Hnum Hres. destruct msg as [mt sid ln dat].
  unfold rtcm3_decode_4062. cursor_eval. rewrite Hnum, Hres.
  change (negb (u16 4062 =? 4062)) with false.
  change (negb (u8 0 =? 0)) with false. cbv iota zeta.
  pose proof (rtcm_getbitu_range buff 48 8 ltac:(lia)) as Hr.
  change (2 ^ 8) with 256 in Hr.
  rewrite (u8_small (rtcm_getbitu buff 48 8)) by lia.
  cbv beta iota delta [len set_len set_sender_id set_msg_type msg_type sender_id data].
  match goal with
  | |- context [for_loop ?n ?f (?r, ?b0)] =>
      destruct (array_loop_spec set_data data (fun p => rtcm_getbitu buff p 8) 8 n r b0)
        as (l & E & Hlen & Hin & Hout);
      [ intros [] ? ?; reflexivity | intros []; reflexivity | intros [] ?; reflexivity
      | lia | lia | lia | ];
      assert (E' : for_loop n f (r, b0) = (set_data r l, b0 + 8 * Z.of_nat n)) by exact E;
      rewrite E'; clear E E'
  end.
  cbv beta iota. eexists. split; [reflexivity|].
  cbn [set_data msg_type sender_id len data] in *.
  repeat split; try reflexivity; try exact Hlen.
  - intros i Hi Hil. rewrite Hin by lia.
    replace (56 + 8 * Z.of_nat i) with (8 * (7 + Z.of_nat i)) by lia.
    rewrite rtcm_getbitu_byte by lia. reflexivity.
  - intros i Hi. apply Hout. lia.
Qed.

Lemma rtcm3_decode_4062_payload_witness :
  exists out,
    rtcm3_decode_4062 buff_4062 msg_4062_zero = (RC_OK, out)
    /\ msg_type out = rtcm_getbitu buff_4062 16 16
    /\ sender_id out = rtcm_getbitu buff_4062 32 16
    /\ len out = rtcm_getbitu buff_4062 48 8
    /\ length (data out) = length (data msg_4062_zero)
    /\ (forall i : nat, Z.of_nat i < len out -> (i < length (data msg_4062_zero))%nat ->
          data out !! i = Some (buff_byte buff_4062 (7 + Z.of_nat i)))
    /\ (forall i : nat, len out <= Z.of_nat i -> data out !! i = data msg_4062_zero !! i).
Proof.
  apply (rtcm3_decode_4062_payload buff_4062 msg_4062_zero); vm_compute; reflexivity.
Defined.

(** A 1029 message decodes with [RC_OK]: station, day, second of day,
    character count and code-unit count come from bits 12, 24, 40, 57 and
    64; the text starts at bit 72, a byte boundary, so that code unit [i]
    is byte [9 + i] of the buffer for [i < utf8_code_units_n]; the entries
    from the count on keep the caller's values. *)
Theorem rtcm3_decode_1029_text (buff : list Byte.byte) (msg : rtcm_msg_1029) :
  rtcm_getbitu buff 0 12 = 1029 ->
  exists out,
    rtcm3_decode_1029 buff msg = (RC_OK, out)
    /\ stn_id_1029 out = rtcm_getbitu buff 12 12
    /\ mjd_num out = rtcm_getbitu buff 24 16
    /\ utc_sec_of_day out = rtcm_getbitu buff 40 17
    /\ unicode_chars out = rtcm_getbitu buff 57 7
    /\ utf8_code_units_n out = rtcm_getbitu buff 64 8
    /\ length (utf8_code_units out) = length (utf8_code_units msg)
    /\ (forall i : nat,
          Z.of_nat i < utf8_code_units_n out -> (i < length (utf8_code_units msg))%nat ->
          utf8_code_units out !! i = Some (buff_byte buff (9 + Z.of_nat i)))
    /\ (forall i : nat,
          utf8_code_units_n out <= Z.of_nat i ->
          utf8_code_units out !! i = utf8_code_units msg !! i).
Proof.
  intros Hnum. destruct msg as [st mj ut uc un units].
  unfold rtcm3_decode_1029. cursor_eval. rewrite Hnum.
  change (negb (u16 1029 =? 1029)) with false. cbv iota zeta.
  pose proof (rtcm_getbitu_range buff 64 8 ltac:(lia)) as Hr.
  change (2 ^ 8) with 256 in Hr.
  rewrite (u8_small (rtcm_getbitu buff 64 8)) by lia.
  cbv beta iota delta
      [stn_id_1029 mjd_num utc_sec_of_day unicode_chars utf8_code_units_n utf8_code_units
       set_stn_id_1029 set_mjd_num set_utc_sec_of_day set_unicode_chars
       set_utf8_code_units_n].
  match goal with
  | |- context [for_loop ?n ?f (?r, ?b0)] =>
      destruct (array_loop_spec set_utf8_code_units utf8_code_units
                  (fun p => rtcm_getbitu buff p 8) 8 n r b0)
        as (l & E & Hlen & Hin & Hout);
      [ intros [] ? ?; reflexivity | intros []; reflexivity | intros [] ?; reflexivity
      | lia | lia | lia | ];
      assert (E' : for_loop n f (r, b0) = (set_utf8_code_units r l, b0 + 8 * Z.of_nat n))
        by exact E;
      rewrite E'; clear E E'
  end.
  cbv beta iota. eexists. split; [reflexivity|].
  cbn [set_utf8_code_units stn_id_1029 mjd_num utc_sec_of_day unicode_chars
       utf8_code_units_n utf8_code_units] in *.
  repeat split; try reflexivity; try exact Hlen.
  - intros i Hi Hil. rewrite Hin by lia.
    replace (72 + 8 * Z.of_nat i) with (8 * (9 + Z.of_nat i)) by lia.
    rewrite rtcm_getbitu_byte by lia. reflexivity.
  - intros i Hi. apply Hout. lia.
Qed.

Lemma rtcm3_decode_1029_text_witness :
  exists out,
    rtcm3_decode_1029 buff_1029 msg_1029_zero = (RC_OK, out)
    /\ stn_id_1029 out = rtcm_getbitu buff_1029 12 12
    /\ mjd_num out = rtcm_getbitu buff_1029 24 16
    /\ utc_sec_of_day out = rtcm_getbitu buff_1029 40 17
    /\ unicode_chars out = rtcm_getbitu buff_1029 57 7
    /\ utf8_code_units_n out = rtcm_getbitu buff_1029 64 8
    /\ length (utf8_code_units out) = length (utf8_code_units msg_1029_zero)
    /\ (forall i : nat,
          Z.of_nat i < utf8_code_units_n out ->
          (i < length (utf8_code_units msg_1029_zero))%nat ->
          utf8_code_units out !! i = Some (buff_byte buff_1029 (9 + Z.of_nat i)))
    /\ (forall i : nat,
          utf8_code_units_n out <= Z.of_nat i ->
          utf8_code_units out !! i = utf8_code_units msg_1029_zero !! i).
Proof.
  apply (rtcm3_decode_1029_text buff_1029 msg_1029_zero). vm_compute. reflexivity.
Defined.

(** The 1029 vector: its seven code units are the last seven bytes of
    the buffer. *)
Example rtcm3_decode_1029_vector :
  exists out,
    rtcm3_decode_1029 buff_1029 msg_1029_zero = (RC_OK, out)
    /\ (stn_id_1029 out, mjd_num out, utc_sec_of_day out, unicode_chars out) 
       = (5, 60000, 43200, 5)
    /\ take 8 (utf8_code_units out) = [0x48; 0x69; 0x2c; 0x20; 0xe4; 0xb8; 0x96; 0].
Proof.
  eexists. split; [vm_compute; reflexivity|]. split; reflexivity.
Qed.

(* ------------------------------------------------------------------ *)
(** ** Reference-station messages 1005 and 1006 *)

(** A 1005 message decodes with [RC_OK] into the record laid out from bit
    12, whatever the caller's record held: every field is overwritten.
    The three coordinates are the signed 38-bit fields at bits 34, 74 and
    114 over 10000; the bit at 73, between [osc_ind] and [arp_y], is
    consumed and ignored.  The cursor ends at bit 152. *)
Theorem rtcm3_decode_1005_layout (buff : list Byte.byte) (msg : rtcm_msg_1005) :
  rtcm_getbitu buff 0 12 = 1005 ->
  rtcm3_decode_1005_run buff msg = (RC_OK, msg_1005_of_buffer buff, 152)
  /\ rtcm3_decode_1005 buff msg = (RC_OK, msg_1005_of_buffer buff).
Proof.
  intros Hnum. unfold rtcm3_decode_1005.
  assert (E : rtcm3_decode_1005_run buff msg = (RC_OK, msg_1005_of_buffer buff, 152)).
  { unfold rtcm3_decode_1005_run. cursor_eval. rewrite Hnum.
    change (negb (u16 1005 =? 1005)) with false. cbv iota.
    destruct msg. reflexivity. }
  rewrite E. split; reflexivity.
Qed.

Lemma rtcm3_decode_1005_layout_witness :
  rtcm3_decode_1005_run buff_1005 msg_1005_zero
  = (RC_OK, mk_msg_1005 7 0 1 1 0 0 1 0 3857000%float 146000%float 5040000%float, 152).
Proof.
  destruct (rtcm3_decode_1005_layout buff_1005 msg_1005_zero) as [H _].
  { vm_compute. reflexivity. }
  rewrite H. vm_compute. reflexivity.
Defined.

(** A 1006 message decodes with [RC_OK]: its reference-station part is
    the record that 1005 lays out from bit 12, its antenna height is the
    unsigned 16-bit field at bit 152 over 10000, and the cursor ends at
    bit 168; nothing of the caller's record survives. *)
Theorem rtcm3_decode_1006_layout (buff : list Byte.byte) (msg : rtcm_msg_1006) :
  rtcm_getbitu buff 0 12 = 1006 ->
  rtcm3_decode_1006_run buff msg
  = (RC_OK,
     mk_msg_1006 (msg_1005_of_buffer buff)
       (PrimFloat.div (Z2F (rtcm_getbitu buff 152 16)) 10000%float),
     168)
  /\ fst (rtcm3_decode_1006 buff msg) = RC_OK.
Proof.
  intros Hnum. unfold rtcm3_decode_1006.
  assert (E : rtcm3_decode_1006_run buff msg
              = (RC_OK,
                 mk_msg_1006 (msg_1005_of_buffer buff)
                   (PrimFloat.div (Z2F (rtcm_getbitu buff 152 16)) 10000%float),
                 168)).
  { unfold rtcm3_decode_1006_run. cursor_eval. rewrite Hnum.
    change (negb (u16 1006 =? 1006)) with false. cbv iota.
    destruct msg as [[] h]. reflexivity. }
  rewrite E. split; reflexivity.
Qed.

Lemma rtcm3_decode_1006_layout_witness :
  rtcm3_decode_1006_run buff_1006 msg_1006_zero
  = (RC_OK,
     mk_msg_1006
       (mk_msg_1005 7 0 1 0 0 0 0 1 (-2700000.1234)%float (-4300000.5678)%float
          3700000%float)
       1.5%float,
     168).
Proof.
  destruct (rtcm3_decode_1006_layout buff_1006 msg_1006_zero) as [H _].
  { vm_compute. reflexivity. }
  rewrite H. vm_compute. reflexivity.
Defined.

(* ------------------------------------------------------------------ *)
(** ** A wrong message number leaves the record alone *)

Lemma msg_num_mismatch (buff : list Byte.byte) (num : Z) :
  rtcm_getbitu buff 0 12 <> num -> negb (u16 (rtcm_getbitu buff 0 12) =? num) = true.
Proof.
  intros H. pose proof (rtcm_getbitu_range buff 0 12 ltac:(lia)) as Hr.
  change (2 ^ 12) with 4096 in Hr. rewrite u16_small by lia.
  destruct (Z.eqb_spec (rtcm_getbitu buff 0 12) num); [contradiction | reflexivity].
Qed.

(** The decoders of 1005, 1006, 1029, 1230 and 4062 test the message
    number before they write anything: on a buffer with another number
    each returns [RC_MESSAGE_TYPE_MISMATCH] with the caller's record
    unchanged in every field (the legacy observation decoders and the MSM
    decoder, which parse the header in place first, do not). *)
Theorem station_decoders_mismatch_untouched (buff : list Byte.byte)
    (m1005 : rtcm_msg_1005) (m1006 : rtcm_msg_1006) (m1029 : rtcm_msg_1029)
    (m1230 : rtcm_msg_1230) (m4062 : rtcm_msg_swift_proprietary) :
  (rtcm_getbitu buff 0 12 <> 1005 ->
   rtcm3_decode_1005 buff m1005 = (RC_MESSAGE_TYPE_MISMATCH, m1005))
  /\ (rtcm_getbitu buff 0 12 <> 1006 ->
      rtcm3_decode_1006 buff m1006 = (RC_MESSAGE_TYPE_MISMATCH, m1006))
  /\ (rtcm_getbitu buff 0 12 <> 1029 ->
      rtcm3_decode_1029 buff m1029 = (RC_MESSAGE_TYPE_MISMATCH, m1029))
  /\ (rtcm_getbitu buff 0 12 <> 1230 ->
      rtcm3_decode_1230 buff m1230 = (RC_MESSAGE_TYPE_MISMATCH, m1230))
  /\ (rtcm_getbitu buff 0 12 <> 4062 ->
      rtcm3_decode_4062 buff m4062 = (RC_MESSAGE_TYPE_MISMATCH, m4062)).
Proof.
  split; [|split; [|split; [|split]]]; intros H; apply msg_num_mismatch in H.
  - unfold rtcm3_decode_1005, rtcm3_decode_1005_run. cbv zeta. rewrite H. reflexivity.
  - unfold rtcm3_decode_1006, rtcm3_decode_1006_run. cbv zeta. rewrite H. reflexivity.
  - unfold rtcm3_decode_1029. cbv zeta. rewrite H. reflexivity.
  - unfold rtcm3_decode_1230, rtcm3_decode_1230_run. cbv zeta. rewrite H. reflexivity.
  - unfold rtcm3_decode_4062. cbv zeta. rewrite H. reflexivity.
Qed.

Lemma station_decoders_mismatch_untouched_witness :
  rtcm3_decode_1005 buff_1006 msg_1005_zero = (RC_MESSAGE_TYPE_MISMATCH, msg_1005_zero)
  /\ rtcm3_decode_1006 buff_1005 msg_1006_zero = (RC_MESSAGE_TYPE_MISMATCH, msg_1006_zero)
  /\ rtcm3_decode_1029 buff_1005 msg_1029_zero = (RC_MESSAGE_TYPE_MISMATCH, msg_1029_zero)
  /\ rtcm3_decode_1230 buff_1005 msg_1230_zero = (RC_MESSAGE_TYPE_MISMATCH, msg_1230_zero)
  /\ rtcm3_decode_4062 buff_1005 msg_4062_prior = (RC_MESSAGE_TYPE_MISMATCH, msg_4062_prior).
Proof.
  pose proof (station_decoders_mismatch_untouched buff_1006 msg_1005_zero msg_1006_zero
                msg_1029_zero msg_1230_zero msg_4062_prior) as (H5 & _).
  pose proof (station_decoders_mismatch_untouched buff_1005 msg_1005_zero msg_1006_zero
                msg_1029_zero msg_1230_zero msg_4062_prior) as (_ & H6 & H29 & H1230 & H4062).
  split; [|split; [|split; [|split]]];
    [apply H5 | apply H6 | apply H29 | apply H1230 | apply H4062];
    vm_compute; discriminate.
Defined.

(* ------------------------------------------------------------------ *)
(** ** Legacy observation decoders: the satellite loop *)

(** The proof of [legacy_sat_shape] for one satellite body. *)
Ltac sat_shape_proof :=
  intros H0 H1;
  match goal with
  | |- legacy_sat_shape _ _ _ _ ?sat => destruct sat as [sv fc [] []]
  end;
  unfold legacy_sat_shape, lock_follows_phase, l1_phase_offset;
  cbv beta iota zeta delta [lf_glo lf_dual lf_sat_bits];
  match goal with
  | |- context [snd (?body ?b ?c ?s)] =>
      let H := fresh "H" in
      destruct (body b c s) as [sat' bit'] eqn:H;
      cbv delta [rtcm3_decode_1001_sat rtcm3_decode_1002_sat rtcm3_decode_1003_sat
                 rtcm3_decode_1004_sat rtcm3_decode_1010_sat rtcm3_decode_1012_sat
                 decode_basic_gps_l1_freq_data decode_basic_glo_l1_freq_data
                 decode_basic_l2_freq_data get_cnr construct_L1_code construct_L1_phase
                 construct_L2_code construct_L2_phase] in H;
      cbv beta zeta in H; unwrap_cursors_in H; unwrap_fields_in H;
      norm_offsets_in H; norm_offsets; obs_simpl_in H;
      sat_body_cases H;
      obs_simpl_in H; injection H as <- <-; obs_simpl
  end;
  repeat split; reflexivity.

Section LegacyBodies.
Context `{Ext : rtcm_externals}.

Lemma rtcm3_decode_1001_sat_shape buff bit sat :
  0 <= bit -> bit + 130 < 65536 ->
  legacy_sat_shape (mk_legacy_format 1001 false false 58) rtcm3_decode_1001_sat buff bit sat.
Proof. sat_shape_proof. Qed.

Lemma rtcm3_decode_1002_sat_shape buff bit sat :
  0 <= bit -> bit + 130 < 65536 ->
  legacy_sat_shape (mk_legacy_format 1002 false false 74) rtcm3_decode_1002_sat buff bit sat.
Proof. sat_shape_proof. Qed.

Lemma rtcm3_decode_1003_sat_shape buff bit sat :
  0 <= bit -> bit + 130 < 65536 ->
  legacy_sat_shape (mk_legacy_format 1003 false true 101) rtcm3_decode_1003_sat buff bit sat.
Proof. sat_shape_proof. Qed.

Lemma rtcm3_decode_1004_sat_shape buff bit sat :
  0 <= bit -> bit + 130 < 65536 ->
  legacy_sat_shape (mk_legacy_format 1004 false true 125) rtcm3_decode_1004_sat buff bit sat.
Proof. sat_shape_proof. Qed.

Lemma rtcm3_decode_1010_sat_shape buff bit sat :
  0 <= bit -> bit + 130 < 65536 ->
  legacy_sat_shape (mk_legacy_format 1010 true false 79) rtcm3_decode_1010_sat buff bit sat.
Proof. sat_shape_proof. Qed.

Lemma rtcm3_decode_1012_sat_shape buff bit sat :
  0 <= bit -> bit + 130 < 65536 ->
  legacy_sat_shape (mk_legacy_format 1012 true true 130) rtcm3_decode_1012_sat buff bit sat.
Proof. sat_shape_proof. Qed.

End LegacyBodies.

Section LegacyLoop.
Context `{Ext : rtcm_externals}.

(** The satellite loop of a body that consumes [w] bits per entry: the
    cursor does not wrap, entry [i] is the body run on the caller's entry
    at [bit + w * i], and the entries from [n] on are left alone. *)
Lemma decode_sats_spec body buff (w : Z) (n : nat) (msg : Obs.rtcm_obs_message) (bit : Z) :
  (forall b s, 0 <= b -> b + 130 < 65536 -> snd (body buff b s) = b + w) ->
  0 <= w <= 130 -> 0 <= bit -> bit + 130 * Z.of_nat n + 130 < 65536 ->
  let st := for_loop n (decode_sat_at body buff) (msg, bit) in
  snd st = bit + w * Z.of_nat n
  /\ Obs.header (fst st) = Obs.header msg
  /\ length (Obs.sats (fst st)) = length (Obs.sats msg)
  /\ (forall i : nat, (n <= i)%nat -> Obs.sats (fst st) !! i = Obs.sats msg !! i)
  /\ (forall (i : nat) (s0 : Obs.rtcm_sat_data),
        (i < n)%nat -> Obs.sats msg !! i = Some s0 ->
        Obs.sats (fst st) !! i = Some (fst (body buff (bit + w * Z.of_nat i) s0))).
Proof.
  intros Hbody Hw Hbit Hmax. cbv zeta.
  apply (for_loop_ind
           (fun k st =>
              (k <= n)%nat ->
              snd st = bit + w * Z.of_nat k
              /\ Obs.header (fst st) = Obs.header msg
              /\ length (Obs.sats (fst st)) = length (Obs.sats msg)
              /\ (forall i : nat, (k <= i)%nat -> Obs.sats (fst st) !! i = Obs.sats msg !! i)
              /\ (forall (i : nat) (s0 : Obs.rtcm_sat_data),
                    (i < k)%nat -> Obs.sats msg !! i = Some s0 ->
                    Obs.sats (fst st) !! i
                    = Some (fst (body buff (bit + w * Z.of_nat i) s0)))));
    [| | lia].
  - intros _. cbn [fst snd]. repeat split; [lia | intros; lia].
  - intros j [m b] Hj IH Hle.
    destruct IH as (Hb & Hh & Hlen & Hout & Hin); [lia|].
    cbn [fst snd] in Hb, Hh, Hlen, Hout, Hin. subst b.
    unfold decode_sat_at.
    pose proof (Hbody (bit + w * Z.of_nat j)
                  (default Obs.sat_data_zero (Obs.sats m !! j)) ltac:(nia) ltac:(nia)) as Hc.
    destruct (body buff (bit + w * Z.of_nat j) _) as [sat b'] eqn:Eb.
    cbn [fst snd] in Hc |- *. cbn [Obs.header Obs.sats Obs.set_sats].
    split; [lia|]. split; [exact Hh|]. split; [rewrite length_insert; exact Hlen|]. split.
    + intros i Hi. rewrite list_lookup_insert_ne by lia. apply Hout. lia.
    + intros i s0 Hi Hs0. destruct (decide (j = i)) as [->|Hne].
      * rewrite list_lookup_insert_eq
          by (rewrite Hlen; apply lookup_lt_Some in Hs0; exact Hs0).
        rewrite Hout, Hs0 in Eb by lia.
        change (default Obs.sat_data_zero (Some s0)) with s0 in Eb.
        rewrite Eb. reflexivity.
      * rewrite list_lookup_insert_ne by exact Hne. apply Hin; [lia | exact Hs0].
Qed.

(** A legacy decoder as a whole, for a header reader that yields the
    header of the layout and a body that consumes [w] bits. *)
Lemma rtcm3_decode_obs_spec read_header body (num tow_bits max_tow w : Z) buff msg :
  (forall h, read_header buff h = (34 + tow_bits, spec_obs_header buff tow_bits)) ->
  (forall b s, 0 <= b -> b + 130 < 65536 -> snd (body buff b s) = b + w) ->
  0 <= w <= 130 -> 0 <= tow_bits <= 30 ->
  let r := rtcm3_decode_obs read_header num max_tow body buff msg in
  let n := rtcm_getbitu buff (25 + tow_bits) 5 in
  fst r = (if negb (rtcm_getbitu buff 0 12 =? num) then RC_MESSAGE_TYPE_MISMATCH
           else if rtcm_getbitu buff 24 tow_bits >? max_tow then RC_INVALID_MESSAGE
           else RC_OK)
  /\ Obs.header (snd r) = spec_obs_header buff tow_bits
  /\ length (Obs.sats (snd r)) = length (Obs.sats msg)
  /\ 0 <= n <= 31
  /\ (forall i : nat, n <= Z.of_nat i -> Obs.sats (snd r) !! i = Obs.sats msg !! i)
  /\ (fst r = RC_OK ->
      forall (i : nat) (s0 : Obs.rtcm_sat_data),
        Z.of_nat i < n -> Obs.sats msg !! i = Some s0 ->
        Obs.sats (snd r) !! i
        = Some (fst (body buff (34 + tow_bits + w * Z.of_nat i) s0))).
Proof.
  intros Hread Hbody Hw Htow. cbv zeta.
  pose proof (rtcm_getbitu_range buff (25 + tow_bits) 5 ltac:(lia)) as Hn.
  change (2 ^ 5) with 32 in Hn.
  destruct (rtcm3_decode_obs read_header num max_tow body buff msg) as [rc out] eqn:H.
  unfold rtcm3_decode_obs in H. rewrite Hread in H.
  cbn [Obs.header Obs.set_header Obs.sats] in H.
  change (Obs.msg_num (spec_obs_header buff tow_bits)) with (rtcm_getbitu buff 0 12) in H.
  change (Obs.tow_ms (spec_obs_header buff tow_bits))
    with (rtcm_getbitu buff 24 tow_bits) in H.
  change (Obs.n_sat (spec_obs_header buff tow_bits))
    with (rtcm_getbitu buff (25 + tow_bits) 5) in H.
  cbn [fst snd].
  destruct (negb (rtcm_getbitu buff 0 12 =? num)).
  { injection H as <- <-. cbn [Obs.header Obs.sats].
    split; [reflexivity|]. split; [reflexivity|]. split; [reflexivity|]. split; [lia|].
    split; [intros; reflexivity | intros; discriminate]. }
  destruct (rtcm_getbitu buff 24 tow_bits >? max_tow).
  { injection H as <- <-. cbn [Obs.header Obs.sats].
    split; [reflexivity|]. split; [reflexivity|]. split; [reflexivity|]. split; [lia|].
    split; [intros; reflexivity | intros; discriminate]. }
  rewrite (u16_small (0 + (34 + tow_bits))) in H by lia. rewrite Z.add_0_l in H.
  pose proof (decode_sats_spec body buff w (Z.to_nat (rtcm_getbitu buff (25 + tow_bits) 5))
                (Obs.mk_message (spec_obs_header buff tow_bits) (Obs.sats msg))
                (34 + tow_bits) Hbody Hw ltac:(lia) ltac:(lia)) as Hloop.
  cbv zeta in Hloop.
  destruct (for_loop _ _ _) as [m b]. cbn [fst snd Obs.header Obs.sats] in Hloop.
  injection H as <- <-.
  destruct Hloop as (_ & Hh & Hlen & Hout & Hin).
  split; [reflexivity|]. split; [exact Hh|]. split; [exact Hlen|]. split; [lia|]. split.
  - intros i Hi. apply Hout. lia.
  - intros _ i s0 Hi Hs0. apply Hin; [lia | exact Hs0].
Qed.

(** Every row of the table: the body has the shape of its format, and the
    decoder is [rtcm3_decode_obs] of its header reader. *)
Lemma legacy_row_spec read_header body (f : legacy_format) buff msg :
  (forall h, read_header buff h
             = (34 + lf_tow_bits f, spec_obs_header buff (lf_tow_bits f))) ->
  (forall b s, 0 <= b -> b + 130 < 65536 -> legacy_sat_shape f body buff b s) ->
  0 <= lf_sat_bits f <= 130 ->
  (forall b s, 0 <= b -> b + 130 < 65536 -> legacy_sat_shape f body buff b s)
  /\ 0 <= lf_sat_bits f <= 130
  /\ (let r := rtcm3_decode_obs read_header (lf_num f) (lf_max_tow f) body buff msg in
      let n := lf_n_sat f buff in
      fst r = (if negb (rtcm_getbitu buff 0 12 =? lf_num f) then RC_MESSAGE_TYPE_MISMATCH
               else if rtcm_getbitu buff 24 (lf_tow_bits f) >? lf_max_tow f
                    then RC_INVALID_MESSAGE
               else RC_OK)
      /\ Obs.header (snd r) = spec_obs_header buff (lf_tow_bits f)
      /\ length (Obs.sats (snd r)) = length (Obs.sats msg)
      /\ 0 <= n <= 31
      /\ (forall i : nat, n <= Z.of_nat i -> Obs.sats (snd r) !! i = Obs.sats msg !! i)
      /\ (fst r = RC_OK ->
          forall (i : nat) (s0 : Obs.rtcm_sat_data),
            Z.of_nat i < n -> Obs.sats msg !! i = Some s0 ->
            Obs.sats (snd r) !! i = Some (fst (body buff (lf_sat_start f i) s0)))).
Proof.
  intros Hread Hshape Hw. split; [exact Hshape|]. split; [exact Hw|].
  unfold lf_n_sat, lf_sat_start, lf_header_bits.
  apply (rtcm3_decode_obs_spec read_header body (lf_num f) (lf_tow_bits f) (lf_max_tow f)
           (lf_sat_bits f) buff msg Hread).
  - intros b s Hb0 Hb1. exact (proj1 (Hshape b s Hb0 Hb1)).
  - exact Hw.
  - unfold lf_tow_bits. destruct (lf_glo f); lia.
Qed.

(** Every row of the table: the body has the shape of its format, and the
    decoder checks the message number and the time of week and then runs
    the body once per satellite of the header. *)
Lemma legacy_table_spec dec body f buff msg :
  In (dec, body, f) legacy_table ->
  (forall b s, 0 <= b -> b + 130 < 65536 -> legacy_sat_shape f body buff b s)
  /\ 0 <= lf_sat_bits f <= 130
  /\ (let r := dec buff msg in
      let n := lf_n_sat f buff in
      fst r = (if negb (rtcm_getbitu buff 0 12 =? lf_num f) then RC_MESSAGE_TYPE_MISMATCH
               else if rtcm_getbitu buff 24 (lf_tow_bits f) >? lf_max_tow f
                    then RC_INVALID_MESSAGE
               else RC_OK)
      /\ Obs.header (snd r) = spec_obs_header buff (lf_tow_bits f)
      /\ length (Obs.sats (snd r)) = length (Obs.sats msg)
      /\ 0 <= n <= 31
      /\ (forall i : nat, n <= Z.of_nat i -> Obs.sats (snd r) !! i = Obs.sats msg !! i)
      /\ (fst r = RC_OK ->
          forall (i : nat) (s0 : Obs.rtcm_sat_data),
            Z.of_nat i < n -> Obs.sats msg !! i = Some s0 ->
            Obs.sats (snd r) !! i = Some (fst (body buff (lf_sat_start f i) s0)))).
Proof.
  intros Hin. unfold legacy_table in Hin. cbn [In] in Hin.
  destruct Hin as [Hin | [Hin | [Hin | [Hin | [Hin | [Hin | []]]]]]];
    injection Hin as <- <- <-.
  - apply (legacy_row_spec rtcm3_read_header rtcm3_decode_1001_sat
             (mk_legacy_format 1001 false false 58) buff msg
             (rtcm3_read_header_spec buff) (rtcm3_decode_1001_sat_shape buff)).
    cbn [lf_sat_bits]. lia.
  - apply (legacy_row_spec rtcm3_read_header rtcm3_decode_1002_sat
             (mk_legacy_format 1002 false false 74) buff msg
             (rtcm3_read_header_spec buff) (rtcm3_decode_1002_sat_shape buff)).
    cbn [lf_sat_bits]. lia.
  - apply (legacy_row_spec rtcm3_read_header rtcm3_decode_1003_sat
             (mk_legacy_format 1003 false true 101) buff msg
             (rtcm3_read_header_spec buff) (rtcm3_decode_1003_sat_shape buff)).
    cbn [lf_sat_bits]. lia.
  - apply (legacy_row_spec rtcm3_read_header rtcm3_decode_1004_sat
             (mk_legacy_format 1004 false true 125) buff msg
             (rtcm3_read_header_spec buff) (rtcm3_decode_1004_sat_shape buff)).
    cbn [lf_sat_bits]. lia.
  - apply (legacy_row_spec rtcm3_read_glo_header rtcm3_decode_1010_sat
             (mk_legacy_format 1010 true false 79) buff msg
             (rtcm3_read_glo_header_spec buff) (rtcm3_decode_1010_sat_shape buff)).
    cbn [lf_sat_bits]. lia.
  - apply (legacy_row_spec rtcm3_read_glo_header rtcm3_decode_1012_sat
             (mk_legacy_format 1012 true true 130) buff msg
             (rtcm3_read_glo_header_spec buff) (rtcm3_decode_1012_sat_shape buff)).
    cbn [lf_sat_bits]. lia.
Qed.

End LegacyLoop.

Section LegacyDecoded.
Context `{Ext : rtcm_externals}.

Lemma lf_sat_start_range (f : legacy_format) (i : nat) :
  0 <= lf_sat_bits f <= 130 -> Z.of_nat i <= 31 ->
  0 <= lf_sat_start f i /\ lf_sat_start f i <= 4094.
Proof.
  intros Hw Hi. unfold lf_sat_start, lf_header_bits, lf_tow_bits.
  destruct (lf_glo f); split; nia.
Qed.

(** An entry below the satellite count of a decoded message is the body
    run on the caller's entry at the start of satellite [i], and has the
    shape of the format. *)
Lemma legacy_decoded_sat dec body f buff msg out (i : nat) (s : Obs.rtcm_sat_data) :
  In (dec, body, f) legacy_table ->
  dec buff msg = (RC_OK, out) ->
  Z.of_nat i < lf_n_sat f buff ->
  Obs.sats out !! i = Some s ->
  exists s0,
    Obs.sats msg !! i = Some s0
    /\ s = fst (body buff (lf_sat_start f i) s0)
    /\ legacy_sat_shape f body buff (lf_sat_start f i) s0.
Proof.
  intros Hin Hdec Hi Hs.
  destruct (legacy_table_spec dec body f buff msg Hin) as (Hshape & Hw & Hspec).
  cbv zeta in Hspec. rewrite Hdec in Hspec. cbn [fst snd] in Hspec.
  destruct Hspec as (_ & _ & Hlen & Hn & _ & Hsat).
  assert (Hlt : (i < length (Obs.sats msg))%nat)
    by (rewrite <- Hlen; apply lookup_lt_Some in Hs; exact Hs).
  apply lookup_lt_is_Some_2 in Hlt. destruct Hlt as [s0 Hs0].
  exists s0. split; [exact Hs0|].
  rewrite (Hsat eq_refl i s0 Hi Hs0) in Hs. injection Hs as <-.
  split; [reflexivity|].
  destruct (lf_sat_start_range f i Hw ltac:(lia)) as [H0 H1].
  apply Hshape; lia.
Qed.

End LegacyDecoded.

(** Each legacy observable decoder returns [RC_MESSAGE_TYPE_MISMATCH]
    when the 12 bits at bit 0 are not its message number, otherwise
    [RC_INVALID_MESSAGE] when the time of week at bit 24 (30 bits, 27 for
    GLONASS) exceeds its bound (604799999 ms, 86400999 ms for GLONASS),
    and [RC_OK] otherwise.  So [RC_OK] is returned exactly when the header
    left in the record has the number of the decoder and a time of week
    within the bound. *)
Theorem legacy_return_code `{Ext : rtcm_externals} dec body f
    (buff : list Byte.byte) (msg : Obs.rtcm_obs_message) :
  In (dec, body, f) legacy_table ->
  fst (dec buff msg)
  = (if negb (rtcm_getbitu buff 0 12 =? lf_num f) then RC_MESSAGE_TYPE_MISMATCH
     else if rtcm_getbitu buff 24 (lf_tow_bits f) >? lf_max_tow f then RC_INVALID_MESSAGE
     else RC_OK)
  /\ (fst (dec buff msg) = RC_OK <->
      Obs.msg_num (Obs.header (snd (dec buff msg))) = lf_num f
      /\ Obs.tow_ms (Obs.header (snd (dec buff msg))) <= lf_max_tow f).
Proof.
  intros Hin.
  destruct (legacy_table_spec dec body f buff msg Hin) as (_ & _ & Hspec).
  cbv zeta in Hspec. destruct Hspec as (Hrc & Hh & _).
  split; [exact Hrc|]. rewrite Hrc, Hh. cbn [spec_obs_header Obs.msg_num Obs.tow_ms].
  destruct (Z.eqb_spec (rtcm_getbitu buff 0 12) (lf_num f)) as [E|E]; cbn [negb].
  - destruct (Z.gtb_spec (rtcm_getbitu buff 24 (lf_tow_bits f)) (lf_max_tow f)).
    + split; [discriminate | intros [_ H']; lia].
    + split; [intros _; split; [exact E | lia] | reflexivity].
  - split; [discriminate | intros [H' _]; contradiction].
Qed.

Lemma legacy_return_code_witness :
  fst (@rtcm3_decode_1012 spec_externals buff_1004 obs_message_zero)
  = RC_MESSAGE_TYPE_MISMATCH
  /\ fst (@rtcm3_decode_1004 spec_externals buff_1004_bad_tow obs_message_zero)
     = RC_INVALID_MESSAGE
  /\ fst (@rtcm3_decode_1004 spec_externals buff_1004 obs_message_zero) = RC_OK.
Proof.
  split; [|split].
  - destruct (@legacy_return_code spec_externals _ _ _ buff_1004 obs_message_zero
                ltac:(do 5 right; left; reflexivity)) as [H _].
    rewrite H. vm_compute. reflexivity.
  - destruct (@legacy_return_code spec_externals _ _ _ buff_1004_bad_tow obs_message_zero
                ltac:(do 3 right; left; reflexivity)) as [H _].
    rewrite H. vm_compute. reflexivity.
  - destruct (@legacy_return_code spec_externals _ _ _ buff_1004 obs_message_zero
                ltac:(do 3 right; left; reflexivity)) as [H _].
    rewrite H. vm_compute. reflexivity.
Defined.

(** A legacy message decoded with [RC_OK] has at most 31 satellites, the
    count being the 5 bits of the header; the satellite loop runs the body
    of the format once per satellite, on the caller's entry [sats[i]] and
    at the cursor [header bits + i * entry bits], which stays below 4095
    and so never wraps; the array keeps its length and its entries from
    the count on. *)
Theorem legacy_satellites_decoded `{Ext : rtcm_externals} dec body f
    (buff : list Byte.byte) (msg out : Obs.rtcm_obs_message) :
  In (dec, body, f) legacy_table ->
  dec buff msg = (RC_OK, out) ->
  let n := lf_n_sat f buff in
  Obs.n_sat (Obs.header out) = n
  /\ 0 <= n <= 31
  /\ lf_sat_start f (Z.to_nat n) <= 4094
  /\ length (Obs.sats out) = length (Obs.sats msg)
  /\ (forall i : nat, n <= Z.of_nat i -> Obs.sats out !! i = Obs.sats msg !! i)
  /\ (forall (i : nat) (s0 : Obs.rtcm_sat_data),
        Z.of_nat i < n -> Obs.sats msg !! i = Some s0 ->
        Obs.sats out !! i = Some (fst (body buff (lf_sat_start f i) s0))
        /\ snd (body buff (lf_sat_start f i) s0) = lf_sat_start f (Datatypes.S i)).
Proof.
  intros Hin Hdec n.
  destruct (legacy_table_spec dec body f buff msg Hin) as (Hshape & Hw & Hspec).
  cbv zeta in Hspec. rewrite Hdec in Hspec. cbn [fst snd] in Hspec.
  destruct Hspec as (_ & Hh & Hlen & Hn & Hout & Hsat). fold n in Hn, Hout, Hsat.
  split; [rewrite Hh; reflexivity|]. split; [exact Hn|].
  split; [apply lf_sat_start_range; [exact Hw | lia]|].
  split; [exact Hlen|]. split; [exact Hout|].
  intros i s0 Hi Hs0. split; [apply (Hsat eq_refl); assumption|].
  destruct (lf_sat_start_range f i Hw ltac:(lia)) as [H0 H1].
  rewrite (proj1 (Hshape (lf_sat_start f i) s0 H0 ltac:(lia))).
  unfold lf_sat_start. lia.
Qed.

Lemma legacy_satellites_decoded_witness :
  exists out,
    @rtcm3_decode_1004 spec_externals buff_1004 obs_message_zero = (RC_OK, out)
    /\ Obs.n_sat (Obs.header out) = 1
    /\ Obs.sats out !! 0%nat
       = Some (fst (@rtcm3_decode_1004_sat spec_externals buff_1004 64 Obs.sat_data_zero))
    /\ snd (@rtcm3_decode_1004_sat spec_externals buff_1004 64 Obs.sat_data_zero) = 189
    /\ Obs.sats out !! 1%nat = Some Obs.sat_data_zero.
Proof.
  eexists. split; [vm_compute; reflexivity|].
  match goal with
  | |- Obs.n_sat (Obs.header ?o) = _ /\ _ =>
      destruct (@legacy_satellites_decoded spec_externals _ _ _ buff_1004 obs_message_zero o
                  ltac:(do 3 right; left; reflexivity) ltac:(vm_compute; reflexivity))
        as (Hn & _ & _ & _ & Hout & Hsat)
  end.
  split; [exact Hn|].
  destruct (Hsat 0%nat Obs.sat_data_zero ltac:(vm_compute; reflexivity) eq_refl)
    as [Hs Hc].
  split; [exact Hs|]. split; [exact Hc|].
  rewrite (Hout 1%nat ltac:(vm_compute; discriminate)). reflexivity.
Defined.

(** In a legacy message decoded with [RC_OK], every satellite below the
    count has its number from the first 6 bits of its entry, and on both
    frequencies [valid_lock = valid_cp] and [valid_dop = false]: a lock
    time is never reported without a carrier phase, nor a Doppler at
    all. *)
Theorem legacy_lock_follows_phase `{Ext : rtcm_externals} dec body f
    (buff : list Byte.byte) (msg out : Obs.rtcm_obs_message)
    (i : nat) (s : Obs.rtcm_sat_data) :
  In (dec, body, f) legacy_table ->
  dec buff msg = (RC_OK, out) ->
  Z.of_nat i < lf_n_sat f buff ->
  Obs.sats out !! i = Some s ->
  Obs.svId s = rtcm_getbitu buff (lf_sat_start f i) 6
  /\ lock_follows_phase (Obs.obs_L1 s)
  /\ lock_follows_phase (Obs.obs_L2 s).
Proof.
  intros Hin Hdec Hi Hs.
  destruct (legacy_decoded_sat dec body f buff msg out i s Hin Hdec Hi Hs)
    as (s0 & _ & -> & Hshape).
  destruct Hshape as (_ & Hsv & H1 & H2 & _). auto.
Qed.

Lemma legacy_lock_follows_phase_witness :
  exists s,
    Obs.sats (snd (@rtcm3_decode_1012 spec_externals buff_1012_fcn25 obs_message_zero))
      !! 0%nat = Some s
    /\ Obs.svId s = 3
    /\ lock_follows_phase (Obs.obs_L1 s)
    /\ lock_follows_phase (Obs.obs_L2 s).
Proof.
  eexists. split; [vm_compute; reflexivity|].
  match goal with
  | |- Obs.svId ?s = _ /\ _ =>
      destruct (@legacy_lock_follows_phase spec_externals _ _ _ buff_1012_fcn25
                  obs_message_zero
                  (snd (@rtcm3_decode_1012 spec_externals buff_1012_fcn25 obs_message_zero))
                  0%nat s
                  ltac:(do 5 right; left; reflexivity) ltac:(vm_compute; reflexivity)
                  ltac:(vm_compute; reflexivity) ltac:(vm_compute; reflexivity))
        as (Hsv & H1 & H2)
  end.
  split; [rewrite Hsv; vm_compute; reflexivity|]. split; assumption.
Defined.

(** The single-frequency decoders (1001, 1002, 1010) clear the L2 flag
    word of every satellite they decode and write nothing else of the L2
    observation: its code, pseudorange, carrier phase, lock time and CNR
    are those the caller's entry held. *)
Theorem legacy_single_frequency_l2 `{Ext : rtcm_externals} dec body f
    (buff : list Byte.byte) (msg out : Obs.rtcm_obs_message)
    (i : nat) (s0 : Obs.rtcm_sat_data) :
  In (dec, body, f) legacy_table ->
  lf_dual f = false ->
  dec buff msg = (RC_OK, out) ->
  Z.of_nat i < lf_n_sat f buff ->
  Obs.sats msg !! i = Some s0 ->
  exists s,
    Obs.sats out !! i = Some s
    /\ Obs.obs_L2 s = Obs.set_flags (Obs.obs_L2 s0) flags_data_zero.
Proof.
  intros Hin Hdual Hdec Hi Hs0.
  destruct (legacy_table_spec dec body f buff msg Hin) as (_ & _ & Hspec).
  cbv zeta in Hspec. rewrite Hdec in Hspec. cbn [fst snd] in Hspec.
  destruct Hspec as (_ & _ & _ & _ & _ & Hsat).
  pose proof (Hsat eq_refl i s0 Hi Hs0) as Hs.
  destruct (legacy_decoded_sat dec body f buff msg out i _ Hin Hdec Hi Hs)
    as (s0' & Hs0' & _ & Hshape).
  rewrite Hs0 in Hs0'. injection Hs0' as <-.
  eexists. split; [exact Hs|].
  destruct Hshape as (_ & _ & _ & _ & HL2 & _). rewrite Hdual in HL2. exact HL2.
Qed.

Lemma legacy_single_frequency_l2_witness :
  exists s,
    Obs.sats (snd (@rtcm3_decode_1002 spec_externals buff_1002 obs_message_zero))
      !! 0%nat = Some s
    /\ Obs.obs_L2 s = Obs.set_flags (Obs.obs_L2 Obs.sat_data_zero) flags_data_zero.
Proof.
  apply (@legacy_single_frequency_l2 spec_externals _ _ _ buff_1002 obs_message_zero
           (snd (@rtcm3_decode_1002 spec_externals buff_1002 obs_message_zero))
           0%nat Obs.sat_data_zero
           ltac:(right; left; reflexivity)).
  - reflexivity.
  - vm_compute. reflexivity.
  - vm_compute. reflexivity.
  - reflexivity.
Defined.

(** In the GLONASS decoders (1010, 1012) the stored frequency channel of
    a decoded satellite is the 5-bit field of its entry, between 0 and 31,
    and the L1 carrier phase is valid exactly when the channel is at most
    [MT1012_GLO_MAX_FCN] and the phase field is not the sentinel; so a
    channel above the maximum yields neither a valid L1 carrier phase nor
    a valid L1 lock time. *)
Theorem glonass_l1_phase_guard `{Ext : rtcm_externals} dec body f
    (buff : list Byte.byte) (msg out : Obs.rtcm_obs_message)
    (i : nat) (s : Obs.rtcm_sat_data) :
  In (dec, body, f) legacy_table ->
  lf_glo f = true ->
  dec buff msg = (RC_OK, out) ->
  Z.of_nat i < lf_n_sat f buff ->
  Obs.sats out !! i = Some s ->
  Obs.fcn s = rtcm_getbitu buff (lf_sat_start f i + 7) 5
  /\ 0 <= Obs.fcn s <= 31
  /\ valid_cp (Obs.flags (Obs.obs_L1 s))
     = (Obs.fcn s <=? MT1012_GLO_MAX_FCN)
       && negb (rtcm_getbits buff (lf_sat_start f i + 37) 20 =? CP_INVALID)
  /\ (if Obs.fcn s <=? MT1012_GLO_MAX_FCN then True
      else valid_cp (Obs.flags (Obs.obs_L1 s)) = false
           /\ valid_lock (Obs.flags (Obs.obs_L1 s)) = false).
Proof.
  intros Hin Hglo Hdec Hi Hs.
  destruct (legacy_decoded_sat dec body f buff msg out i s Hin Hdec Hi Hs)
    as (s0 & _ & -> & Hshape).
  destruct Hshape as (_ & _ & [Hlock _] & _ & _ & Hfcn).
  rewrite Hglo in Hfcn. cbv zeta in Hfcn. unfold l1_phase_offset in Hfcn.
  destruct Hfcn as [Hfcn Hcp].
  pose proof (rtcm_getbitu_range buff (lf_sat_start f i + 7) 5 ltac:(lia)) as Hr.
  change (2 ^ 5) with 32 in Hr.
  split; [exact Hfcn|]. split; [rewrite Hfcn; lia|].
  split; [rewrite Hfcn; exact Hcp|].
  rewrite Hlock, Hcp, Hfcn.
  destruct (rtcm_getbitu buff (lf_sat_start f i + 7) 5 <=? MT1012_GLO_MAX_FCN);
    [exact I | split; reflexivity].
Qed.

Lemma glonass_l1_phase_guard_witness :
  exists s,
    Obs.sats (snd (@rtcm3_decode_1012 spec_externals buff_1012_fcn25 obs_message_zero))
      !! 0%nat = Some s
    /\ Obs.fcn s = 25
    /\ valid_cp (Obs.flags (Obs.obs_L1 s)) = false
    /\ valid_lock (Obs.flags (Obs.obs_L1 s)) = false.
Proof.
  eexists. split; [vm_compute; reflexivity|].
  match goal with
  | |- Obs.fcn ?s = _ /\ _ =>
      destruct (@glonass_l1_phase_guard spec_externals _ _ _ buff_1012_fcn25
                  obs_message_zero
                  (snd (@rtcm3_decode_1012 spec_externals buff_1012_fcn25 obs_message_zero))
                  0%nat s
                  ltac:(do 5 right; left; reflexivity) eq_refl
                  ltac:(vm_compute; reflexivity)
                  ltac:(vm_compute; reflexivity) ltac:(vm_compute; reflexivity))
        as (Hfcn & _ & _ & Hguard)
  end.
  split; [reflexivity|]. exact Hguard.
Defined.

(* ------------------------------------------------------------------ *)
(** ** Legacy observation decoders: the satellite entry *)

(** IEEE multiplication commutes: 1010 writes the ambiguity correction
    as [PRUNIT_GLO * amb], the other decoders as [amb * PRUNIT]. *)
Lemma SFmul_comm (prec emax : Z) (x y : spec_float) :
  SFmul prec emax x y = SFmul prec emax y x.
Proof.
  destruct x as [sx|sx| |sx mx ex], y as [sy|sy| |sy my ey]; cbn [SFmul];
    try reflexivity; rewrite ?(xorb_comm sx sy); try reflexivity.
  rewrite (Pos.mul_comm mx my), (Z.add_comm ex ey). reflexivity.
Qed.

Lemma float_mul_comm (x y : float) : PrimFloat.mul x y = PrimFloat.mul y x.
Proof. apply Prim2SF_inj. rewrite !mul_spec. apply SFmul_comm. Qed.

Lemma s8_small (x : Z) : -128 <= x < 128 -> s8 x = x.
Proof.
  intros H. unfold s8. change (2 ^ 7) with 128. change (2 ^ 8) with 256.
  rewrite Z.mod_small by lia. lia.
Qed.

(** The proof that a satellite body computes the entry of its format. *)
Ltac unwrap_channel_in H :=
  repeat match type of H with
         | context [s8 (rtcm_getbitu ?b ?o 5 - MT1012_GLO_FCN_OFFSET)] =>
             let R := fresh in
             pose proof (rtcm_getbitu_range b o 5 ltac:(lia)) as R;
             change (2 ^ 5) with 32 in R;
             rewrite (s8_small (rtcm_getbitu b o 5 - MT1012_GLO_FCN_OFFSET)) in H
               by (unfold MT1012_GLO_FCN_OFFSET; lia);
             clear R
         end.

Ltac sat_layout_proof :=
  intros H0 H1;
  match goal with
  | |- _ ?sat = _ => destruct sat as [sv fc [] []]
  end;
  match goal with
  | |- _ = (legacy_sat_of_buffer ?f _ _ _, _) =>
      let e := eval vm_compute in (lf_extended f) in
      let g := eval vm_compute in (lf_glo f) in
      let d := eval vm_compute in (lf_dual f) in
      cbv beta zeta delta
          [legacy_sat_of_buffer legacy_l1_of_buffer legacy_l2_of_buffer
           legacy_cnr legacy_cnr_ok legacy_l1_phase_computed legacy_phase
           legacy_l1_pseudorange legacy_amb_correction legacy_l1_hz
           legacy_l2_hz legacy_fcn lf_l2_offset lf_amb_bits lf_amb_offset
           lf_lock_offset l1_cnr_offset l2_cnr_offset l1_phase_offset
           l1_block_pr];
      change (lf_extended f) with e; change (lf_glo f) with g;
      change (lf_dual f) with d
  end;
  cbn [andb orb negb]; cbv beta iota; norm_offsets; obs_simpl;
  match goal with
  | |- ?body ?b ?c ?s = _ =>
      let H := fresh "H" in
      destruct (body b c s) as [sat' bit'] eqn:H;
      cbv delta [rtcm3_decode_1001_sat rtcm3_decode_1002_sat rtcm3_decode_1003_sat
                 rtcm3_decode_1004_sat rtcm3_decode_1010_sat rtcm3_decode_1012_sat
                 decode_basic_gps_l1_freq_data decode_basic_glo_l1_freq_data
                 decode_basic_l2_freq_data get_cnr construct_L1_code construct_L1_phase
                 construct_L2_code construct_L2_phase] in H;
      cbv beta zeta in H; unwrap_cursors_in H; unwrap_fields_in H;
      norm_offsets_in H; obs_simpl_in H; unwrap_channel_in H;
      try rewrite (float_mul_comm PRUNIT_GLO) in H;
      sat_body_cases H;
      obs_simpl_in H; injection H as <- <-
  end;
  cbn [andb orb negb]; cbv beta iota;
  reflexivity.

Section LegacyLayoutBodies.
Context `{Ext : rtcm_externals}.

Lemma rtcm3_decode_1001_sat_layout buff bit sat :
  0 <= bit -> bit + 130 < 65536 ->
  rtcm3_decode_1001_sat buff bit sat
  = (legacy_sat_of_buffer (mk_legacy_format 1001 false false 58) buff bit sat, bit + 58).
Proof. sat_layout_proof. Qed.

Lemma rtcm3_decode_1002_sat_layout buff bit sat :
  0 <= bit -> bit + 130 < 65536 ->
  rtcm3_decode_1002_sat buff bit sat
  = (legacy_sat_of_buffer (mk_legacy_format 1002 false false 74) buff bit sat, bit + 74).
Proof. sat_layout_proof. Qed.

Lemma rtcm3_decode_1003_sat_layout buff bit sat :
  0 <= bit -> bit + 130 < 65536 ->
  rtcm3_decode_1003_sat buff bit sat
  = (legacy_sat_of_buffer (mk_legacy_format 1003 false true 101) buff bit sat, bit + 101).
Proof. sat_layout_proof. Qed.

Lemma rtcm3_decode_1004_sat_layout buff bit sat :
  0 <= bit -> bit + 130 < 65536 ->
  rtcm3_decode_1004_sat buff bit sat
  = (legacy_sat_of_buffer (mk_legacy_format 1004 false true 125) buff bit sat, bit + 125).
Proof. sat_layout_proof. Qed.

Lemma rtcm3_decode_1010_sat_layout buff bit sat :
  0 <= bit -> bit + 130 < 65536 ->
  rtcm3_decode_1010_sat buff bit sat
  = (legacy_sat_of_buffer (mk_legacy_format 1010 true false 79) buff bit sat, bit + 79).
Proof. sat_layout_proof. Qed.

Lemma rtcm3_decode_1012_sat_layout buff bit sat :
  0 <= bit -> bit + 130 < 65536 ->
  rtcm3_decode_1012_sat buff bit sat
  = (legacy_sat_of_buffer (mk_legacy_format 1012 true true 130) buff bit sat, bit + 130).
Proof. sat_layout_proof. Qed.

End LegacyLayoutBodies.

Section LegacyLayoutTable.
Context `{Ext : rtcm_externals}.

(** Every row of the table: the body computes the entry of its format
    and consumes the bits of the format. *)
Lemma legacy_table_layout dec body f buff bit sat :
  In (dec, body, f) legacy_table ->
  0 <= bit -> bit + 130 < 65536 ->
  body buff bit sat = (legacy_sat_of_buffer f buff bit sat, bit + lf_sat_bits f).
Proof.
  intros Hin H0 H1. unfold legacy_table in Hin. cbn [In] in Hin.
  destruct Hin as [Hin | [Hin | [Hin | [Hin | [Hin | [Hin | []]]]]]];
    injection Hin as <- <- <-.
  - exact (rtcm3_decode_1001_sat_layout buff bit sat H0 H1).
  - exact (rtcm3_decode_1002_sat_layout buff bit sat H0 H1).
  - exact (rtcm3_decode_1003_sat_layout buff bit sat H0 H1).
  - exact (rtcm3_decode_1004_sat_layout buff bit sat H0 H1).
  - exact (rtcm3_decode_1010_sat_layout buff bit sat H0 H1).
  - exact (rtcm3_decode_1012_sat_layout buff bit sat H0 H1).
Qed.

(** A satellite below the count of a decoded message is the entry of the
    format at the start of its bits. *)
Lemma legacy_decoded_layout dec body f buff msg out (i : nat) (s0 : Obs.rtcm_sat_data) :
  In (dec, body, f) legacy_table ->
  dec buff msg = (RC_OK, out) ->
  Z.of_nat i < lf_n_sat f buff ->
  Obs.sats msg !! i = Some s0 ->
  Obs.sats out !! i = Some (legacy_sat_of_buffer f buff (lf_sat_start f i) s0).
Proof.
  intros Hin Hdec Hi Hs0.
  destruct (legacy_table_spec dec body f buff msg Hin) as (_ & Hw & Hspec).
  cbv zeta in Hspec. rewrite Hdec in Hspec. cbn [fst snd] in Hspec.
  destruct Hspec as (_ & _ & _ & Hn & _ & Hsat).
  rewrite (Hsat eq_refl i s0 Hi Hs0).
  destruct (lf_sat_start_range f i Hw ltac:(lia)) as [H0 H1].
  rewrite (legacy_table_layout dec body f buff (lf_sat_start f i) s0 Hin H0 ltac:(lia)).
  reflexivity.
Qed.

End LegacyLayoutTable.

(** Satellite [i] of a legacy message decoded with [RC_OK] is the entry
    that the format lays out at bit [header bits + i * entry bits]: the
    satellite number, in GLONASS the frequency channel, and the two
    observations with their code, pseudorange, carrier phase, lock time,
    CNR and flags are functions of the buffer.  The L2 pseudorange is the
    L1 pseudorange plus 0.02 times its 14-bit difference, and both carrier
    phases are built on the L1 pseudorange.  Only three things come from
    the caller's entry: the channel of a GPS satellite, the L2 observation
    of a single-frequency message, and what an invalid field leaves
    unwritten. *)
Theorem legacy_satellite_layout `{Ext : rtcm_externals} dec body f
    (buff : list Byte.byte) (msg out : Obs.rtcm_obs_message)
    (i : nat) (s0 : Obs.rtcm_sat_data) :
  In (dec, body, f) legacy_table ->
  dec buff msg = (RC_OK, out) ->
  Z.of_nat i < lf_n_sat f buff ->
  Obs.sats msg !! i = Some s0 ->
  Obs.sats out !! i = Some (legacy_sat_of_buffer f buff (lf_sat_start f i) s0)
  /\ Obs.pseudorange (Obs.obs_L2 (legacy_sat_of_buffer f buff (lf_sat_start f i) s0))
     = (if lf_dual f
        then PrimFloat.add
               (PrimFloat.mul 0.02%float
                  (Z2F (rtcm_getbits buff (lf_sat_start f i + lf_l2_offset f + 2) 14)))
               (Obs.pseudorange
                  (Obs.obs_L1 (legacy_sat_of_buffer f buff (lf_sat_start f i) s0)))
        else Obs.pseudorange (Obs.obs_L2 s0))
  /\ lf_sat_bits f
     = lf_l2_offset f + (if lf_dual f then 43 + (if lf_extended f then 8 else 0) else 0).
Proof.
  intros Hin Hdec Hi Hs0.
  split; [exact (legacy_decoded_layout dec body f buff msg out i s0 Hin Hdec Hi Hs0)|].
  split.
  - unfold legacy_sat_of_buffer, legacy_l2_of_buffer.
    cbn [Obs.obs_L2 Obs.obs_L1]. destruct (lf_dual f); reflexivity.
  - unfold legacy_table in Hin. cbn [In] in Hin.
    destruct Hin as [Hin | [Hin | [Hin | [Hin | [Hin | [Hin | []]]]]]];
      injection Hin as <- <- <-; reflexivity.
Qed.

Lemma legacy_satellite_layout_witness :
  Obs.sats (snd (@rtcm3_decode_1012 spec_externals buff_1012_fcn25 obs_message_zero))
    !! 0%nat
  = Some (@legacy_sat_of_buffer spec_externals (mk_legacy_format 1012 true true 130)
            buff_1012_fcn25 61 Obs.sat_data_zero).
Proof.
  destruct (@legacy_satellite_layout spec_externals _ _ _ buff_1012_fcn25 obs_message_zero
              (snd (@rtcm3_decode_1012 spec_externals buff_1012_fcn25 obs_message_zero))
              0%nat Obs.sat_data_zero
              ltac:(do 5 right; left; reflexivity)
              ltac:(vm_compute; reflexivity)
              ltac:(vm_compute; reflexivity) ltac:(reflexivity))
    as [H _].
  exact H.
Defined.

(** In a legacy message decoded with [RC_OK], the CNR of an observation
    is valid exactly when the format carries it (1002, 1004, 1010, 1012;
    on L2 only 1004 and 1012) and its 8-bit field is not zero, and is then
    a quarter of the field.  Otherwise the decoder does not write the CNR:
    the value of the caller's entry stays in the record, flagged
    invalid. *)
Theorem legacy_cnr_valid_or_kept `{Ext : rtcm_externals} dec body f
    (buff : list Byte.byte) (msg out : Obs.rtcm_obs_message)
    (i : nat) (s0 : Obs.rtcm_sat_data) :
  In (dec, body, f) legacy_table ->
  dec buff msg = (RC_OK, out) ->
  Z.of_nat i < lf_n_sat f buff ->
  Obs.sats msg !! i = Some s0 ->
  let c1 := rtcm_getbitu buff (lf_sat_start f i + l1_cnr_offset (lf_glo f)) 8 in
  let c2 := rtcm_getbitu buff (lf_sat_start f i + l2_cnr_offset (lf_glo f)) 8 in
  exists s,
    Obs.sats out !! i = Some s
    /\ valid_cnr (Obs.flags (Obs.obs_L1 s)) = lf_extended f && negb (c1 =? 0)
    /\ valid_cnr (Obs.flags (Obs.obs_L2 s)) = lf_extended f && lf_dual f && negb (c2 =? 0)
    /\ Obs.cnr (Obs.obs_L1 s)
       = (if valid_cnr (Obs.flags (Obs.obs_L1 s)) then PrimFloat.mul 0.25%float (Z2F c1)
          else Obs.cnr (Obs.obs_L1 s0))
    /\ Obs.cnr (Obs.obs_L2 s)
       = (if valid_cnr (Obs.flags (Obs.obs_L2 s)) then PrimFloat.mul 0.25%float (Z2F c2)
          else Obs.cnr (Obs.obs_L2 s0)).
Proof.
  intros Hin Hdec Hi Hs0 c1 c2.
  eexists. split; [exact (legacy_decoded_layout dec body f buff msg out i s0 Hin Hdec Hi Hs0)|].
  unfold legacy_sat_of_buffer, legacy_l1_of_buffer, legacy_l2_of_buffer,
    legacy_cnr, legacy_cnr_ok.
  cbv zeta. cbn [Obs.obs_L1 Obs.obs_L2]. fold c1 c2.
  destruct (lf_dual f), s0 as [sv fc [] []];
    cbn [Obs.flags Obs.cnr valid_cnr Obs.set_flags Obs.obs_L1 Obs.obs_L2 flags_data_zero];
    rewrite ?andb_true_r, ?andb_false_r; cbn [andb];
    repeat split; reflexivity.
Qed.

Lemma legacy_cnr_valid_or_kept_witness :
  exists s,
    Obs.sats (snd (@rtcm3_decode_1004 spec_externals buff_1004_no_l1_cnr obs_message_stale))
      !! 0%nat = Some s
    /\ valid_cnr (Obs.flags (Obs.obs_L1 s)) = false
    /\ valid_cnr (Obs.flags (Obs.obs_L2 s)) = true
    /\ Obs.cnr (Obs.obs_L1 s) = 33%float
    /\ Obs.cnr (Obs.obs_L2 s) = 30%float.
Proof.
  destruct (@legacy_cnr_valid_or_kept spec_externals _ _ _ buff_1004_no_l1_cnr
              obs_message_stale
              (snd (@rtcm3_decode_1004 spec_externals buff_1004_no_l1_cnr obs_message_stale))
              0%nat
              (Obs.set_obs_L1 Obs.sat_data_zero
                 (Obs.set_cnr (Obs.obs_L1 Obs.sat_data_zero) 33%float))
              ltac:(do 3 right; left; reflexivity)
              ltac:(vm_compute; reflexivity)
              ltac:(vm_compute; reflexivity) ltac:(reflexivity))
    as (s & Hs & Hv1 & Hv2 & Hc1 & Hc2).
  exists s. split; [exact Hs|].
  rewrite Hv1 in Hc1. rewrite Hv2 in Hc2.
  split; [rewrite Hv1; vm_compute; reflexivity|].
  split; [rewrite Hv2; vm_compute; reflexivity|].
  split; [rewrite Hc1; vm_compute; reflexivity | rewrite Hc2; vm_compute; reflexivity].
Defined.

(* ------------------------------------------------------------------ *)
(** ** MSM header: the masks *)

Lemma buff_mask_length (buff : list Byte.byte) (pos : Z) (n : nat) :
  length (buff_mask buff pos n) = n.
Proof. unfold buff_mask. rewrite length_fmap, length_seq. reflexivity. Qed.

Lemma buff_mask_lookup (buff : list Byte.byte) (pos : Z) (n i : nat) :
  (i < n)%nat ->
  buff_mask buff pos n !! i = Some (Z2B (rtcm_getbitu buff (pos + Z.of_nat i) 1)).
Proof.
  intros Hi. unfold buff_mask. rewrite list_lookup_fmap, lookup_seq_lt by exact Hi.
  reflexivity.
Qed.

(** A mask whose first [n] entries are the bits of the buffer. *)
Lemma buff_mask_eq (buff : list Byte.byte) (pos : Z) (n : nat) (l : list bool) :
  length l = n ->
  (forall i : nat, (i < n)%nat -> l !! i = Some (Z2B (rtcm_getbitu buff (pos + Z.of_nat i) 1))) ->
  l = buff_mask buff pos n.
Proof.
  intros Hlen Hl. apply list_eq. intros i.
  destruct (decide (i < n)%nat) as [Hi|Hi].
  - rewrite Hl, buff_mask_lookup by exact Hi. reflexivity.
  - rewrite !lookup_ge_None_2; [reflexivity | rewrite buff_mask_length; lia | lia].
Qed.

(** [rtcm3_read_msm_header] on a header with the mask sizes of the C
    type: the satellite mask and the signal mask are the 64 bits at 73 and
    the 32 bits at 137; the cell mask gets one bit of the buffer, from 169
    on, for each of its first [num_sats * num_sigs] (as [uint8_t])
    entries, and keeps the rest. *)
Lemma rtcm3_read_msm_header_masks `{Ext : rtcm_externals}
    (buff : list Byte.byte) (cons : rtcm_constellation_t) (header : Msm.rtcm_msm_header) :
  length (Msm.satellite_mask header) = MSM_SATELLITE_MASK_SIZE ->
  length (Msm.signal_mask header) = MSM_SIGNAL_MASK_SIZE ->
  let size := u8 (msm_buff_num_sats buff * msm_buff_num_sigs buff) in
  exists cm,
    rtcm3_read_msm_header buff cons header
    = (169 + size,
       spec_msm_header buff cons (msm_buff_satellite_mask buff)
         (msm_buff_signal_mask buff) cm)
    /\ length cm = length (Msm.cell_mask header)
    /\ (forall i : nat,
          Z.of_nat i < size -> (i < length (Msm.cell_mask header))%nat ->
          cm !! i = Some (Z2B (rtcm_getbitu buff (169 + Z.of_nat i) 1)))
    /\ (forall i : nat, size <= Z.of_nat i -> cm !! i = Msm.cell_mask header !! i).
Proof.
  intros Hlsm Hlgm.
  assert (Hn : normalize_bds2_tow (rtcm_getbitu buff 24 30)
               = spec_bds_tow (rtcm_getbitu buff 24 30))
    by (apply normalize_bds2_tow_spec, rtcm_getbitu_range; lia).
  pose proof (fun m => count_mask_values_range MSM_SATELLITE_MASK_SIZE m) as Hs.
  pose proof (fun m => count_mask_values_range MSM_SIGNAL_MASK_SIZE m) as Hg.
  unfold msm_buff_num_sats, msm_buff_num_sigs, msm_buff_satellite_mask,
    msm_buff_signal_mask.
  unfold rtcm3_read_msm_header, spec_msm_header, spec_msm_tow.
  unfold MSM_SATELLITE_MASK_SIZE, MSM_SIGNAL_MASK_SIZE in *.
  destruct header. cbn [Msm.satellite_mask Msm.signal_mask Msm.cell_mask] in Hlsm, Hlgm |- *.
  destruct cons; cbn [cons_eqb]; cbv beta iota zeta; cursor_eval; try rewrite Hn.
  all: msm_header_simpl.
  all: match goal with
       | |- context [for_loop 64 ?f (?h, ?b0)] =>
           destruct (array_loop_spec Msm.set_satellite_mask Msm.satellite_mask
                       (fun p => Z2B (rtcm_getbitu buff p 1)) 1 64 h b0)
             as (sm & Esm & Hsm1 & Hsm2 & _);
           [ reflexivity | intros []; reflexivity | reflexivity | lia | lia | lia |];
           assert (E : for_loop 64 f (h, b0)
                       = (Msm.set_satellite_mask h sm, b0 + 1 * Z.of_nat 64))
             by exact Esm;
           rewrite E; clear E Esm; cbv beta iota;
           change (73 + 1 * Z.of_nat 64) with 137;
           cbn [Msm.satellite_mask] in Hsm1, Hsm2; rewrite Hlsm in Hsm1, Hsm2;
           assert (sm = buff_mask buff 73 64)
             by (apply buff_mask_eq; [exact Hsm1|];
                 intros i Hi; rewrite Hsm2 by lia; do 3 f_equal; lia);
           subst sm; clear Hsm1 Hsm2
       end.
  all: msm_header_simpl.
  all: match goal with
       | |- context [for_loop 32 ?f (?h, ?b0)] =>
           destruct (array_loop_spec Msm.set_signal_mask Msm.signal_mask
                       (fun p => Z2B (rtcm_getbitu buff p 1)) 1 32 h b0)
             as (gm & Egm & Hgm1 & Hgm2 & _);
           [ reflexivity | intros []; reflexivity | reflexivity | lia | lia | lia |];
           assert (E : for_loop 32 f (h, b0)
                       = (Msm.set_signal_mask h gm, b0 + 1 * Z.of_nat 32))
             by exact Egm;
           rewrite E; clear E Egm; cbv beta iota;
           change (137 + 1 * Z.of_nat 32) with 169;
           cbn [Msm.signal_mask] in Hgm1, Hgm2; rewrite Hlgm in Hgm1, Hgm2;
           assert (gm = buff_mask buff 137 32)
             by (apply buff_mask_eq; [exact Hgm1|];
                 intros i Hi; rewrite Hgm2 by lia; do 3 f_equal; lia);
           subst gm; clear Hgm1 Hgm2
       end.
  all: msm_header_simpl;
       rewrite (u8_small (count_mask_values 64 (buff_mask buff 73 64)))
         by (specialize (Hs (buff_mask buff 73 64)); lia);
       rewrite (u8_small (count_mask_values 32 (buff_mask buff 137 32)))
         by (specialize (Hg (buff_mask buff 137 32)); lia).
  all: pose proof (u8_range (count_mask_values 64 (buff_mask buff 73 64)
                             * count_mask_values 32 (buff_mask buff 137 32))) as Hsize.
  all: match goal with
       | |- context [for_loop (Z.to_nat ?size) ?f (?h, ?b0)] =>
           destruct (array_loop_spec Msm.set_cell_mask Msm.cell_mask
                       (fun p => Z2B (rtcm_getbitu buff p 1)) 1 (Z.to_nat size) h b0)
             as (cm & Ecm & Hcm1 & Hcm2 & Hcm3);
           [ reflexivity | intros []; reflexivity | reflexivity | lia | lia | lia |];
           assert (E : for_loop (Z.to_nat size) f (h, b0)
                       = (Msm.set_cell_mask h cm, b0 + 1 * Z.of_nat (Z.to_nat size)))
             by exact Ecm;
           rewrite E; clear E Ecm; cbv beta iota;
           cbn [Msm.cell_mask] in Hcm1, Hcm2, Hcm3
       end.
  all: msm_header_simpl.
  all: exists cm; rewrite Z2Nat.id by lia; rewrite Z.mul_1_l;
       split; [reflexivity|]; split; [exact Hcm1|]; split;
       [ intros i Hi Hil; rewrite Hcm2 by lia; do 3 f_equal; lia
       | intros i Hi; apply Hcm3; lia ].
Qed.

(* ------------------------------------------------------------------ *)
(** ** MSM blocks: loops over two arrays *)

(** A loop that writes entry [i] of two arrays from the cursor and then
    moves the cursor with [next], which adds [w] along the way. *)
Lemma pair_loop_spec {A B : Type} (va : Z -> A) (vb : Z -> B) (next : Z -> Z) (w : Z)
    (n : nat) (la : list A) (lb : list B) (bit : Z) :
  (forall k : nat, (k < n)%nat ->
     next (bit + w * Z.of_nat k) = bit + w * Z.of_nat (Datatypes.S k)) ->
  let r :=
    for_loop n
      (fun i '(la, lb, bit) => (<[i := va bit]> la, <[i := vb bit]> lb, next bit))
      (la, lb, bit) in
  snd r = bit + w * Z.of_nat n
  /\ length (fst (fst r)) = length la
  /\ length (snd (fst r)) = length lb
  /\ (forall i : nat, (i < n)%nat -> (i < length la)%nat ->
        fst (fst r) !! i = Some (va (bit + w * Z.of_nat i)))
  /\ (forall i : nat, (i < n)%nat -> (i < length lb)%nat ->
        snd (fst r) !! i = Some (vb (bit + w * Z.of_nat i)))
  /\ (forall i : nat, (n <= i)%nat -> fst (fst r) !! i = la !! i)
  /\ (forall i : nat, (n <= i)%nat -> snd (fst r) !! i = lb !! i).
Proof.
  intros Hnext. cbv zeta.
  apply (for_loop_ind
           (fun k r =>
              (k <= n)%nat ->
              snd r = bit + w * Z.of_nat k
              /\ length (fst (fst r)) = length la
              /\ length (snd (fst r)) = length lb
              /\ (forall i : nat, (i < k)%nat -> (i < length la)%nat ->
                    fst (fst r) !! i = Some (va (bit + w * Z.of_nat i)))
              /\ (forall i : nat, (i < k)%nat -> (i < length lb)%nat ->
                    snd (fst r) !! i = Some (vb (bit + w * Z.of_nat i)))
              /\ (forall i : nat, (k <= i)%nat -> fst (fst r) !! i = la !! i)
              /\ (forall i : nat, (k <= i)%nat -> snd (fst r) !! i = lb !! i)));
    [| | lia].
  - intros _. cbn [fst snd]. repeat split; intros; lia.
  - intros j [[a b] c] Hj IH Hle.
    destruct IH as (Hc & Hla & Hlb & Ha & Hb & Ha' & Hb'); [lia|].
    cbn [fst snd] in *. subst c.
    split; [apply Hnext; exact Hj|].
    split; [rewrite length_insert; exact Hla|].
    split; [rewrite length_insert; exact Hlb|].
    split; [|split; [|split]].
    + intros i Hi Hil. destruct (decide (j = i)) as [->|Hne].
      * rewrite list_lookup_insert_eq by lia. reflexivity.
      * rewrite list_lookup_insert_ne by exact Hne. apply Ha; lia.
    + intros i Hi Hil. destruct (decide (j = i)) as [->|Hne].
      * rewrite list_lookup_insert_eq by lia. reflexivity.
      * rewrite list_lookup_insert_ne by exact Hne. apply Hb; lia.
    + intros i Hi. rewrite list_lookup_insert_ne by lia. apply Ha'. lia.
    + intros i Hi. rewrite list_lookup_insert_ne by lia. apply Hb'. lia.
Qed.

(** A cell reader: entry [i] of the value array is written and entry [i]
    of the flag array altered, both from the [w] bits at the cursor. *)
Lemma cell_loop_spec {A : Type} (val : Z -> A) (upd : Z -> flag_bf -> flag_bf) (w : Z)
    (n : nat) (vals : list A) (flags : list flag_bf) (bit : Z) :
  0 <= bit -> 0 <= w -> bit + w * Z.of_nat n < 65536 ->
  let r :=
    for_loop n
      (fun i '(vals, flags, bit) =>
         (<[i := val bit]> vals, alter (upd bit) i flags, u16 (bit + w)))
      (vals, flags, bit) in
  snd r = bit + w * Z.of_nat n
  /\ length (fst (fst r)) = length vals
  /\ length (snd (fst r)) = length flags
  /\ (forall i : nat, (i < n)%nat -> (i < length vals)%nat ->
        fst (fst r) !! i = Some (val (bit + w * Z.of_nat i)))
  /\ (forall i : nat, (i < n)%nat ->
        snd (fst r) !! i = upd (bit + w * Z.of_nat i) <$> flags !! i)
  /\ (forall i : nat, (n <= i)%nat -> snd (fst r) !! i = flags !! i).
Proof.
  intros Hbit Hw Hmax. cbv zeta.
  apply (for_loop_ind
           (fun k r =>
              (k <= n)%nat ->
              snd r = bit + w * Z.of_nat k
              /\ length (fst (fst r)) = length vals
              /\ length (snd (fst r)) = length flags
              /\ (forall i : nat, (i < k)%nat -> (i < length vals)%nat ->
                    fst (fst r) !! i = Some (val (bit + w * Z.of_nat i)))
              /\ (forall i : nat, (i < k)%nat ->
                    snd (fst r) !! i = upd (bit + w * Z.of_nat i) <$> flags !! i)
              /\ (forall i : nat, (k <= i)%nat -> snd (fst r) !! i = flags !! i)));
    [| | lia].
  - intros _. cbn [fst snd]. repeat split; intros; lia.
  - intros j [[a b] c] Hj IH Hle.
    destruct IH as (Hc & Hla & Hlb & Ha & Hb & Hb'); [lia|].
    cbn [fst snd] in *. subst c.
    split; [rewrite u16_small by nia; lia|].
    split; [rewrite length_insert; exact Hla|].
    split; [rewrite length_alter; exact Hlb|].
    split; [|split].
    + intros i Hi Hil. destruct (decide (j = i)) as [->|Hne].
      * rewrite list_lookup_insert_eq by lia. reflexivity.
      * rewrite list_lookup_insert_ne by exact Hne. apply Ha; lia.
    + intros i Hi. destruct (decide (j = i)) as [->|Hne].
      * rewrite list_lookup_alter_eq, Hb' by lia. reflexivity.
      * rewrite list_lookup_alter_ne by exact Hne. apply Hb; lia.
    + intros i Hi. rewrite list_lookup_alter_ne by lia. apply Hb'. lia.
Qed.

(* ------------------------------------------------------------------ *)
(** ** MSM satellite block *)

(** The loop over the rough range modulo one millisecond: the 10-bit
    field of satellite [i] is added to entry [i] when the integer
    milliseconds are valid. *)
Lemma rough_range_loop_spec (buff : list Byte.byte) (rv : list bool) (n : nat)
    (rr : list float) (bit : Z) :
  0 <= bit -> bit + 10 * Z.of_nat n < 65536 ->
  let r :=
    for_loop n
      (fun i '(rough_range_ms, bit) =>
         let rough_pr := rtcm_getbitu buff bit 10 in
         let bit := u16 (bit + 10) in
         if default false (rv !! i) then
           (<[i := PrimFloat.add (default 0%float (rough_range_ms !! i))
                     (PrimFloat.div (Z2F rough_pr) 1024%float)]> rough_range_ms,
            bit)
         else (rough_range_ms, bit))
      (rr, bit) in
  snd r = bit + 10 * Z.of_nat n
  /\ length (fst r) = length rr
  /\ (forall (i : nat) (x : float),
        (i < n)%nat -> rr !! i = Some x ->
        fst r !! i
        = Some (if default false (rv !! i)
                then PrimFloat.add x
                       (PrimFloat.div
                          (Z2F (rtcm_getbitu buff (bit + 10 * Z.of_nat i) 10)) 1024%float)
                else x))
  /\ (forall i : nat, (n <= i)%nat -> fst r !! i = rr !! i).
Proof.
  intros Hbit Hmax. cbv zeta.
  apply (for_loop_ind
           (fun k r =>
              (k <= n)%nat ->
              snd r = bit + 10 * Z.of_nat k
              /\ length (fst r) = length rr
              /\ (forall (i : nat) (x : float),
                    (i < k)%nat -> rr !! i = Some x ->
                    fst r !! i
                    = Some (if default false (rv !! i)
                            then PrimFloat.add x
                                   (PrimFloat.div
                                      (Z2F (rtcm_getbitu buff (bit + 10 * Z.of_nat i) 10))
                                      1024%float)
                            else x))
              /\ (forall i : nat, (k <= i)%nat -> fst r !! i = rr !! i)));
    [| | lia].
  - intros _. cbn [fst snd]. repeat split; intros; lia.
  - intros j [a c] Hj IH Hle.
    destruct IH as (Hc & Hla & Ha & Ha'); [lia|].
    cbn [fst snd] in *. subst c. rewrite u16_small by lia.
    destruct (default false (rv !! j)) eqn:Ev; cbn [fst snd].
    + split; [lia|]. split; [rewrite length_insert; exact Hla|]. split.
      * intros i x Hi Hx. destruct (decide (j = i)) as [->|Hne].
        -- rewrite list_lookup_insert_eq
             by (rewrite Hla; apply lookup_lt_Some in Hx; exact Hx).
           rewrite Ha', Hx, Ev by lia. reflexivity.
        -- rewrite list_lookup_insert_ne by exact Hne. apply Ha; [lia | exact Hx].
      * intros i Hi. rewrite list_lookup_insert_ne by lia. apply Ha'. lia.
    + split; [lia|]. split; [exact Hla|]. split.
      * intros i x Hi Hx. destruct (decide (j = i)) as [->|Hne].
        -- rewrite Ha', Hx, Ev by lia. reflexivity.
        -- apply Ha; [lia | exact Hx].
      * intros i Hi. apply Ha'. lia.
Qed.

(** Specialise a loop lemma to the loop of a hypothesis: the lemma [L]
    is stated for a body that is convertible with the body [f]. *)
Ltac loop_as L f :=
  cbv zeta in L;
  match type of L with
  | context [for_loop _ ?g _] => change g with f in L
  end.

(** The satellite block as a whole.  Satellite [sat] has its integer
    milliseconds at [bit + 8 * sat], its satellite info (MSM5, MSM7) at
    [bit + 8 * n + 4 * sat], its range modulo one millisecond after them,
    and its range rate (MSM5, MSM7) at [bit + 22 * n + 14 * sat]; the block
    is 18 or 36 bits per satellite. *)
Lemma decode_msm_sat_data_spec buff num_sats msm_type
    rr rv si siv rrt rrtv bit rr' rv' si' siv' rrt' rrtv' bit' :
  decode_msm_sat_data buff num_sats msm_type rr rv si siv rrt rrtv bit
  = (rr', rv', si', siv', rrt', rrtv', bit') ->
  0 <= bit -> 0 <= num_sats -> bit + 36 * num_sats < 65536 ->
  length rr = Z.to_nat num_sats -> length rv = Z.to_nat num_sats ->
  length si = Z.to_nat num_sats -> length siv = Z.to_nat num_sats ->
  length rrt = Z.to_nat num_sats -> length rrtv = Z.to_nat num_sats ->
  let info := msm_has_rates msm_type in
  bit' = bit + (if info then 36 else 18) * num_sats
  /\ forall sat : nat,
       (sat < Z.to_nat num_sats)%nat ->
       let f8 := rtcm_getbitu buff (bit + 8 * Z.of_nat sat) 8 in
       let f10 :=
         rtcm_getbitu buff
           (bit + (if info then 12 else 8) * num_sats + 10 * Z.of_nat sat) 10 in
       let f14 := s16 (rtcm_getbits buff (bit + 22 * num_sats + 14 * Z.of_nat sat) 14) in
       rv' !! sat = Some (negb (MSM_ROUGH_RANGE_INVALID =? f8))
       /\ rr' !! sat
          = Some (if negb (MSM_ROUGH_RANGE_INVALID =? f8)
                  then PrimFloat.add (Z2F f8) (PrimFloat.div (Z2F f10) 1024%float)
                  else Z2F f8)
       /\ si' !! sat
          = Some (if info then rtcm_getbitu buff (bit + 8 * num_sats + 4 * Z.of_nat sat) 4
                  else 0)
       /\ siv' !! sat = Some info
       /\ rrt' !! sat = Some (if info then Z2F f14 else 0%float)
       /\ rrtv' !! sat = Some (if info then negb (MSM_ROUGH_RATE_INVALID =? f14) else false).
Proof.
  intros H Hbit Hns Hmax Lrr Lrv Lsi Lsiv Lrrt Lrrtv.
  unfold msm_has_rates. cbv zeta.
  unfold decode_msm_sat_data in H.
  set (n := Z.to_nat num_sats) in *.
  assert (Hn : Z.of_nat n = num_sats) by (subst n; lia).
  (* integer milliseconds *)
  match type of H with
  | context [for_loop n ?f (rr, rv, bit)] =>
      pose proof (pair_loop_spec
                    (fun b => Z2F (rtcm_getbitu buff b 8))
                    (fun b => negb (MSM_ROUGH_RANGE_INVALID =? rtcm_getbitu buff b 8))
                    (fun b => u16 (b + 8)) 8 n rr rv bit
                    ltac:(intros k Hk; cbv beta; rewrite u16_small by lia; lia)) as L1;
      loop_as L1 f;
      destruct (for_loop n f (rr, rv, bit)) as [[rr1 rv1] b1]
  end.
  cbn [fst snd] in L1. destruct L1 as (-> & Lrr1 & Lrv1 & Hrr1 & Hrv1 & _ & _).
  cbv beta iota in H.
  destruct (msm_enum_eqb MSM5 msm_type || msm_enum_eqb MSM7 msm_type).
  - (* MSM5, MSM7 *)
    cbv beta iota in H.
    match type of H with
    | context [for_loop n ?f (si, siv, ?b0)] =>
        pose proof (pair_loop_spec
                      (fun b => u8 (rtcm_getbitu buff b 4)) (fun _ => true)
                      (fun b => u16 (b + 4)) 4 n si siv b0
                      ltac:(intros k Hk; cbv beta; rewrite u16_small by lia; lia)) as L2;
        loop_as L2 f;
        destruct (for_loop n f (si, siv, b0)) as [[si1 siv1] b2]
    end.
    cbn [fst snd] in L2. destruct L2 as (-> & _ & _ & Hsi1 & Hsiv1 & _ & _).
    cbv beta iota in H.
    match type of H with
    | context [for_loop n ?f (rr1, ?b0)] =>
        pose proof (rough_range_loop_spec buff rv1 n rr1 b0 ltac:(lia) ltac:(lia)) as L3;
        loop_as L3 f;
        destruct (for_loop n f (rr1, b0)) as [rr3 b3]
    end.
    cbn [fst snd] in L3. destruct L3 as (-> & _ & Hrr3 & _).
    cbv beta iota in H.
    match type of H with
    | context [for_loop n ?f (rrt, rrtv, ?b0)] =>
        pose proof (pair_loop_spec
                      (fun b => Z2F (s16 (rtcm_getbits buff b 14)))
                      (fun b => negb (MSM_ROUGH_RATE_INVALID =? s16 (rtcm_getbits buff b 14)))
                      (fun b => u16 (b + 14)) 14 n rrt rrtv b0
                      ltac:(intros k Hk; cbv beta; rewrite u16_small by lia; lia)) as L4;
        loop_as L4 f;
        destruct (for_loop n f (rrt, rrtv, b0)) as [[rrt4 rrtv4] b4]
    end.
    cbn [fst snd] in L4. destruct L4 as (-> & _ & _ & Hrrt4 & Hrrtv4 & _ & _).
    cbv beta iota in H. injection H as <- <- <- <- <- <- <-.
    split; [lia|]. intros sat Hsat.
    pose proof (rtcm_getbitu_range buff (bit + 8 * num_sats + 4 * Z.of_nat sat) 4
                  ltac:(lia)) as R4.
    change (2 ^ 4) with 16 in R4.
    split; [apply Hrv1; lia|]. split.
    { rewrite (Hrr3 sat _ Hsat (Hrr1 sat Hsat ltac:(lia))), (Hrv1 sat Hsat ltac:(lia)).
      replace (bit + 8 * Z.of_nat n + 4 * Z.of_nat n + 10 * Z.of_nat sat)
        with (bit + 12 * num_sats + 10 * Z.of_nat sat) by lia.
      reflexivity. }
    split.
    { rewrite Hsi1 by lia. rewrite Hn, u8_small by lia. reflexivity. }
    split; [apply Hsiv1; lia|]. split.
    { rewrite Hrrt4 by lia. do 4 f_equal. lia. }
    { rewrite Hrrtv4 by lia. do 5 f_equal. lia. }
  - (* MSM4, MSM6 *)
    cbv beta iota in H.
    match type of H with
    | context [for_loop n ?f (si, siv, ?b0)] =>
        pose proof (pair_loop_spec (fun _ : Z => 0) (fun _ : Z => false)
                      (fun b => b) 0 n si siv b0
                      ltac:(intros k Hk; cbv beta; lia)) as L2;
        loop_as L2 f;
        destruct (for_loop n f (si, siv, b0)) as [[si1 siv1] b2]
    end.
    cbn [fst snd] in L2. destruct L2 as (-> & _ & _ & Hsi1 & Hsiv1 & _ & _).
    cbv beta iota in H.
    match type of H with
    | context [for_loop n ?f (rr1, ?b0)] =>
        pose proof (rough_range_loop_spec buff rv1 n rr1 b0 ltac:(lia) ltac:(lia)) as L3;
        loop_as L3 f;
        destruct (for_loop n f (rr1, b0)) as [rr3 b3]
    end.
    cbn [fst snd] in L3. destruct L3 as (-> & _ & Hrr3 & _).
    cbv beta iota in H.
    match type of H with
    | context [for_loop n ?f (rrt, rrtv, ?b0)] =>
        pose proof (pair_loop_spec (fun _ : Z => 0%float) (fun _ : Z => false)
                      (fun b => b) 0 n rrt rrtv b0
                      ltac:(intros k Hk; cbv beta; lia)) as L4;
        loop_as L4 f;
        destruct (for_loop n f (rrt, rrtv, b0)) as [[rrt4 rrtv4] b4]
    end.
    cbn [fst snd] in L4. destruct L4 as (-> & _ & _ & Hrrt4 & Hrrtv4 & _ & _).
    cbv beta iota in H. injection H as <- <- <- <- <- <- <-.
    split; [lia|]. intros sat Hsat.
    split; [apply Hrv1; lia|]. split.
    { rewrite (Hrr3 sat _ Hsat (Hrr1 sat Hsat ltac:(lia))), (Hrv1 sat Hsat ltac:(lia)).
      replace (bit + 8 * Z.of_nat n + 0 * Z.of_nat n + 10 * Z.of_nat sat)
        with (bit + 8 * num_sats + 10 * Z.of_nat sat) by lia.
      reflexivity. }
    split; [apply Hsi1; lia|]. split; [apply Hsiv1; lia|].
    split; [apply Hrrt4; lia | apply Hrrtv4; lia].
Qed.

(* ------------------------------------------------------------------ *)
(** ** MSM signal block and the decoder as a sequence of blocks *)

(** The loop that clears the flag array leaves it all zero. *)
Lemma flags_clear_loop (n : nat) :
  for_loop n (fun i flags => <[i := flags_data_zero]> flags) (replicate n flags_data_zero)
  = replicate n flags_data_zero.
Proof.
  apply (for_loop_ind (fun _ fl => fl = replicate n flags_data_zero)); [reflexivity|].
  intros j fl Hj ->. apply list_insert_id, lookup_replicate_2. exact Hj.
Qed.

(** Run a cell reader of a hypothesis through [cell_loop_spec], naming
    the arrays it returns and the facts about them. *)
Tactic Notation "step_reader" hyp(H) constr(f) constr(val) constr(upd) constr(w)
    ident(v) ident(fl) ident(Hv) ident(Hf) :=
  match type of H with
  | context [f ?b ?n ?vals ?flags ?bit] =>
      let L := fresh "L" in
      pose proof (cell_loop_spec val upd w (Z.to_nat n) vals flags bit
                    ltac:(lia) ltac:(lia) ltac:(lia)) as L;
      cbv zeta in L;
      match type of L with
      | context [for_loop ?k ?g ?s] =>
          change (for_loop k g s) with (f b n vals flags bit) in L
      end;
      rewrite (Z2Nat.id n) in L by lia;
      let c := fresh "c" in
      destruct (f b n vals flags bit) as [[v fl] c];
      cbn [fst snd] in L;
      destruct L as (-> & _ & _ & Hv & Hf & _);
      cbv beta iota in H
  end.

(** The reader of the half-cycle ambiguity indicators. *)
Lemma decode_msm_hca_indicators_spec buff (n : Z) (hca : list bool) (bit : Z) :
  0 <= bit -> 0 <= n -> bit + n < 65536 ->
  let r := decode_msm_hca_indicators buff n hca bit in
  snd r = bit + n
  /\ length (fst r) = length hca
  /\ (forall i : nat, (i < Z.to_nat n)%nat -> (i < length hca)%nat ->
        fst r !! i = Some (Z2B (rtcm_getbitu buff (bit + Z.of_nat i) 1))).
Proof.
  intros Hbit Hn Hmax. cbv zeta.
  destruct (array_loop_spec (fun (_ : list bool) l => l) (fun l => l)
              (fun p => Z2B (rtcm_getbitu buff p 1)) 1 (Z.to_nat n) hca bit)
    as (l & E & Hlen & Hin & _); try reflexivity; try lia.
  assert (E' : decode_msm_hca_indicators buff n hca bit
               = (l, bit + 1 * Z.of_nat (Z.to_nat n))) by exact E.
  rewrite E'. cbn [fst snd]. split; [lia|]. split; [exact Hlen|].
  intros i Hi Hil. rewrite Hin by assumption. do 3 f_equal. lia.
Qed.

Tactic Notation "step_hca" hyp(H) ident(hca) ident(Hhca) :=
  match type of H with
  | context [decode_msm_hca_indicators ?b ?n ?v ?bit] =>
      let L := fresh "L" in
      pose proof (decode_msm_hca_indicators_spec b n v bit
                    ltac:(lia) ltac:(lia) ltac:(lia)) as L;
      cbv zeta in L;
      let c := fresh "c" in
      destruct (decode_msm_hca_indicators b n v bit) as [hca c];
      cbn [fst snd] in L;
      destruct L as (-> & _ & Hhca);
      cbv beta iota in H
  end.

(** The end of the decoder: name the result of the assembly loops. *)
Tactic Notation "step_assembly" hyp(H) ident(E) :=
  match type of H with
  | context [for_loop ?n ?f ?s] =>
      let m := fresh "m" in
      let fl := fresh "fl'" in
      let i := fresh "i'" in
      destruct (for_loop n f s) as [[m fl] i] eqn:E;
      injection H as <- <-
  end.

(** Unfold the layout vocabulary down to offsets. *)
Ltac msm_layout_unfold :=
  unfold msm_block_flags, msm_fine_pr_ms, msm_fine_pr_ok, msm_fine_pr_field,
    msm_fine_cp_ms, msm_fine_cp_ok, msm_fine_cp_field, msm_lock_time_s, msm_hca_field,
    msm_cnr_value, msm_cnr_ok, msm_cnr_field, msm_fine_rate_m_s, msm_fine_rate_ok,
    msm_fine_rate_field, msm_dop_start, msm_cnr_start, msm_hca_start, msm_lock_start,
    msm_cp_start, msm_pr_start, msm_pr_bits, msm_cp_bits, msm_lock_bits, msm_cnr_bits,
    msm_cell_block_start, msm_range_ok, msm_rate_ok, msm_rough_range_ms,
    msm_rough_rate_m_s, msm_range_ms_field, msm_sat_info_field, msm_rough_pr_field,
    msm_rough_rate_field, msm_header_bits, msm_has_rates, msm_is_extended;
  cbn [msm_enum_eqb orb andb].

Section MsmRun.
Context `{Ext : rtcm_externals}.

Lemma rtcm3_decode_msm_internal_run buff msm_type msg rc out :
  rtcm3_decode_msm_internal buff msm_type msg = (rc, out) ->
  length (Msm.satellite_mask (Msm.header msg)) = MSM_SATELLITE_MASK_SIZE ->
  length (Msm.signal_mask (Msm.header msg)) = MSM_SIGNAL_MASK_SIZE ->
  is_msm4567 msm_type = true ->
  msm_enum_eqb msm_type (to_msm_type (rtcm_getbitu buff 0 12)) = true ->
  cons_eqb RTCM_CONSTELLATION_INVALID (to_constellation (rtcm_getbitu buff 0 12)) = false ->
  let cons := to_constellation (rtcm_getbitu buff 0 12) in
  exists cm,
    let h :=
      spec_msm_header buff cons (msm_buff_satellite_mask buff)
        (msm_buff_signal_mask buff) cm in
    let start := Msm.mk_message h (Msm.sats msg) (Msm.signals msg) in
    length cm = length (Msm.cell_mask (Msm.header msg))
    /\ (forall i : nat,
          Z.of_nat i < u8 (msm_num_sats h * msm_num_sigs h) -> (i < length cm)%nat ->
          cm !! i = Some (Z2B (rtcm_getbitu buff (169 + Z.of_nat i) 1)))
    /\ (forall i : nat,
          u8 (msm_num_sats h * msm_num_sigs h) <= Z.of_nat i ->
          cm !! i = Msm.cell_mask (Msm.header msg) !! i)
    /\ ((rc = RC_INVALID_MESSAGE /\ out = start
         /\ (msm_tow_out_of_range cons (Msm.tow_ms h) = true
             \/ msm_num_sats h * msm_num_sigs h > MSM_MAX_CELLS))
        \/ (rc = RC_OK
            /\ msm_tow_out_of_range cons (Msm.tow_ms h) = false
            /\ msm_num_sats h * msm_num_sigs h <= MSM_MAX_CELLS
            /\ exists rr rrt rv rrtv si siv pr cp lt hca cnr frr fl fl' i',
                 msm_blocks_decoded buff msm_type h rr rrt rv rrtv si siv
                   pr cp lt hca cnr frr fl
                 /\ for_loop (Z.to_nat (msm_num_sats h))
                      (msm_sat_at cons (msm_num_sigs h) rr rrt rv rrtv si siv
                         pr cp lt hca cnr frr)
                      (start, fl, 0)
                    = (out, fl', i'))).
Proof.
  intros H Hlsm Hlgm Hty Hnum Hcons. cbv zeta.
  set (cons := to_constellation (rtcm_getbitu buff 0 12)) in *.
  destruct msg as [hdr sats signals]. destruct hdr.
  cbn [Msm.header Msm.satellite_mask Msm.signal_mask Msm.cell_mask Msm.sats Msm.signals]
    in Hlsm, Hlgm |- *.
  unfold rtcm3_decode_msm_internal in H. rewrite Hty in H. cbn [negb] in H. cbv zeta in H.
  msm_header_simpl_in H. rewrite Hnum in H. fold cons in H. rewrite Hcons in H.
  cbn [negb] in H.
  match type of H with
  | context [rtcm3_read_msm_header buff cons ?h0] =>
      pose proof (rtcm3_read_msm_header_masks buff cons h0 Hlsm Hlgm) as Hhdr
  end.
  cbv zeta in Hhdr. destruct Hhdr as (cm & Eh & Hcm1 & Hcm2 & Hcm3).
  rewrite Eh in H. clear Eh.
  cbn [Msm.cell_mask] in Hcm1, Hcm2, Hcm3.
  exists cm.
  unfold spec_msm_header in H. msm_header_simpl_in H.
  fold (msm_buff_num_sats buff) in H. fold (msm_buff_num_sigs buff) in H.
  set (h := spec_msm_header buff cons (msm_buff_satellite_mask buff)
              (msm_buff_signal_mask buff) cm).
  change (msm_num_sats h) with (msm_buff_num_sats buff).
  change (msm_num_sigs h) with (msm_buff_num_sigs buff).
  change (Msm.tow_ms h) with (spec_msm_tow buff cons).
  pose proof (count_mask_values_range MSM_SATELLITE_MASK_SIZE (msm_buff_satellite_mask buff))
    as Hns.
  pose proof (count_mask_values_range MSM_SIGNAL_MASK_SIZE (msm_buff_signal_mask buff))
    as Hng.
  fold (msm_buff_num_sats buff) in Hns. fold (msm_buff_num_sigs buff) in Hng.
  unfold MSM_SATELLITE_MASK_SIZE, MSM_SIGNAL_MASK_SIZE in Hns, Hng.
  set (NS := msm_buff_num_sats buff) in *. set (NG := msm_buff_num_sigs buff) in *.
  split; [rewrite Hcm1; reflexivity|].
  split; [intros i Hi Hil; apply Hcm2; [exact Hi | rewrite <- Hcm1; exact Hil]|].
  split; [exact Hcm3|].
  rewrite !(u8_small NS), !(u8_small NG) in H by lia.
  destruct (msm_tow_out_of_range cons (spec_msm_tow buff cons)) eqn:Etow.
  { injection H as <- <-. left. split; [reflexivity|]. split; [reflexivity|].
    left. reflexivity. }
  unfold MSM_MAX_CELLS in *.
  destruct (Z.gtb_spec (NS * NG) 64) as [Hgt|Hle].
  { injection H as <- <-. left. split; [reflexivity|]. split; [reflexivity|].
    right. lia. }
  assert (Hprod : 0 <= NS * NG) by nia.
  rewrite !(u8_small (NS * NG)) in H by lia.
  pose proof (count_mask_values_range (Z.to_nat (NS * NG)) cm) as Hnc.
  change (count_mask_values (Z.to_nat (NS * NG)) cm) with (msm_num_cells h) in H, Hnc.
  set (NC := msm_num_cells h) in *.
  rewrite !(u8_small NC) in H by lia.
  rewrite (u16_small (0 + (169 + NS * NG))) in H by lia. rewrite Z.add_0_l in H.
  rewrite flags_clear_loop in H.
  destruct (decode_msm_sat_data _ _ _ _ _ _ _ _ _ _)
    as [[[[[[rr rv] si] siv] rrt] rrtv] b1] eqn:Esat.
  pose proof (decode_msm_sat_data_spec _ _ _ _ _ _ _ _ _ _ _ _ _ _ _ _ _
                Esat ltac:(lia) ltac:(lia) ltac:(lia)
                ltac:(apply length_replicate) ltac:(apply length_replicate)
                ltac:(apply length_replicate) ltac:(apply length_replicate)
                ltac:(apply length_replicate) ltac:(apply length_replicate)) as Hsat.
  clear Esat. cbv zeta in Hsat. destruct Hsat as [-> Hsat].
  match type of H with
  | context [Msm.mk_message ?hh sats signals] => change hh with h in H
  end.
  unfold msm_has_rates in H, Hsat.
  right.
  destruct msm_type; try discriminate Hty;
    cbn [msm_enum_eqb orb] in H, Hsat; cbv iota in H, Hsat.
  - (* MSM4 *)
    step_reader H decode_msm_fine_pseudoranges
      (fun b => PrimFloat.mul (Z2F (s16 (rtcm_getbits buff b 15))) C_1_2P24)
      (fun b f => set_valid_pr f (negb (s16 (rtcm_getbits buff b 15) =? MSM_PR_INVALID)))
      15 pr fl1 Hpr Hfl1.
    step_reader H decode_msm_fine_phaseranges
      (fun b => PrimFloat.mul (Z2F (rtcm_getbits buff b 22)) C_1_2P29)
      (fun b f => set_valid_cp f (negb (rtcm_getbits buff b 22 =? MSM_CP_INVALID)))
      22 cp fl2 Hcp Hfl2.
    step_reader H decode_msm_lock_times
      (fun b => rtcm3_decode_lock_time (u8 (rtcm_getbitu buff b 4)))
      (fun (_ : Z) f => set_valid_lock f true)
      4 lt fl3 Hlt Hfl3.
    step_hca H hca Hhca.
    step_reader H decode_msm_cnrs
      (fun b => Z2F (rtcm_getbitu buff b 6))
      (fun b f => set_valid_cnr f (negb (rtcm_getbitu buff b 6 =? 0)))
      6 cnr fl4 Hcnr Hfl4.
    step_assembly H Eloop.
    split; [reflexivity|]. split; [reflexivity|]. split; [lia|].
    exists rr, rrt, rv, rrtv, si, siv, pr, cp, lt, hca, cnr,
      (replicate (Z.to_nat NC) 0%float), fl4, fl', i'.
    split; [|exact Eloop].
    unfold msm_blocks_decoded. split.
    + intros sat Hs. change (msm_num_sats h) with NS in Hs.
      specialize (Hsat sat ltac:(lia)). msm_layout_unfold.
      change (msm_num_sats h) with NS. change (msm_num_sigs h) with NG.
      exact Hsat.
    + intros j Hj. fold NC in Hj.
      assert (Hj' : (j < Z.to_nat NC)%nat) by lia.
      msm_layout_unfold.
      change (msm_num_sats h) with NS. change (msm_num_sigs h) with NG. fold NC.
      split; [rewrite Hpr by (rewrite ?length_replicate; lia); reflexivity|].
      split; [rewrite Hcp by (rewrite ?length_replicate; lia); reflexivity|].
      split; [rewrite Hlt by (rewrite ?length_replicate; lia); reflexivity|].
      split; [rewrite Hhca by (rewrite ?length_replicate; lia); reflexivity|].
      split; [rewrite Hcnr by (rewrite ?length_replicate; lia); reflexivity|].
      split; [|rewrite lookup_replicate_2 by lia; reflexivity].
      rewrite Hfl4, Hfl3, Hfl2, Hfl1, lookup_replicate_2 by lia. reflexivity.
  - (* MSM5 *)
    step_reader H decode_msm_fine_pseudoranges
      (fun b => PrimFloat.mul (Z2F (s16 (rtcm_getbits buff b 15))) C_1_2P24)
      (fun b f => set_valid_pr f (negb (s16 (rtcm_getbits buff b 15) =? MSM_PR_INVALID)))
      15 pr fl1 Hpr Hfl1.
    step_reader H decode_msm_fine_phaseranges
      (fun b => PrimFloat.mul (Z2F (rtcm_getbits buff b 22)) C_1_2P29)
      (fun b f => set_valid_cp f (negb (rtcm_getbits buff b 22 =? MSM_CP_INVALID)))
      22 cp fl2 Hcp Hfl2.
    step_reader H decode_msm_lock_times
      (fun b => rtcm3_decode_lock_time (u8 (rtcm_getbitu buff b 4)))
      (fun (_ : Z) f => set_valid_lock f true)
      4 lt fl3 Hlt Hfl3.
    step_hca H hca Hhca.
    step_reader H decode_msm_cnrs
      (fun b => Z2F (rtcm_getbitu buff b 6))
      (fun b f => set_valid_cnr f (negb (rtcm_getbitu buff b 6 =? 0)))
      6 cnr fl4 Hcnr Hfl4.
    step_reader H decode_msm_fine_phaserangerates
      (fun b => PrimFloat.mul (Z2F (rtcm_getbits buff b 15)) 0.0001%float)
      (fun b f => set_valid_dop f (negb (rtcm_getbits buff b 15 =? MSM_DOP_INVALID)))
      15 frr fl5 Hfrr Hfl5.
    step_assembly H Eloop.
    split; [reflexivity|]. split; [reflexivity|]. split; [lia|].
    exists rr, rrt, rv, rrtv, si, siv, pr, cp, lt, hca, cnr, frr, fl5, fl', i'.
    split; [|exact Eloop].
    unfold msm_blocks_decoded. split.
    + intros sat Hs. change (msm_num_sats h) with NS in Hs.
      specialize (Hsat sat ltac:(lia)). msm_layout_unfold.
      change (msm_num_sats h) with NS. change (msm_num_sigs h) with NG.
      exact Hsat.
    + intros j Hj. fold NC in Hj.
      assert (Hj' : (j < Z.to_nat NC)%nat) by lia.
      msm_layout_unfold.
      change (msm_num_sats h) with NS. change (msm_num_sigs h) with NG. fold NC.
      split; [rewrite Hpr by (rewrite ?length_replicate; lia); reflexivity|].
      split; [rewrite Hcp by (rewrite ?length_replicate; lia); reflexivity|].
      split; [rewrite Hlt by (rewrite ?length_replicate; lia); reflexivity|].
      split; [rewrite Hhca by (rewrite ?length_replicate; lia); reflexivity|].
      split; [rewrite Hcnr by (rewrite ?length_replicate; lia); reflexivity|].
      split; [|rewrite Hfrr by (rewrite ?length_replicate; lia); reflexivity].
      rewrite Hfl5, Hfl4, Hfl3, Hfl2, Hfl1, lookup_replicate_2 by lia. reflexivity.
  - (* MSM6 *)
    step_reader H decode_msm_fine_pseudoranges_extended
      (fun b => PrimFloat.mul (Z2F (s32 (rtcm_getbitsl buff b 20))) C_1_2P29)
      (fun b f =>
         set_valid_pr f (negb (s32 (rtcm_getbitsl buff b 20) =? MSM_PR_EXT_INVALID)))
      20 pr fl1 Hpr Hfl1.
    step_reader H decode_msm_fine_phaseranges_extended
      (fun b => PrimFloat.mul (Z2F (rtcm_getbits buff b 24)) C_1_2P31)
      (fun b f => set_valid_cp f (negb (rtcm_getbits buff b 24 =? MSM_CP_EXT_INVALID)))
      24 cp fl2 Hcp Hfl2.
    step_reader H decode_msm_lock_times_extended
      (fun b =>
         PrimFloat.div (Z2F (from_msm_lock_ind_ext (u16 (rtcm_getbitu buff b 10))))
           1000%float)
      (fun (_ : Z) f => set_valid_lock f true)
      10 lt fl3 Hlt Hfl3.
    step_hca H hca Hhca.
    step_reader H decode_msm_cnrs_extended
      (fun b => PrimFloat.mul (Z2F (rtcm_getbitu buff b 10)) C_1_2P4)
      (fun b f => set_valid_cnr f (negb (rtcm_getbitu buff b 10 =? 0)))
      10 cnr fl4 Hcnr Hfl4.
    step_assembly H Eloop.
    split; [reflexivity|]. split; [reflexivity|]. split; [lia|].
    exists rr, rrt, rv, rrtv, si, siv, pr, cp, lt, hca, cnr,
      (replicate (Z.to_nat NC) 0%float), fl4, fl', i'.
    split; [|exact Eloop].
    unfold msm_blocks_decoded. split.
    + intros sat Hs. change (msm_num_sats h) with NS in Hs.
      specialize (Hsat sat ltac:(lia)). msm_layout_unfold.
      change (msm_num_sats h) with NS. change (msm_num_sigs h) with NG.
      exact Hsat.
    + intros j Hj. fold NC in Hj.
      assert (Hj' : (j < Z.to_nat NC)%nat) by lia.
      msm_layout_unfold.
      change (msm_num_sats h) with NS. change (msm_num_sigs h) with NG. fold NC.
      split; [rewrite Hpr by (rewrite ?length_replicate; lia); reflexivity|].
      split; [rewrite Hcp by (rewrite ?length_replicate; lia); reflexivity|].
      split; [rewrite Hlt by (rewrite ?length_replicate; lia); reflexivity|].
      split; [rewrite Hhca by (rewrite ?length_replicate; lia); reflexivity|].
      split; [rewrite Hcnr by (rewrite ?length_replicate; lia); reflexivity|].
      split; [|rewrite lookup_replicate_2 by lia; reflexivity].
      rewrite Hfl4, Hfl3, Hfl2, Hfl1, lookup_replicate_2 by lia. reflexivity.
  - (* MSM7 *)
    step_reader H decode_msm_fine_pseudoranges_extended
      (fun b => PrimFloat.mul (Z2F (s32 (rtcm_getbitsl buff b 20))) C_1_2P29)
      (fun b f =>
         set_valid_pr f (negb (s32 (rtcm_getbitsl buff b 20) =? MSM_PR_EXT_INVALID)))
      20 pr fl1 Hpr Hfl1.
    step_reader H decode_msm_fine_phaseranges_extended
      (fun b => PrimFloat.mul (Z2F (rtcm_getbits buff b 24)) C_1_2P31)
      (fun b f => set_valid_cp f (negb (rtcm_getbits buff b 24 =? MSM_CP_EXT_INVALID)))
      24 cp fl2 Hcp Hfl2.
    step_reader H decode_msm_lock_times_extended
      (fun b =>
         PrimFloat.div (Z2F (from_msm_lock_ind_ext (u16 (rtcm_getbitu buff b 10))))
           1000%float)
      (fun (_ : Z) f => set_valid_lock f true)
      10 lt fl3 Hlt Hfl3.
    step_hca H hca Hhca.
    step_reader H decode_msm_cnrs_extended
      (fun b => PrimFloat.mul (Z2F (rtcm_getbitu buff b 10)) C_1_2P4)
      (fun b f => set_valid_cnr f (negb (rtcm_getbitu buff b 10 =? 0)))
      10 cnr fl4 Hcnr Hfl4.
    step_reader H decode_msm_fine_phaserangerates
      (fun b => PrimFloat.mul (Z2F (rtcm_getbits buff b 15)) 0.0001%float)
      (fun b f => set_valid_dop f (negb (rtcm_getbits buff b 15 =? MSM_DOP_INVALID)))
      15 frr fl5 Hfrr Hfl5.
    step_assembly H Eloop.
    split; [reflexivity|]. split; [reflexivity|]. split; [lia|].
    exists rr, rrt, rv, rrtv, si, siv, pr, cp, lt, hca, cnr, frr, fl5, fl', i'.
    split; [|exact Eloop].
    unfold msm_blocks_decoded. split.
    + intros sat Hs. change (msm_num_sats h) with NS in Hs.
      specialize (Hsat sat ltac:(lia)). msm_layout_unfold.
      change (msm_num_sats h) with NS. change (msm_num_sigs h) with NG.
      exact Hsat.
    + intros j Hj. fold NC in Hj.
      assert (Hj' : (j < Z.to_nat NC)%nat) by lia.
      msm_layout_unfold.
      change (msm_num_sats h) with NS. change (msm_num_sigs h) with NG. fold NC.
      split; [rewrite Hpr by (rewrite ?length_replicate; lia); reflexivity|].
      split; [rewrite Hcp by (rewrite ?length_replicate; lia); reflexivity|].
      split; [rewrite Hlt by (rewrite ?length_replicate; lia); reflexivity|].
      split; [rewrite Hhca by (rewrite ?length_replicate; lia); reflexivity|].
      split; [rewrite Hcnr by (rewrite ?length_replicate; lia); reflexivity|].
      split; [|rewrite Hfrr by (rewrite ?length_replicate; lia); reflexivity].
      rewrite Hfl5, Hfl4, Hfl3, Hfl2, Hfl1, lookup_replicate_2 by lia. reflexivity.
Qed.

End MsmRun.

(* ------------------------------------------------------------------ *)
(** ** MSM assembly: the cells and the satellites written *)

Section AssemblyCells.
Context `{Ext : rtcm_externals}.
Variables (cons : rtcm_constellation_t) (num_sigs : Z).
Variables (rough_range_ms rough_rate_m_s : list float).
Variables (rough_range_valid rough_rate_valid : list bool).
Variables (sat_info : list Z) (sat_info_valid : list bool).
Variables (fine_pr_ms fine_cp_ms lock_time : list float) (hca_indicator : list bool).
Variables (cnr fine_range_rate_m_s : list float).
Variables (h : Msm.rtcm_msm_header) (flags0 : list flag_bf).
Variables (signals0 : list Msm.rtcm_msm_signal_data) (sats0 : list Msm.rtcm_msm_sat_data).

#[local] Abbreviation nsig := (Z.to_nat num_sigs).
#[local] Abbreviation signal_at :=
  (fun sat =>
     msm_signal_at num_sigs sat rough_range_ms rough_rate_m_s rough_range_valid
       rough_rate_valid fine_pr_ms fine_cp_ms lock_time hca_indicator cnr
       fine_range_rate_m_s).
#[local] Abbreviation sat_at :=
  (msm_sat_at cons num_sigs rough_range_ms rough_rate_m_s rough_range_valid
     rough_rate_valid sat_info sat_info_valid fine_pr_ms fine_cp_ms lock_time
     hca_indicator cnr fine_range_rate_m_s).
#[local] Abbreviation cell :=
  (msm_cell_assembled rough_range_ms rough_rate_m_s rough_range_valid rough_rate_valid
     fine_pr_ms fine_cp_ms lock_time hca_indicator cnr fine_range_rate_m_s).
#[local] Abbreviation entry :=
  (msm_sat_assembled cons rough_range_ms rough_rate_m_s sat_info sat_info_valid).
#[local] Abbreviation cinv := (msm_cells_inv h nsig (cell flags0) flags0 signals0).
#[local] Abbreviation sinv := (msm_sats_inv entry sats0).

(** A cell that is present is written at the counter as the assembled
    cell, and the counter advances. *)
Lemma msm_signal_at_cell (sat sig : nat) msg flags i :
  Msm.header msg = h ->
  Msm.cell_mask h !! (sat * nsig + sig)%nat = Some true ->
  exists flag,
    signal_at sat sig (msg, flags, i)
    = (Msm.set_signals msg (<[Z.to_nat i := cell flags sat (Z.to_nat i)]> (Msm.signals msg)),
       <[Z.to_nat i := flag]> flags, u8 (i + 1)).
Proof.
  intros Hh Hcell. unfold msm_signal_at, msm_cell_assembled. rewrite Hh, Hcell.
  cbn [default]. cbv zeta.
  generalize (default Msm.signal_data_zero (Msm.signals msg !! Z.to_nat i)).
  generalize (default false (rough_range_valid !! sat)).
  generalize (default false (rough_rate_valid !! sat)).
  generalize (default flags_data_zero (flags !! Z.to_nat i)).
  intros [[] [] [] [] []] [] [] []; cbn [andb valid_pr valid_cp valid_cnr valid_dop];
    cbv beta iota; eexists; reflexivity.
Qed.

(** A cell that is absent changes nothing. *)
Lemma msm_signal_at_skip (sat sig : nat) msg flags i :
  Msm.header msg = h ->
  Msm.cell_mask h !! (sat * nsig + sig)%nat <> Some true ->
  signal_at sat sig (msg, flags, i) = (msg, flags, i).
Proof.
  intros Hh Hcell. unfold msm_signal_at. rewrite Hh.
  destruct (Msm.cell_mask h !! (sat * nsig + sig)%nat) as [[|]|]; cbn [default];
    [contradiction | reflexivity | reflexivity].
Qed.

(** One step of the inner loop keeps the invariant of the cells. *)
Lemma msm_signal_at_cells_inv (sat sig : nat) st :
  (sig < nsig)%nat -> (sat * nsig + sig < 255)%nat ->
  cinv (sat * nsig + sig)%nat st ->
  cinv (Datatypes.S (sat * nsig + sig)) (signal_at sat sig st).
Proof.
  intros Hsig Hk. destruct st as [[msg flags] i].
  intros (Hh & Hi & Hlen & Hfl & Hsg & Hcells).
  set (k := (sat * nsig + sig)%nat) in *.
  pose proof (count_mask_values_range k (Msm.cell_mask h)) as Hrange.
  pose proof (count_mask_values_S k (Msm.cell_mask h)) as HS.
  destruct (decide (Msm.cell_mask h !! k = Some true)) as [Hcell|Hcell].
  - destruct (msm_signal_at_cell sat sig msg flags i Hh Hcell) as (flag & ->).
    rewrite Hcell in HS. simpl in HS.
    unfold msm_cells_inv. cbn [Msm.header Msm.set_signals Msm.signals].
    rewrite u8_small by lia.
    split; [exact Hh|]. split; [lia|]. split; [rewrite length_insert; exact Hlen|].
    split; [|split].
    + intros j Hj. rewrite list_lookup_insert_ne by lia. apply Hfl. lia.
    + intros j Hj. rewrite list_lookup_insert_ne by lia. apply Hsg. lia.
    + intros sat' sig' Hsig' Hlt Hcell' Hidx.
      set (k' := (sat' * nsig + sig')%nat) in *.
      destruct (decide (k' = k)) as [Hkk|Hkk].
      * assert (sat' = sat /\ sig' = sig) as [-> ->]
          by (subst k k'; apply (Nat.div_mod_unique nsig); lia).
        subst k'. fold k. fold k in Hidx. rewrite <- Hi. rewrite <- Hi in Hidx.
        rewrite list_lookup_insert_eq by (rewrite Hlen; exact Hidx).
        unfold msm_cell_assembled. rewrite (Hfl (Z.to_nat i)) by lia. reflexivity.
      * assert (Hlt' : (k' < k)%nat) by lia.
        pose proof (count_mask_values_present k' k _ Hlt' Hcell') as Hpres.
        pose proof (count_mask_values_range k' (Msm.cell_mask h)) as Hrange'.
        rewrite list_lookup_insert_ne by lia.
        apply (Hcells sat' sig' Hsig' Hlt' Hcell' Hidx).
  - rewrite (msm_signal_at_skip sat sig msg flags i Hh Hcell).
    assert (HS' : count_mask_values (Datatypes.S k) (Msm.cell_mask h)
                  = count_mask_values k (Msm.cell_mask h)).
    { rewrite HS. destruct (Msm.cell_mask h !! k) as [[|]|]; simpl;
        [contradiction | lia | lia]. }
    unfold msm_cells_inv.
    split; [exact Hh|]. split; [lia|]. split; [exact Hlen|]. split; [exact Hfl|].
    split; [exact Hsg|].
    intros sat' sig' Hsig' Hlt Hcell' Hidx.
    set (k' := (sat' * nsig + sig')%nat) in *.
    assert (k' <> k) by (intros ->; contradiction).
    apply (Hcells sat' sig' Hsig'); [lia | exact Hcell' | exact Hidx].
Qed.

(** The inner loop leaves the satellites alone. *)
Lemma msm_signal_at_sats (sat sig : nat) st :
  Msm.sats (fst (fst (signal_at sat sig st))) = Msm.sats (fst (fst st)).
Proof.
  destruct st as [[msg flags] i]. unfold msm_signal_at. cbv zeta.
  repeat match goal with
         | |- context [if ?c then _ else _] => destruct c
         end; reflexivity.
Qed.

Lemma msm_signal_loop_sats (sat n : nat) st :
  Msm.sats (fst (fst (for_loop n (signal_at sat) st))) = Msm.sats (fst (fst st)).
Proof.
  apply (for_loop_ind
           (fun _ st' => Msm.sats (fst (fst st')) = Msm.sats (fst (fst st))));
    [reflexivity|].
  intros j st' _ IH. rewrite msm_signal_at_sats. exact IH.
Qed.

(** One step of the outer loop keeps both invariants. *)
Lemma msm_sat_at_cells_inv (sat : nat) st :
  (Datatypes.S sat * nsig <= 255)%nat ->
  cinv (sat * nsig)%nat st -> cinv (Datatypes.S sat * nsig)%nat (sat_at sat st).
Proof.
  intros Hmax Hinv. destruct st as [[msg flags] i]. unfold msm_sat_at. cbv zeta.
  match goal with
  | |- msm_cells_inv _ _ _ _ _ _ (for_loop _ _ (?m, _, _)) =>
      assert (Hstart : cinv (sat * nsig + 0)%nat (m, flags, i))
  end.
  { replace (sat * nsig + 0)%nat with (sat * nsig)%nat by lia. exact Hinv. }
  replace (Datatypes.S sat * nsig)%nat with (sat * nsig + nsig)%nat by lia.
  apply (for_loop_ind (fun sig st' => cinv (sat * nsig + sig)%nat st')).
  - exact Hstart.
  - intros sig st' Hsig Hst'.
    replace (sat * nsig + Datatypes.S sig)%nat
      with (Datatypes.S (sat * nsig + sig)) by lia.
    apply msm_signal_at_cells_inv; [exact Hsig | lia | exact Hst'].
Qed.

Lemma msm_sat_at_sats_inv (sat : nat) st :
  sinv sat st -> sinv (Datatypes.S sat) (sat_at sat st).
Proof.
  destruct st as [[msg flags] i]. unfold msm_sats_inv. cbv zeta. cbn [fst].
  intros (Hlen & Hout & Hin). unfold msm_sat_at. cbv zeta.
  rewrite msm_signal_loop_sats. cbn [fst Msm.sats Msm.set_sats].
  assert (E : forall s0 : Msm.rtcm_msm_sat_data,
            (if cons_eqb RTCM_CONSTELLATION_GLO cons
                && negb (default false (sat_info_valid !! sat))
             then
               Msm.set_glo_fcn
                 (Msm.set_rough_range_rate_m_s
                    (Msm.set_rough_range_ms s0 (default 0%float (rough_range_ms !! sat)))
                    (default 0%float (rough_rate_m_s !! sat)))
                 MSM_GLO_FCN_UNKNOWN
             else
               Msm.set_glo_fcn
                 (Msm.set_rough_range_rate_m_s
                    (Msm.set_rough_range_ms s0 (default 0%float (rough_range_ms !! sat)))
                    (default 0%float (rough_rate_m_s !! sat)))
                 (default 0 (sat_info !! sat)))
            = entry sat).
  { intros []. unfold msm_sat_assembled.
    destruct (cons_eqb RTCM_CONSTELLATION_GLO cons
              && negb (default false (sat_info_valid !! sat))); reflexivity. }
  rewrite E. split; [rewrite length_insert; exact Hlen|]. split.
  - intros s Hs. rewrite list_lookup_insert_ne by lia. apply Hout. lia.
  - intros s Hs Hsl. destruct (decide (sat = s)) as [->|Hne].
    + rewrite list_lookup_insert_eq by lia. reflexivity.
    + rewrite list_lookup_insert_ne by exact Hne. apply Hin; lia.
Qed.

(** The assembly loops as a whole. *)
Lemma msm_assembly_result (ns : nat) msg out fl' i' :
  (ns * nsig <= 255)%nat ->
  Msm.header msg = h -> Msm.signals msg = signals0 -> Msm.sats msg = sats0 ->
  for_loop ns sat_at (msg, flags0, 0) = (out, fl', i') ->
  cinv (ns * nsig)%nat (out, fl', i') /\ sinv ns (out, fl', i').
Proof.
  intros Hmax Hh Hsg Hst E. rewrite <- E. split.
  - apply (for_loop_ind (fun sat st => cinv (sat * nsig)%nat st)).
    + unfold msm_cells_inv. cbn [Nat.mul]. rewrite Hsg.
      repeat split; try reflexivity; try exact Hh. intros; lia.
    + intros sat st Hsat Hst'. apply msm_sat_at_cells_inv; [nia | exact Hst'].
  - apply (for_loop_ind (fun sat st => sinv sat st)).
    + unfold msm_sats_inv. cbn [fst Msm.sats]. rewrite Hst.
      repeat split; try reflexivity. intros; lia.
    + intros sat st Hsat Hst'. apply msm_sat_at_sats_inv. exact Hst'.
Qed.

End AssemblyCells.

(* ------------------------------------------------------------------ *)
(** ** The MSM decoder against the layout *)

Section MsmLayoutFacts.
Context `{Ext : rtcm_externals}.

(** The assembled cell and satellite entry are those of the layout once
    the blocks have been decoded. *)
Lemma msm_cell_assembled_of_buffer buff t h rr rrt rv rrtv si siv pr cp lt hca cnr frr fl
    (sat j : nat) :
  msm_blocks_decoded buff t h rr rrt rv rrtv si siv pr cp lt hca cnr frr fl ->
  Z.of_nat sat < msm_num_sats h -> Z.of_nat j < msm_num_cells h ->
  msm_cell_assembled rr rrt rv rrtv pr cp lt hca cnr frr fl sat j
  = msm_cell_of_buffer buff t h sat j.
Proof.
  intros [Hsats Hcells] Hs Hj.
  destruct (Hsats sat Hs) as (Erv & Err & _ & _ & Errt & Errtv).
  destruct (Hcells j Hj) as (Epr & Ecp & Elt & Ehca & Ecnr & Efl & Efrr).
  unfold msm_cell_assembled, msm_cell_of_buffer.
  rewrite Erv, Err, Errt, Errtv, Epr, Ecp, Elt, Ehca, Ecnr, Efl, Efrr.
  cbn [from_option id]. unfold msm_block_flags, spec_cell_flags.
  cbn [valid_pr valid_cp valid_cnr valid_lock valid_dop].
  unfold msm_rate_ok, msm_fine_rate_ok.
  destruct (msm_has_rates t); cbn [andb]; reflexivity.
Qed.

Lemma msm_sat_assembled_of_buffer buff t cons h rr rrt rv rrtv si siv pr cp lt hca cnr frr fl
    (sat : nat) :
  msm_blocks_decoded buff t h rr rrt rv rrtv si siv pr cp lt hca cnr frr fl ->
  Z.of_nat sat < msm_num_sats h ->
  msm_sat_assembled cons rr rrt si siv sat = msm_sat_of_buffer buff t cons h sat.
Proof.
  intros [Hsats _] Hs.
  destruct (Hsats sat Hs) as (_ & Err & Esi & Esiv & Errt & _).
  unfold msm_sat_assembled, msm_sat_of_buffer.
  rewrite Err, Esi, Esiv, Errt. cbn [from_option id]. reflexivity.
Qed.

(** What [rtcm3_decode_msm_internal] leaves in a record whose masks have
    the sizes of the C type, when it returns [RC_OK]: the header of the
    layout with the masks of the buffer, a time of week in range and at
    most [MSM_MAX_CELLS] mask positions; the satellites and the cells of
    the layout; and nothing else touched. *)
Lemma rtcm3_decode_msm_internal_layout buff t msg out :
  rtcm3_decode_msm_internal buff t msg = (RC_OK, out) ->
  length (Msm.satellite_mask (Msm.header msg)) = MSM_SATELLITE_MASK_SIZE ->
  length (Msm.signal_mask (Msm.header msg)) = MSM_SIGNAL_MASK_SIZE ->
  let h := Msm.header out in
  let cons := to_constellation (rtcm_getbitu buff 0 12) in
  (exists cm,
     h = spec_msm_header buff cons (msm_buff_satellite_mask buff)
           (msm_buff_signal_mask buff) cm
     /\ length cm = length (Msm.cell_mask (Msm.header msg))
     /\ (forall i : nat,
           Z.of_nat i < msm_num_sats h * msm_num_sigs h -> (i < length cm)%nat ->
           cm !! i = Some (Z2B (rtcm_getbitu buff (169 + Z.of_nat i) 1)))
     /\ (forall i : nat,
           msm_num_sats h * msm_num_sigs h <= Z.of_nat i ->
           cm !! i = Msm.cell_mask (Msm.header msg) !! i))
  /\ msm_tow_out_of_range cons (Msm.tow_ms h) = false
  /\ msm_num_sats h * msm_num_sigs h <= MSM_MAX_CELLS
  /\ length (Msm.signals out) = length (Msm.signals msg)
  /\ length (Msm.sats out) = length (Msm.sats msg)
  /\ (forall j : nat,
        msm_num_cells h <= Z.of_nat j -> Msm.signals out !! j = Msm.signals msg !! j)
  /\ (forall s : nat,
        msm_num_sats h <= Z.of_nat s -> Msm.sats out !! s = Msm.sats msg !! s)
  /\ (forall s : nat,
        Z.of_nat s < msm_num_sats h -> (s < length (Msm.sats msg))%nat ->
        Msm.sats out !! s = Some (msm_sat_of_buffer buff t cons h s))
  /\ (forall sat sig : nat,
        msm_cell_present h sat sig ->
        (msm_cell_index h sat sig < length (Msm.signals msg))%nat ->
        Msm.signals out !! msm_cell_index h sat sig
        = Some (msm_cell_of_buffer buff t h sat (msm_cell_index h sat sig))).
Proof.
  intros H Hlsm Hlgm.
  destruct (rtcm3_decode_msm_internal_ok_checks _ _ _ _ H) as (Hty & Hnum & Hcons).
  destruct (rtcm3_decode_msm_internal_run _ _ _ _ _ H Hlsm Hlgm Hty Hnum Hcons)
    as (cm & Hcm1 & Hcm2 & Hcm3 & Hcases).
  cbv zeta in Hcm2, Hcm3, Hcases |- *.
  set (cons := to_constellation (rtcm_getbitu buff 0 12)) in *.
  set (h := spec_msm_header buff cons (msm_buff_satellite_mask buff)
              (msm_buff_signal_mask buff) cm) in *.
  destruct Hcases as [(Hrc & _) | (_ & Htow & Hle & Hrun)]; [discriminate|].
  destruct Hrun as (rr & rrt & rv & rrtv & si & siv & pr & cp & lt & hca & cnr & frr
                    & fl & fl' & i' & Hblocks & Eloop).
  pose proof (count_mask_values_range MSM_SATELLITE_MASK_SIZE (Msm.satellite_mask h)) as Hns.
  pose proof (count_mask_values_range MSM_SIGNAL_MASK_SIZE (Msm.signal_mask h)) as Hng.
  fold (msm_num_sats h) in Hns. fold (msm_num_sigs h) in Hng.
  unfold MSM_MAX_CELLS, MSM_SATELLITE_MASK_SIZE, MSM_SIGNAL_MASK_SIZE in Hle, Hns, Hng.
  assert (Hprod : (Z.to_nat (msm_num_sats h) * Z.to_nat (msm_num_sigs h))%nat
                  = Z.to_nat (msm_num_sats h * msm_num_sigs h))
    by (rewrite Z2Nat.inj_mul; lia).
  destruct (msm_assembly_result cons (msm_num_sigs h) rr rrt rv rrtv si siv pr cp lt hca
              cnr frr h fl (Msm.signals msg) (Msm.sats msg)
              (Z.to_nat (msm_num_sats h))
              (Msm.mk_message h (Msm.sats msg) (Msm.signals msg)) out fl' i'
              ltac:(nia) eq_refl eq_refl eq_refl Eloop) as [Hc Hs].
  destruct Hc as (Hh & Hi & Hlen & _ & Hsg & Hcells).
  destruct Hs as (Hslen & Hsout & Hsin). cbn [fst] in Hslen, Hsout, Hsin.
  rewrite Hh. rewrite Hprod in Hi.
  assert (Hi' : i' = msm_num_cells h) by exact Hi.
  rewrite (u8_small (msm_num_sats h * msm_num_sigs h)) in Hcm2, Hcm3 by nia.
  split.
  { exists cm. split; [reflexivity|]. split; [exact Hcm1|]. split; assumption. }
  split; [exact Htow|]. split; [exact Hle|]. split; [exact Hlen|]. split; [exact Hslen|].
  split; [intros j Hj; apply Hsg; lia|].
  split; [intros s Hs; apply Hsout; lia|].
  split.
  { intros s Hs Hsl. rewrite Hsin by lia.
    f_equal. eapply msm_sat_assembled_of_buffer; [exact Hblocks | exact Hs]. }
  intros sat sig (Hs & Hg & Hbit) Hidx. unfold msm_cell_index in *.
  assert (Hk : (sat * Z.to_nat (msm_num_sigs h) + sig
                < Z.to_nat (msm_num_sats h * msm_num_sigs h))%nat).
  { rewrite <- Hprod.
    apply Nat.lt_le_trans with ((sat + 1) * Z.to_nat (msm_num_sigs h))%nat;
      [lia | apply Nat.mul_le_mono_r; lia]. }
  rewrite (Hcells sat sig ltac:(lia) ltac:(lia) Hbit Hidx).
  f_equal. eapply msm_cell_assembled_of_buffer; [exact Hblocks | exact Hs |].
  pose proof (count_mask_values_present _ _ _ Hk Hbit) as Hpres.
  pose proof (count_mask_values_range (sat * Z.to_nat (msm_num_sigs h) + sig)
                (Msm.cell_mask h)) as Hr.
  unfold msm_num_cells. lia.
Qed.

End MsmLayoutFacts.

(* ------------------------------------------------------------------ *)
(** ** The MSM decoder: return code, layout and invariants *)

Section MsmSized.
Context `{Ext : rtcm_externals}.

(** The bounds that a decoded MSM record of the C sizes satisfies. *)
Lemma msm_decoded_bounds buff t msg out :
  rtcm3_decode_msm_internal buff t msg = (RC_OK, out) ->
  msm_record_sized msg ->
  0 <= msm_num_cells (Msm.header out)
  /\ msm_num_cells (Msm.header out)
     <= msm_num_sats (Msm.header out) * msm_num_sigs (Msm.header out)
  /\ msm_num_sats (Msm.header out) * msm_num_sigs (Msm.header out) <= MSM_MAX_CELLS
  /\ 0 <= msm_num_sats (Msm.header out) <= 64
  /\ 0 <= msm_num_sigs (Msm.header out) <= 32.
Proof.
  intros H (Hlsm & Hlgm & _).
  destruct (rtcm3_decode_msm_internal_layout _ _ _ _ H Hlsm Hlgm)
    as (_ & _ & Hle & _).
  cbv zeta in Hle.
  pose proof (count_mask_values_range MSM_SATELLITE_MASK_SIZE
                (Msm.satellite_mask (Msm.header out))) as Hns.
  pose proof (count_mask_values_range MSM_SIGNAL_MASK_SIZE
                (Msm.signal_mask (Msm.header out))) as Hng.
  pose proof (count_mask_values_range
                (Z.to_nat (msm_num_sats (Msm.header out) * msm_num_sigs (Msm.header out)))
                (Msm.cell_mask (Msm.header out))) as Hnc.
  fold (msm_num_sats (Msm.header out)) in Hns.
  fold (msm_num_sigs (Msm.header out)) in Hng.
  fold (msm_num_cells (Msm.header out)) in Hnc.
  unfold MSM_SATELLITE_MASK_SIZE, MSM_SIGNAL_MASK_SIZE in Hns, Hng.
  repeat split; try lia; try exact Hle.
Qed.

(** The index of a present cell is below the cell count. *)
Lemma msm_cell_index_bound (h : Msm.rtcm_msm_header) (sat sig : nat) :
  0 <= msm_num_sats h -> 0 <= msm_num_sigs h ->
  msm_cell_present h sat sig ->
  Z.of_nat (msm_cell_index h sat sig) < msm_num_cells h.
Proof.
  intros Hns Hng (Hs & Hg & Hbit). unfold msm_cell_index, msm_num_cells.
  assert (Hk : (sat * Z.to_nat (msm_num_sigs h) + sig
                < Z.to_nat (msm_num_sats h * msm_num_sigs h))%nat).
  { rewrite Z2Nat.inj_mul by lia.
    apply Nat.lt_le_trans with ((sat + 1) * Z.to_nat (msm_num_sigs h))%nat;
      [lia | apply Nat.mul_le_mono_r; lia]. }
  pose proof (count_mask_values_present _ _ _ Hk Hbit) as Hpres.
  pose proof (count_mask_values_range (sat * Z.to_nat (msm_num_sigs h) + sig)
                (Msm.cell_mask h)) as Hr.
  lia.
Qed.

(** A present cell of a decoded record of the C sizes is the cell of the
    layout. *)
Lemma msm_present_cell_layout buff t msg out (sat sig : nat) :
  rtcm3_decode_msm_internal buff t msg = (RC_OK, out) ->
  msm_record_sized msg ->
  msm_cell_present (Msm.header out) sat sig ->
  Msm.signals out !! msm_cell_index (Msm.header out) sat sig
  = Some (msm_cell_of_buffer buff t (Msm.header out) sat
            (msm_cell_index (Msm.header out) sat sig)).
Proof.
  intros H Hsized Hcell.
  destruct (msm_decoded_bounds _ _ _ _ H Hsized) as (Hnc0 & Hnc & Hle & Hns & Hng).
  pose proof (msm_cell_index_bound (Msm.header out) sat sig ltac:(lia) ltac:(lia) Hcell) as Hidx.
  destruct Hsized as (Hlsm & Hlgm & _ & _ & Hlsig).
  destruct (rtcm3_decode_msm_internal_layout _ _ _ _ H Hlsm Hlgm)
    as (_ & _ & _ & _ & _ & _ & _ & _ & Hcells).
  cbv zeta in Hcells. apply Hcells; [exact Hcell|].
  rewrite Hlsig. unfold MSM_MAX_CELLS in *. lia.
Qed.

Lemma msm_satellite_layout buff t msg out (s : nat) :
  rtcm3_decode_msm_internal buff t msg = (RC_OK, out) ->
  msm_record_sized msg ->
  Z.of_nat s < msm_num_sats (Msm.header out) ->
  Msm.sats out !! s
  = Some (msm_sat_of_buffer buff t (to_constellation (rtcm_getbitu buff 0 12))
            (Msm.header out) s).
Proof.
  intros H Hsized Hs.
  destruct (msm_decoded_bounds _ _ _ _ H Hsized) as (_ & _ & _ & Hns & _).
  destruct Hsized as (Hlsm & Hlgm & _ & Hlsat & _).
  destruct (rtcm3_decode_msm_internal_layout _ _ _ _ H Hlsm Hlgm)
    as (_ & _ & _ & _ & _ & _ & _ & Hsats & _).
  cbv zeta in Hsats. apply Hsats; [exact Hs|].
  rewrite Hlsat. unfold MSM_MAX_CELLS. lia.
Qed.

End MsmSized.



(** An MSM message decoded with [RC_OK] into a record of the C sizes:
    the header holds the scalar fields of the layout, the 64 satellite-mask
    bits from bit 73, the 32 signal-mask bits from bit 137 and, in the
    first [num_sats * num_sigs] entries of the cell mask, the bits from bit
    169; the number of cells is at most [num_sats * num_sigs], which is at
    most [MSM_MAX_CELLS]; the time of week is in range; and the arrays keep
    their lengths and every entry from the satellite count, the cell count
    and the cell-mask size on. *)
Theorem msm_record_frame `{Ext : rtcm_externals}
    (buff : list Byte.byte) (t : msm_enum) (msg out : Msm.rtcm_msm_message) :
  rtcm3_decode_msm_internal buff t msg = (RC_OK, out) ->
  msm_record_sized msg ->
  let h := Msm.header out in
  let cons := to_constellation (rtcm_getbitu buff 0 12) in
  h = spec_msm_header buff cons (msm_buff_satellite_mask buff)
        (msm_buff_signal_mask buff) (Msm.cell_mask h)
  /\ (forall i : nat,
        Z.of_nat i < msm_num_sats h * msm_num_sigs h ->
        Msm.cell_mask h !! i = Some (Z2B (rtcm_getbitu buff (169 + Z.of_nat i) 1)))
  /\ (forall i : nat,
        msm_num_sats h * msm_num_sigs h <= Z.of_nat i ->
        Msm.cell_mask h !! i = Msm.cell_mask (Msm.header msg) !! i)
  /\ 0 <= msm_num_cells h <= msm_num_sats h * msm_num_sigs h
  /\ msm_num_sats h * msm_num_sigs h <= MSM_MAX_CELLS
  /\ msm_tow_out_of_range cons (Msm.tow_ms h) = false
  /\ msm_record_sized out
  /\ (forall j : nat,
        msm_num_cells h <= Z.of_nat j -> Msm.signals out !! j = Msm.signals msg !! j)
  /\ (forall s : nat,
        msm_num_sats h <= Z.of_nat s -> Msm.sats out !! s = Msm.sats msg !! s).
Proof.
  intros H Hsized. cbv zeta.
  destruct (msm_decoded_bounds _ _ _ _ H Hsized) as (Hnc0 & Hnc & Hle & Hns & Hng).
  pose proof Hsized as (Hlsm & Hlgm & Hlcm & Hlsat & Hlsig).
  destruct (rtcm3_decode_msm_internal_layout _ _ _ _ H Hlsm Hlgm)
    as ((cm & Hh & Hcm1 & Hcm2 & Hcm3) & Htow & _ & Hlen & Hslen & Hsg & Hst & _).
  cbv zeta in Hh, Hcm2, Hcm3, Htow, Hsg, Hst.
  assert (Ecm : Msm.cell_mask (Msm.header out) = cm) by (rewrite Hh; reflexivity).
  rewrite Ecm. split; [exact Hh|]. split.
  { intros i Hi. apply Hcm2; [exact Hi|]. rewrite Hcm1, Hlcm.
    unfold MSM_MAX_CELLS in *. lia. }
  split; [exact Hcm3|]. split; [lia|]. split; [exact Hle|]. split; [exact Htow|].
  split.
  { unfold msm_record_sized. rewrite Ecm, Hcm1, Hlen, Hslen.
    rewrite Hh at 1 2. cbn [spec_msm_header Msm.satellite_mask Msm.signal_mask].
    unfold msm_buff_satellite_mask, msm_buff_signal_mask. rewrite !buff_mask_length.
    repeat split; assumption. }
  split; assumption.
Qed.

Lemma msm_record_frame_witness :
  let out := snd (@rtcm3_decode_msm_internal spec_externals buff_msm4 MSM4 msm_message_zero) in
  take 4 (Msm.cell_mask (Msm.header out)) = [true; false; true; true]
  /\ msm_num_cells (Msm.header out) = 3
  /\ Msm.signals out !! 3%nat = Some Msm.signal_data_zero
  /\ Msm.sats out !! 2%nat = Some Msm.sat_data_zero.
Proof.
  intros out.
  destruct (@msm_record_frame spec_externals buff_msm4 MSM4 msm_message_zero out)
    as (_ & _ & _ & _ & _ & _ & _ & Hsg & Hst).
  { vm_compute. reflexivity. }
  { repeat split. }
  split; [vm_compute; reflexivity|]. split; [vm_compute; reflexivity|]. split.
  - rewrite (Hsg 3%nat) by (vm_compute; discriminate). reflexivity.
  - rewrite (Hst 2%nat) by (vm_compute; discriminate). reflexivity.
Defined.

(** Satellite [s] of an MSM message decoded with [RC_OK] is the entry of
    the layout.  Its rough range is the 8-bit integer milliseconds plus the
    10-bit fraction over 1024, or the integer milliseconds alone, that is
    255, when they are the sentinel; MSM5 and MSM7 take the rough range
    rate and [glo_fcn] from the 14-bit and 4-bit fields, while MSM4 and
    MSM6 give the rate 0 and the channel 0, or [MSM_GLO_FCN_UNKNOWN] for
    GLONASS. *)
Theorem msm_satellites_decoded `{Ext : rtcm_externals}
    (buff : list Byte.byte) (t : msm_enum) (msg out : Msm.rtcm_msm_message) (s : nat) :
  rtcm3_decode_msm_internal buff t msg = (RC_OK, out) ->
  msm_record_sized msg ->
  Z.of_nat s < msm_num_sats (Msm.header out) ->
  let cons := to_constellation (rtcm_getbitu buff 0 12) in
  Msm.sats out !! s = Some (msm_sat_of_buffer buff t cons (Msm.header out) s)
  /\ msm_has_rates t = negb (msm_enum_eqb MSM4 t || msm_enum_eqb MSM6 t)
  /\ (if msm_range_ok buff (Msm.header out) s then True
      else Msm.rough_range_ms (msm_sat_of_buffer buff t cons (Msm.header out) s)
           = Z2F MSM_ROUGH_RANGE_INVALID).
Proof.
  intros H Hsized Hs. cbv zeta.
  split; [exact (msm_satellite_layout _ _ _ _ _ H Hsized Hs)|].
  destruct (rtcm3_decode_msm_internal_ok_checks _ _ _ _ H) as (Hty & _).
  split; [destruct t; try discriminate Hty; reflexivity|].
  unfold msm_sat_of_buffer, msm_rough_range_ms. cbn [Msm.rough_range_ms].
  unfold msm_range_ok.
  destruct (Z.eqb_spec MSM_ROUGH_RANGE_INVALID
              (msm_range_ms_field buff (Msm.header out) s)) as [E|E]; cbn [negb];
    [rewrite <- E; reflexivity | exact I].
Qed.

Lemma msm_satellites_decoded_witness :
  Msm.sats (snd (@rtcm3_decode_msm_internal spec_externals buff_msm5_glo MSM5
                   msm_message_zero)) !! 0%nat
  = Some (Msm.mk_sat_data 9 70.5%float 100%float)
  /\ Msm.sats (snd (@rtcm3_decode_msm_internal spec_externals buff_msm4_glo MSM4
                      msm_message_zero)) !! 0%nat
     = Some (Msm.mk_sat_data 255 70.5%float 0%float)
  /\ Msm.sats (snd (@rtcm3_decode_msm_internal spec_externals buff_msm4 MSM4
                      msm_message_zero)) !! 0%nat
     = Some (Msm.mk_sat_data 0 255%float 0%float).
Proof.
  split; [|split].
  - destruct (@msm_satellites_decoded spec_externals buff_msm5_glo MSM5 msm_message_zero
                (snd (@rtcm3_decode_msm_internal spec_externals buff_msm5_glo MSM5
                        msm_message_zero)) 0%nat) as [E _].
    { vm_compute. reflexivity. } { repeat split. } { vm_compute. reflexivity. }
    rewrite E. vm_compute. reflexivity.
  - destruct (@msm_satellites_decoded spec_externals buff_msm4_glo MSM4 msm_message_zero
                (snd (@rtcm3_decode_msm_internal spec_externals buff_msm4_glo MSM4
                        msm_message_zero)) 0%nat) as [E _].
    { vm_compute. reflexivity. } { repeat split. } { vm_compute. reflexivity. }
    rewrite E. vm_compute. reflexivity.
  - destruct (@msm_satellites_decoded spec_externals buff_msm4 MSM4 msm_message_zero
                (snd (@rtcm3_decode_msm_internal spec_externals buff_msm4 MSM4
                        msm_message_zero)) 0%nat) as [E _].
    { vm_compute. reflexivity. } { repeat split. } { vm_compute. reflexivity. }
    rewrite E. vm_compute. reflexivity.
Defined.

(** The cell of satellite [sat] and signal [sig], when present in the
    cell mask of an MSM message decoded with [RC_OK], is the cell of the
    layout at its index: its seven fields are determined by the buffer, and
    nothing of the caller's entry survives. *)
Theorem msm_cells_decoded `{Ext : rtcm_externals}
    (buff : list Byte.byte) (t : msm_enum) (msg out : Msm.rtcm_msm_message)
    (sat sig : nat) :
  rtcm3_decode_msm_internal buff t msg = (RC_OK, out) ->
  msm_record_sized msg ->
  msm_cell_present (Msm.header out) sat sig ->
  let j := msm_cell_index (Msm.header out) sat sig in
  Z.of_nat j < msm_num_cells (Msm.header out)
  /\ Msm.signals out !! j = Some (msm_cell_of_buffer buff t (Msm.header out) sat j).
Proof.
  intros H Hsized Hcell. cbv zeta.
  destruct (msm_decoded_bounds _ _ _ _ H Hsized) as (_ & _ & _ & Hns & Hng).
  split; [apply msm_cell_index_bound; [lia | lia | exact Hcell]|].
  exact (msm_present_cell_layout _ _ _ _ _ _ H Hsized Hcell).
Qed.

Lemma msm_cells_decoded_witness :
  Msm.signals (snd (@rtcm3_decode_msm_internal spec_externals buff_msm5_glo MSM5
                      msm_message_zero)) !! 0%nat
  = Some (Msm.mk_signal_data
            (PrimFloat.add 70.5%float (PrimFloat.mul 100%float C_1_2P24))
            (PrimFloat.add 70.5%float (PrimFloat.mul 2000%float C_1_2P29))
            0.512%float true 40%float
            (mk_flag_bf true true true true true)
            (PrimFloat.add 100%float (PrimFloat.mul 50%float 0.0001%float))).
Proof.
  destruct (@msm_cells_decoded spec_externals buff_msm5_glo MSM5 msm_message_zero
              (snd (@rtcm3_decode_msm_internal spec_externals buff_msm5_glo MSM5
                      msm_message_zero)) 0%nat 0%nat) as [_ E].
  { vm_compute. reflexivity. } { repeat split. }
  { repeat split; vm_compute; reflexivity. }
  cbv zeta in E.
  change (msm_cell_index _ 0 0) with 0%nat in E.
  rewrite E. vm_compute. reflexivity.
Defined.

(** In an MSM message decoded with [RC_OK], an observable of a present
    cell that is flagged invalid is zero: the pseudorange, the carrier
    phase, the CNR and the range rate are each 0.0 unless their validity
    bit is set. *)
Theorem msm_invalid_observables_zeroed `{Ext : rtcm_externals}
    (buff : list Byte.byte) (t : msm_enum) (msg out : Msm.rtcm_msm_message)
    (sat sig : nat) :
  rtcm3_decode_msm_internal buff t msg = (RC_OK, out) ->
  msm_record_sized msg ->
  msm_cell_present (Msm.header out) sat sig ->
  exists c,
    Msm.signals out !! msm_cell_index (Msm.header out) sat sig = Some c
    /\ msm_cell_zeroed c.
Proof.
  intros H Hsized Hcell.
  eexists. split; [exact (msm_present_cell_layout _ _ _ _ _ _ H Hsized Hcell)|].
  unfold msm_cell_zeroed, msm_cell_of_buffer.
  cbn [Msm.flags Msm.pseudorange_ms Msm.carrier_phase_ms Msm.cnr Msm.range_rate_m_s
       valid_pr valid_cp valid_cnr valid_dop].
  repeat match goal with
         | |- context [if ?b then True else _] => destruct b
         end; repeat split.
Qed.

Lemma msm_invalid_observables_zeroed_witness :
  exists c,
    Msm.signals (snd (@rtcm3_decode_msm_internal spec_externals buff_msm4 MSM4
                        msm_message_zero)) !! 0%nat = Some c
    /\ msm_cell_zeroed c
    /\ valid_pr (Msm.flags c) = false
    /\ Msm.pseudorange_ms c = 0%float.
Proof.
  destruct (@msm_invalid_observables_zeroed spec_externals buff_msm4 MSM4 msm_message_zero
              (snd (@rtcm3_decode_msm_internal spec_externals buff_msm4 MSM4
                      msm_message_zero)) 0%nat 0%nat) as (c & Hc & Hz).
  { vm_compute. reflexivity. } { repeat split. }
  { repeat split; vm_compute; reflexivity. }
  change (msm_cell_index _ 0 0) with 0%nat in Hc.
  exists c. split; [exact Hc|]. split; [exact Hz|].
  assert (E : Msm.signals (snd (@rtcm3_decode_msm_internal spec_externals buff_msm4 MSM4
                                  msm_message_zero)) !! 0%nat
              = Some (Msm.mk_signal_data 0%float 0%float 0.512%float false 40%float
                        (mk_flag_bf false false true true false) 0%float))
    by (vm_compute; reflexivity).
  rewrite E in Hc. injection Hc as <-. split; reflexivity.
Defined.

(** MSM4 and MSM6 carry no rates: in such a message decoded with [RC_OK]
    every present cell has [valid_dop = false] and the range rate 0.0, and
    its satellite has the rough range rate 0.0 and the frequency channel
    [MSM_GLO_FCN_UNKNOWN] for GLONASS and 0 for the other constellations. *)
Theorem msm46_no_range_rate `{Ext : rtcm_externals}
    (buff : list Byte.byte) (t : msm_enum) (msg out : Msm.rtcm_msm_message)
    (sat sig : nat) :
  t = MSM4 \/ t = MSM6 ->
  rtcm3_decode_msm_internal buff t msg = (RC_OK, out) ->
  msm_record_sized msg ->
  msm_cell_present (Msm.header out) sat sig ->
  exists c e,
    Msm.signals out !! msm_cell_index (Msm.header out) sat sig = Some c
    /\ valid_dop (Msm.flags c) = false
    /\ Msm.range_rate_m_s c = 0%float
    /\ Msm.sats out !! sat = Some e
    /\ Msm.rough_range_rate_m_s e = 0%float
    /\ Msm.glo_fcn e
       = (if cons_eqb RTCM_CONSTELLATION_GLO (to_constellation (rtcm_getbitu buff 0 12))
          then MSM_GLO_FCN_UNKNOWN else 0).
Proof.
  intros Ht H Hsized Hcell.
  assert (Hrates : msm_has_rates t = false) by (destruct Ht as [-> | ->]; reflexivity).
  pose proof Hcell as (Hs & _).
  do 2 eexists.
  split; [exact (msm_present_cell_layout _ _ _ _ _ _ H Hsized Hcell)|].
  unfold msm_cell_of_buffer, msm_rate_ok.
  cbn [Msm.flags Msm.range_rate_m_s valid_dop]. rewrite Hrates. cbn [andb].
  split; [reflexivity|]. split; [reflexivity|].
  split; [exact (msm_satellite_layout _ _ _ _ _ H Hsized Hs)|].
  unfold msm_sat_of_buffer, msm_rough_rate_m_s.
  cbn [Msm.rough_range_rate_m_s Msm.glo_fcn]. rewrite Hrates. cbn [negb].
  split; [reflexivity|]. rewrite andb_true_r. reflexivity.
Qed.

Lemma msm46_no_range_rate_witness :
  exists c e,
    Msm.signals (snd (@rtcm3_decode_msm_internal spec_externals buff_msm4_glo MSM4
                        msm_message_zero)) !! 0%nat = Some c
    /\ valid_dop (Msm.flags c) = false
    /\ Msm.range_rate_m_s c = 0%float
    /\ Msm.sats (snd (@rtcm3_decode_msm_internal spec_externals buff_msm4_glo MSM4
                        msm_message_zero)) !! 0%nat = Some e
    /\ Msm.rough_range_rate_m_s e = 0%float
    /\ Msm.glo_fcn e = 255.
Proof.
  apply (@msm46_no_range_rate spec_externals buff_msm4_glo MSM4 msm_message_zero
           (snd (@rtcm3_decode_msm_internal spec_externals buff_msm4_glo MSM4
                   msm_message_zero)) 0%nat 0%nat).
  - left. reflexivity.
  - vm_compute. reflexivity.
  - repeat split.
  - repeat split; vm_compute; reflexivity.
Defined.

(* ------------------------------------------------------------------ *)
(** ** MSM: the Beidou time of week *)

(** The time of week of a Beidou MSM message whose masks span at most
    [MSM_MAX_CELLS] cells.  The 30-bit field passes unchanged up to
    [RTCM_MAX_TOW_MS]; its last 14000 values are taken as the last 14
    seconds of the week, the field [2^30 - 1] being [RTCM_MAX_TOW_MS]; and
    every value in between is refused with [RC_INVALID_MESSAGE]. *)
Theorem msm_bds_tow_window `{Ext : rtcm_externals}
    (buff : list Byte.byte) (t : msm_enum) (msg : Msm.rtcm_msm_message) :
  length (Msm.satellite_mask (Msm.header msg)) = MSM_SATELLITE_MASK_SIZE ->
  length (Msm.signal_mask (Msm.header msg)) = MSM_SIGNAL_MASK_SIZE ->
  is_msm4567 t = true ->
  to_msm_type (rtcm_getbitu buff 0 12) = t ->
  to_constellation (rtcm_getbitu buff 0 12) = RTCM_CONSTELLATION_BDS ->
  msm_buff_num_sats buff * msm_buff_num_sigs buff <= MSM_MAX_CELLS ->
  let raw := rtcm_getbitu buff 24 30 in
  let r := rtcm3_decode_msm_internal buff t msg in
  fst r
  = (if (RTCM_MAX_TOW_MS <? raw) && (raw <? C_2P30 - BDS_SECOND_TO_GPS_SECOND * 1000)
     then RC_INVALID_MESSAGE else RC_OK)
  /\ (fst r = RC_OK ->
      Msm.tow_ms (Msm.header (snd r))
      = (if raw <=? RTCM_MAX_TOW_MS then raw else RTCM_MAX_TOW_MS - (C_2P30 - 1 - raw))
      /\ 0 <= Msm.tow_ms (Msm.header (snd r)) <= RTCM_MAX_TOW_MS
      /\ (RTCM_MAX_TOW_MS < raw ->
          RTCM_MAX_TOW_MS - BDS_SECOND_TO_GPS_SECOND * 1000
          < Msm.tow_ms (Msm.header (snd r)))).
Proof.
  intros Hlsm Hlgm Hty Hnum Hcons Hcells raw r. subst r.
  pose proof (rtcm_getbitu_range buff 24 30 ltac:(lia)) as Hraw. fold raw in Hraw.
  change (2 ^ 30) with 1073741824 in Hraw.
  destruct (rtcm3_decode_msm_internal buff t msg) as [rc out] eqn:H. cbn [fst snd].
  assert (Hnum' : msm_enum_eqb t (to_msm_type (rtcm_getbitu buff 0 12)) = true)
    by (rewrite Hnum; apply msm_enum_eqb_refl).
  assert (Hcons' : cons_eqb RTCM_CONSTELLATION_INVALID
                     (to_constellation (rtcm_getbitu buff 0 12)) = false)
    by (rewrite Hcons; reflexivity).
  destruct (rtcm3_decode_msm_internal_run _ _ _ _ _ H Hlsm Hlgm Hty Hnum' Hcons')
    as (cm & _ & _ & _ & Hcases).
  cbv zeta in Hcases. rewrite Hcons in Hcases.
  change (Msm.tow_ms (spec_msm_header buff RTCM_CONSTELLATION_BDS
                        (msm_buff_satellite_mask buff) (msm_buff_signal_mask buff) cm))
    with (spec_bds_tow raw) in Hcases.
  change (msm_num_sats (spec_msm_header buff RTCM_CONSTELLATION_BDS
                          (msm_buff_satellite_mask buff) (msm_buff_signal_mask buff) cm))
    with (msm_buff_num_sats buff) in Hcases.
  change (msm_num_sigs (spec_msm_header buff RTCM_CONSTELLATION_BDS
                          (msm_buff_satellite_mask buff) (msm_buff_signal_mask buff) cm))
    with (msm_buff_num_sigs buff) in Hcases.
  change (msm_tow_out_of_range RTCM_CONSTELLATION_BDS (spec_bds_tow raw))
    with (spec_bds_tow raw >? RTCM_MAX_TOW_MS) in Hcases.
  unfold spec_bds_tow in Hcases.
  unfold RTCM_MAX_TOW_MS, C_2P30, BDS_SECOND_TO_GPS_SECOND in *.
  change (2 ^ 30 - 14 * 1000) with 1073727824 in Hcases.
  change (1073741824 - 14 * 1000) with 1073727824.
  destruct Hcases as [(-> & -> & Hbad) | (-> & Htow & _)].
  - destruct Hbad as [Htow | Hgt]; [|unfold MSM_MAX_CELLS in *; lia].
    split; [|discriminate].
    destruct (Z.geb_spec raw 1073727824); [lia|].
    destruct (Z.ltb_spec 604799999 raw); [|lia].
    destruct (Z.ltb_spec raw 1073727824); [|lia]. reflexivity.
  - destruct (rtcm3_decode_msm_internal_layout _ _ _ _ H Hlsm Hlgm)
      as ((cm' & Hh & _) & _).
    cbv zeta in Hh. rewrite Hh, Hcons.
    change (Msm.tow_ms (spec_msm_header buff RTCM_CONSTELLATION_BDS
                          (msm_buff_satellite_mask buff) (msm_buff_signal_mask buff) cm'))
      with (spec_bds_tow raw).
    unfold spec_bds_tow, RTCM_MAX_TOW_MS.
    change (2 ^ 30 - 14 * 1000) with 1073727824.
    destruct (Z.geb_spec raw 1073727824) as [Hge | Hlt].
    + destruct (Z.ltb_spec raw 1073727824); [lia|].
      rewrite andb_false_r. split; [reflexivity|]. intros _.
      destruct (Z.leb_spec raw 604799999); [lia|].
      change (2 ^ 30) with 1073741824. lia.
    + destruct (Z.ltb_spec 604799999 raw); [lia|]. cbn [andb].
      split; [reflexivity|]. intros _.
      destruct (Z.leb_spec raw 604799999); [|lia]. lia.
Qed.

Lemma msm_bds_tow_window_witness :
  fst (@rtcm3_decode_msm_internal spec_externals buff_msm7_bds MSM7 msm_message_zero)
  = RC_OK
  /\ Msm.tow_ms (Msm.header (snd (@rtcm3_decode_msm_internal spec_externals buff_msm7_bds
                                   MSM7 msm_message_zero)))
     = 604795000.
Proof.
  destruct (@msm_bds_tow_window spec_externals buff_msm7_bds MSM7 msm_message_zero
              eq_refl eq_refl eq_refl ltac:(vm_compute; reflexivity)
              ltac:(vm_compute; reflexivity)
              ltac:(apply Z.leb_le; vm_compute; reflexivity))
    as [Hrc Htow].
  split; [rewrite Hrc; vm_compute; reflexivity|].
  destruct (Htow ltac:(rewrite Hrc; vm_compute; reflexivity)) as [E _].
  rewrite E. vm_compute. reflexivity.
Defined.

(* ------------------------------------------------------------------ *)
(** ** MSM: the four entry points *)

Lemma msm_enum_eqb_eq (a b : msm_enum) : msm_enum_eqb a b = true -> a = b.
Proof. destruct a, b; intros H; try reflexivity; discriminate H. Qed.

Section MsmEntryPoints.
Context `{Ext : rtcm_externals}.

(** A requested type that is not the type of the message number in the
    buffer is refused. *)
Lemma rtcm3_decode_msm_internal_mismatch buff t msg :
  negb (is_msm4567 t) || negb (msm_enum_eqb t (to_msm_type (rtcm_getbitu buff 0 12))) = true ->
  fst (rtcm3_decode_msm_internal buff t msg) = RC_MESSAGE_TYPE_MISMATCH.
Proof.
  intros Hc.
  destruct (rtcm3_decode_msm_internal buff t msg) as [rc out] eqn:H. cbn [fst].
  destruct (is_msm4567 t) eqn:Hty; cbn [negb orb] in Hc.
  2: { unfold rtcm3_decode_msm_internal in H. rewrite Hty in H. cbn [negb] in H.
       injection H as <- <-. reflexivity. }
  destruct msg as [hdr sats signals]. destruct hdr.
  unfold rtcm3_decode_msm_internal in H. rewrite Hty in H. cbn [negb] in H.
  cbv zeta in H. msm_header_simpl_in H.
  destruct (msm_enum_eqb t (to_msm_type (rtcm_getbitu buff 0 12))) eqn:Hnum;
    [discriminate Hc|].
  cbn [negb] in H. injection H as <- <-. reflexivity.
Qed.

End MsmEntryPoints.

(** The four entry points exclude each other.  When the decoder of one
    MSM type returns anything but [RC_MESSAGE_TYPE_MISMATCH] for a buffer,
    the type is one of MSM4 to MSM7 and is the type of the message number
    in the buffer, and each of [rtcm3_decode_msm4] to [rtcm3_decode_msm7]
    that is for another type returns [RC_MESSAGE_TYPE_MISMATCH] for this
    buffer, whatever record it is given. *)
Theorem msm_entry_points_exclusive `{Ext : rtcm_externals}
    (buff : list Byte.byte) (t : msm_enum) (msg msg' : Msm.rtcm_msm_message) :
  fst (rtcm3_decode_msm_internal buff t msg) <> RC_MESSAGE_TYPE_MISMATCH ->
  is_msm4567 t = true
  /\ to_msm_type (rtcm_getbitu buff 0 12) = t
  /\ (t <> MSM4 -> fst (rtcm3_decode_msm4 buff msg') = RC_MESSAGE_TYPE_MISMATCH)
  /\ (t <> MSM5 -> fst (rtcm3_decode_msm5 buff msg') = RC_MESSAGE_TYPE_MISMATCH)
  /\ (t <> MSM6 -> fst (rtcm3_decode_msm6 buff msg') = RC_MESSAGE_TYPE_MISMATCH)
  /\ (t <> MSM7 -> fst (rtcm3_decode_msm7 buff msg') = RC_MESSAGE_TYPE_MISMATCH).
Proof.
  intros Hrc.
  assert (Hok : is_msm4567 t = true
                /\ msm_enum_eqb t (to_msm_type (rtcm_getbitu buff 0 12)) = true).
  { destruct (is_msm4567 t) eqn:Hty,
      (msm_enum_eqb t (to_msm_type (rtcm_getbitu buff 0 12))) eqn:Hnum;
      try (split; reflexivity);
      exfalso; apply Hrc; apply rtcm3_decode_msm_internal_mismatch;
      rewrite ?Hty, ?Hnum; reflexivity. }
  destruct Hok as [Hty Hnum]. apply msm_enum_eqb_eq in Hnum.
  split; [exact Hty|]. split; [symmetry; exact Hnum|].
  unfold rtcm3_decode_msm4, rtcm3_decode_msm5, rtcm3_decode_msm6, rtcm3_decode_msm7.
  repeat split; intros Hne; apply rtcm3_decode_msm_internal_mismatch;
    rewrite <- Hnum; destruct t; try contradiction; reflexivity.
Qed.

Lemma msm_entry_points_exclusive_witness :
  fst (@rtcm3_decode_msm5 spec_externals buff_msm4 msm_message_zero)
  = RC_MESSAGE_TYPE_MISMATCH
  /\ fst (@rtcm3_decode_msm7 spec_externals buff_msm4 msm_message_zero)
     = RC_MESSAGE_TYPE_MISMATCH.
Proof.
  destruct (@msm_entry_points_exclusive spec_externals buff_msm4 MSM4 msm_message_zero
              msm_message_zero ltac:(vm_compute; discriminate))
    as (_ & _ & _ & H5 & _ & H7).
  split; [apply H5 | apply H7]; discriminate.
Defined.
